(** * iSuite build tooling: command runners, build history and CI/CD analyzer

    A shallow embedding of the Python sources of the iSuite master
    applications, with the properties of their build history, output
    classification, single-flight guard and analyze-then-fix pipeline.

    Conventions of the embedding:
    - Python [str] values are [string]s of 8-bit characters; [str.lower]
      and [str.strip] act on the ASCII range.
    - Python [int] counters are [Z]; durations and clock readings
      ([time.time()] differences) are exact rationals [Q].
    - A method that mutates [self] is a function from the object's state to
      its new state; the file system and the child processes are explicit
      inputs. *)

From Stdlib Require Import ZArith QArith String Ascii List Bool Lia DecimalString.
From stdpp Require Import base gmap strings list.

Open Scope Z_scope.

(** ** Python string operations used by the sources *)

Module PyStr.

Definition nl : ascii := "010"%char.

(** The line feed as a one-character string, the separator of
    [content.split('\n')] and ['\n'.join(lines)]. *)
Definition NL : string := String nl "".

Definition is_upper (c : ascii) : bool :=
  let n := nat_of_ascii c in (65 <=? n)%nat && (n <=? 90)%nat.

Definition lower_char (c : ascii) : ascii :=
  if is_upper c then ascii_of_nat (nat_of_ascii c + 32) else c.

(** [s.lower()] *)
Fixpoint lower (s : string) : string :=
  match s with
  | EmptyString => EmptyString
  | String c s' => String (lower_char c) (lower s')
  end.

(** [s.startswith(p)] *)
Fixpoint startswith (p s : string) : bool :=
  match p, s with
  | EmptyString, _ => true
  | String _ _, EmptyString => false
  | String a p', String b s' => Ascii.eqb a b && startswith p' s'
  end.

(** [p in s] for strings: [p] occurs in [s] as a contiguous substring. *)
Fixpoint contains (p s : string) : bool :=
  startswith p s ||
  match s with
  | EmptyString => false
  | String _ s' => contains p s'
  end.

(** [any(p in s for p in ps)] *)
Definition contains_any (ps : list string) (s : string) : bool :=
  existsb (fun p => contains p s) ps.

(** [s.split('\n')]: never empty, [''.split('\n') == ['']]. *)
Fixpoint split_nl (s : string) : list string :=
  match s with
  | EmptyString => [EmptyString]
  | String c s' =>
      if Ascii.eqb c nl then EmptyString :: split_nl s'
      else match split_nl s' with
           | l :: ls => String c l :: ls
           | [] => [String c EmptyString]
           end
  end.

(** ['\n'.join(ls)] *)
Fixpoint join_nl (ls : list string) : string :=
  match ls with
  | [] => EmptyString
  | [l] => l
  | l :: ls' => l +:+ NL +:+ join_nl ls'
  end.

(** The characters [str.strip()] removes, in the 8-bit range. *)
Definition is_space (c : ascii) : bool :=
  let n := nat_of_ascii c in
  ((9 <=? n)%nat && (n <=? 13)%nat) || ((28 <=? n)%nat && (n <=? 32)%nat).

Fixpoint lstrip (s : string) : string :=
  match s with
  | EmptyString => EmptyString
  | String c s' => if is_space c then lstrip s' else s
  end.

Fixpoint rstrip (s : string) : string :=
  match s with
  | EmptyString => EmptyString
  | String c s' =>
      match rstrip s' with
      | EmptyString => if is_space c then EmptyString else String c EmptyString
      | r => String c r
      end
  end.

(** [s.strip()] *)
Definition strip (s : string) : string := rstrip (lstrip s).

(** [s[:n]] *)
Fixpoint take_str (n : nat) (s : string) : string :=
  match n, s with
  | O, _ => EmptyString
  | _, EmptyString => EmptyString
  | S n', String c s' => String c (take_str n' s')
  end.

(** Truthiness of a string: [if s:]. *)
Definition nonempty (s : string) : bool :=
  match s with EmptyString => false | _ => true end.

End PyStr.

(** ** master_gui_app.py: build history and statistics *)

Module MasterGui.
Import PyStr.

(** One entry of [self.build_history]. *)
Record BuildRecord := mkBuildRecord {
  timestamp : Q;
  command : string;
  description : string;
  success : bool;
  duration : Q;
  error_message : option string;
  platform : string
}.

(** [self.build_stats] *)
Record BuildStats := mkBuildStats {
  total_builds : Z;
  successful_builds : Z;
  failed_builds : Z;
  average_build_time : Q;
  last_build_time : option Q
}.

(** The JSON document in [~/.isuite_master_build_history.json]; a key may be
    absent, [load_build_history] reads both with [dict.get]. *)
Record SavedData := mkSavedData {
  saved_history : option (list BuildRecord);
  saved_stats : option BuildStats
}.

(** The history file: its content when it exists, and whether [open(.., 'w')]
    succeeds. *)
Record Disk := mkDisk {
  history_file : option SavedData;
  writable : bool
}.

(** The part of a [MasterGUIApp] object the history code reads and writes,
    together with the disk it persists to. *)
Record App := mkApp {
  build_history : list BuildRecord;
  build_stats : BuildStats;
  disk : Disk
}.

Definition zero_stats : BuildStats :=
  mkBuildStats 0 0 0 0%Q None.

(** [_extract_platform_from_command]; [cmd] is [str(command)]. *)
Definition _extract_platform_from_command (cmd : string) : string :=
  let cmd_str := lower cmd in
  if contains "windows" cmd_str then "windows"
  else if contains "android" cmd_str || contains "apk" cmd_str then "android"
  else if contains "ios" cmd_str then "ios"
  else if contains "web" cmd_str then "web"
  else "unknown".

(** [self.build_history[-100:]] *)
Definition last100 (h : list BuildRecord) : list BuildRecord :=
  drop (length h - 100)%nat h.

(** [save_build_history]: the last 100 records and the statistics as they
    are; a failed write is logged and leaves the file as it was. *)
Definition save_build_history (a : App) : App :=
  if writable (disk a) then
    mkApp (build_history a) (build_stats a)
          (mkDisk (Some (mkSavedData (Some (last100 (build_history a)))
                                     (Some (build_stats a))))
                  true)
  else a.

(** [load_build_history] *)
Definition load_build_history (a : App) : App :=
  match history_file (disk a) with
  | None => a
  | Some data =>
      mkApp (default [] (saved_history data))
            (default (build_stats a) (saved_stats data))
            (disk a)
  end.

(** How the constructor ends. *)
Inductive Constructed :=
| Built (a : App)
| ConstructorRaised (exception : string).

(** [__init__]: the call [self.load_config()] of line 32 names a method the
    class does not define, so the constructor raises [AttributeError] there,
    before [build_history] and [build_stats] are created (lines 45 to 52)
    and before [load_build_history] is called (line 55): no object is
    built and the history file is not read back. *)
Definition init (d : Disk) : Constructed :=
  ConstructorRaised
    "AttributeError: 'MasterGUIApp' object has no attribute 'load_config'".

(** [sum(h['duration'] for h in self.build_history if h['success'])] *)
Definition total_time (h : list BuildRecord) : Q :=
  fold_left Qplus (map duration (filter (fun r => success r = true) h)) 0%Q.

(** The arguments of one [record_build_attempt] call, with the two readings
    of [time.time()] it makes. *)
Record Attempt := mkAttempt {
  at_now_record : Q;
  at_now_stats : Q;
  at_command : string;
  at_description : string;
  at_success : bool;
  at_duration : Q;
  at_error_message : option string
}.

Definition record_of (t : Attempt) : BuildRecord :=
  mkBuildRecord (at_now_record t) (at_command t) (at_description t)
                (at_success t) (at_duration t) (at_error_message t)
                (_extract_platform_from_command (at_command t)).

(** [record_build_attempt] *)
Definition record_build_attempt (t : Attempt) (a : App) : App :=
  let history := build_history a ++ [record_of t] in
  let s := build_stats a in
  let total := total_builds s + 1 in
  let succ := if at_success t then successful_builds s + 1
              else successful_builds s in
  let failed := if at_success t then failed_builds s
                else failed_builds s + 1 in
  let avg := if 0 <? succ then (total_time history / inject_Z succ)%Q
             else average_build_time s in
  save_build_history
    (mkApp history
           (mkBuildStats total succ failed avg (Some (at_now_stats t)))
           (disk a)).

(** A run of the application: the attempts recorded one after the other. *)
Definition record_all (ts : list Attempt) (a : App) : App :=
  fold_left (fun acc t => record_build_attempt t acc) ts a.

(** [_calculate_success_rate] *)
Definition _calculate_success_rate (s : BuildStats) : Q :=
  if total_builds s =? 0 then 0%Q
  else (inject_Z (successful_builds s) / inject_Z (total_builds s) * 100)%Q.

(** The metrics recomputed from a history alone: number of entries, of
    succeeded and of failed entries, and the mean duration of the succeeded
    ones (0 when there is none). *)
Record Metrics := mkMetrics {
  m_total : Z;
  m_succeeded : Z;
  m_failed : Z;
  m_average : Q
}.

Definition count_succeeded (h : list BuildRecord) : Z :=
  Z.of_nat (length (filter (fun r => success r = true) h)).

Definition count_failed (h : list BuildRecord) : Z :=
  Z.of_nat (length (filter (fun r => success r = false) h)).

Definition fold_metrics (h : list BuildRecord) : Metrics :=
  mkMetrics (Z.of_nat (length h)) (count_succeeded h) (count_failed h)
            (if 0 <? count_succeeded h
             then (total_time h / inject_Z (count_succeeded h))%Q
             else 0%Q).

(** The metrics the application holds. *)
Definition metrics (a : App) : Metrics :=
  let s := build_stats a in
  mkMetrics (total_builds s) (successful_builds s) (failed_builds s)
            (average_build_time s).

End MasterGui.

(** ** master_gui_app.py: tagging of captured output in [run_command_async] *)

Module MasterGuiLog.
Import PyStr.

(** The tags [self.log] is called with. *)
Inductive Tag := info | warning | error | success.

Definition error_words : list string := ["error"; "failed"; "exception"].
Definition warn_words : list string := ["warning"; "deprecated"].

(** The tag of one line of [result.stdout] (the [if]/[elif]/[else] of the
    loop over [lines]). *)
Definition stdout_line_tag (line : string) : Tag :=
  if contains_any error_words (lower line) then error
  else if contains_any warn_words (lower line) then warning
  else info.

(** The tag of one line of [result.stderr]: decided by the exit code. *)
Definition stderr_line_tag (returncode : Z) (line : string) : Tag :=
  if returncode =? 0 then warning else error.

(** The [self.log(line, tag)] calls made for the captured output, in order:
    first the lines of stdout, then those of stderr. *)
Definition log_output (stdout stderr : string) (returncode : Z)
  : list (string * Tag) :=
  (if nonempty stdout
   then map (fun line => (line, stdout_line_tag line)) (split_nl (strip stdout))
   else []) ++
  (if nonempty stderr
   then map (fun line => (line, stderr_line_tag returncode line))
            (split_nl (strip stderr))
   else []).

End MasterGuiLog.

(** ** isuite_master_app.py: [BuildManager.run_flutter_command] *)

Module IsuiteMaster.
Import PyStr.

(** One entry of [self.build_history]. *)
Record HistoryEntry := mkHistoryEntry {
  h_timestamp : string;
  h_command : string;
  h_success : bool;
  h_output : string;
  h_errors : list string
}.

Record BuildManager := mkBuildManager {
  project_path : string;
  is_building : bool;
  build_history : list HistoryEntry
}.

(** [self.error_patterns], in insertion order. *)
Definition error_patterns : list (string * list string) :=
  [ ("compilation_error", ["error:"; "Error:"; "ERROR:"]);
    ("dependency_error", ["failed:"; "Failed:"; "FAILED:"]);
    ("permission_error",
       ["permission denied"; "Permission denied"; "access denied"]);
    ("flutter_error", ["FlutterError"; "flutter:"]);
    ("import_error", ["import error"; "ImportError"]) ].

(** [any(pattern in line for patterns in self.error_patterns.values()
         for pattern in patterns)] *)
Definition is_error_line (line : string) : bool :=
  existsb (fun patterns => existsb (fun pattern => contains pattern line)
                                   (snd patterns))
          error_patterns.

(** The exceptions the two handlers of the method tell apart. *)
Inductive Exn := TimeoutExpired | OtherException (msg : string).

(** One call of [process.stdout.readline()]: the text read (the empty string
    at end of file), or the exception the call raises (a
    [UnicodeDecodeError] on bytes that do not decode, the pipe being opened
    with [text=True]). *)
Inductive Read :=
| Line (line : string)
| ReadRaised (e : Exn).

(** What [subprocess.Popen] and the child process give the method: the spawn
    raises, or the child is started; [stdout] holds the successive results
    of [readline()] and [returncode] is the exit code of the process, which
    the method reads after [process.wait()]. *)
Inductive Child :=
| SpawnRaised (e : Exn)
| Spawned (stdout : list Read) (returncode : Z).

(** [output_callback], when one is given: called with the arguments of the
    calls made before and with the stripped line, it returns or raises. *)
Definition Callback : Type := list string -> string -> option Exn.

(** The local variables of the reading loop; [notified] collects the
    arguments of the [output_callback] calls. *)
Record Loop := mkLoop {
  output_lines : list string;
  error_detected : bool;
  error_details : list string;
  notified : list string
}.

(** The body of the loop up to the callback. *)
Definition scan_line (st : Loop) (line : string) : Loop :=
  let hit := is_error_line line in
  mkLoop (output_lines st ++ [strip line])
         (if hit then true else error_detected st)
         (if hit then error_details st ++ [strip line] else error_details st)
         (notified st).

(** The call [output_callback(line.strip())] is made. *)
Definition notify (st : Loop) (line : string) : Loop :=
  mkLoop (output_lines st) (error_detected st) (error_details st)
         (notified st ++ [strip line]).

(** [for line in iter(process.stdout.readline, ''): ...]: the loop ends at
    the first [''], or with the exception [readline] or the callback
    raises.  The result is the local state and the exception, if any. *)
Fixpoint read_loop (output_callback : option Callback) (reads : list Read)
    (st : Loop) : Loop * option Exn :=
  match reads with
  | [] => (st, None)
  | ReadRaised e :: _ => (st, Some e)
  | Line line :: rest =>
      if nonempty line then
        let st := scan_line st line in
        match output_callback with
        | None => read_loop output_callback rest st
        | Some callback =>
            match callback (notified st) (strip line) with
            | Some e => (notify st line, Some e)
            | None => read_loop output_callback rest (notify st line)
            end
        end
      else (st, None)
  end.

(** [' '.join(command)] *)
Fixpoint join_sp (ws : list string) : string :=
  match ws with
  | [] => ""
  | [w] => w
  | w :: ws' => w +:+ " " +:+ join_sp ws'
  end.

(** [''.join(error_details)] *)
Definition concat_str (ws : list string) : string :=
  fold_right String.append "" ws.

(** The result of one call: the returned pair, the object afterwards and the
    lines handed to the callback. *)
Record CallResult := mkCallResult {
  returned : bool * string;
  manager : BuildManager;
  callback_lines : list string
}.

(** What the two [except] clauses return. *)
Definition failure (e : Exn) : bool * string :=
  match e with
  | TimeoutExpired => (false, "Command timed out")
  | OtherException msg => (false, "Command execution error: " +:+ msg)
  end.

(** [run_flutter_command]; [now] is [datetime.now().isoformat()].  The
    spawn, the loop and the callback all run inside the [try]: an exception
    of any of them ends the call in an [except] clause, before the history
    entry is appended. *)
Definition run_flutter_command (bm : BuildManager) (now : string)
    (command : list string) (output_callback : option Callback)
    (child : Child) : CallResult :=
  match child with
  | SpawnRaised e => mkCallResult (failure e) bm []
  | Spawned stdout returncode =>
      match read_loop output_callback stdout (mkLoop [] false [] []) with
      | (st, Some e) => mkCallResult (failure e) bm (notified st)
      | (st, None) =>
          let success := (returncode =? 0) && negb (error_detected st) in
          let output := join_nl (output_lines st) in
          let output :=
            if error_detected st
            then output +:+ NL +:+ NL +:+ "ERRORS DETECTED:" +:+ NL
                        +:+ concat_str (error_details st)
            else output in
          let entry :=
            mkHistoryEntry now (join_sp command) success output
                           (if error_detected st then error_details st
                            else []) in
          mkCallResult (success, output)
                       (mkBuildManager (project_path bm) (is_building bm)
                                       (build_history bm ++ [entry]))
                       (notified st)
      end
  end.

End IsuiteMaster.

(** ** build_manager.py: [BuildManager.run_command] and its worker thread *)

Module BuildMgr.
Import PyStr.

(** One entry of [self.build_history]; [he_return_code] and [he_error] are
    the keys only some entries have. *)
Record HistoryEntry := mkHistoryEntry {
  he_timestamp : string;
  he_command : string;
  he_description : string;
  he_status : string;
  he_return_code : option Z;
  he_error : option string
}.

(** A worker thread started by [run_command] that has not finished: the
    command and description its closure holds.  The child process is spawned
    by the worker and by nothing else.  The console widget and the log file
    written by [log_message] are not part of the state. *)
Record Worker := mkWorker {
  w_command : string;
  w_description : string
}.

Record BuildManager := mkBuildManager {
  is_building : bool;
  progress_running : bool;
  status_var : string;
  build_history : list HistoryEntry;
  history_json : option (list HistoryEntry);
  workers : list Worker;
  dialogs : list (string * string)
}.

(** The object at the end of [__init__], before any command. *)
Definition init : BuildManager :=
  mkBuildManager false false "Ready" [] None [] [].

(** How a Python call ends. *)
Inductive Outcome :=
| ReturnedNone
| Raised (exception : string).

(** [run_command]: the guard on [self.is_building], else the flag is set and
    the worker thread is started. *)
Definition run_command (command description : string) (bm : BuildManager)
  : Outcome * BuildManager :=
  if is_building bm then
    (ReturnedNone,
     mkBuildManager (is_building bm) (progress_running bm) (status_var bm)
       (build_history bm) (history_json bm) (workers bm)
       (dialogs bm ++
          [("Build in Progress", "Another build is already running!")]))
  else
    (ReturnedNone,
     mkBuildManager true true ("Running: " +:+ description)
       (build_history bm) (history_json bm)
       (workers bm ++ [mkWorker command description])
       (dialogs bm)).

(** What happens inside a worker.  The [try] block runs to its end, the
    child having printed [lines] and returned [return_code]; or an exception
    is raised on the way ([os.chdir], [Popen], a [log_message] call) and the
    handler logs it and appends its entry; or the [log_message] call of the
    handler raises as well, before the handler's append: then no entry is
    added and the exception leaves the thread after the [finally] block. *)
Inductive Run :=
| Exited (lines : list string) (return_code : Z)
| Excepted (message : string)
| Unlogged (message : string).

(** The entry the worker appends, if it appends one; each append follows a
    [log_message] call. *)
Definition worker_entry (w : Worker) (r : Run) (now : string)
  : option HistoryEntry :=
  match r with
  | Exited _ return_code =>
      if return_code =? 0
      then Some (mkHistoryEntry now (w_command w) (w_description w) "SUCCESS"
                                None None)
      else Some (mkHistoryEntry now (w_command w) (w_description w) "FAILED"
                                (Some return_code) None)
  | Excepted message =>
      Some (mkHistoryEntry now (w_command w) (w_description w) "EXCEPTION"
                           None (Some message))
  | Unlogged _ => None
  end.

(** [run_in_thread] of the [k]-th pending worker, run to its end: the
    history entry, if any, then the [finally] block, taken as one step (flag
    cleared, progress bar stopped, status line reset, history saved; the
    widget calls and the write of [build_history.json] are taken to
    succeed). *)
Definition run_in_thread (k : nat) (r : Run) (now : string)
    (bm : BuildManager) : BuildManager :=
  match workers bm !! k with
  | None => bm
  | Some w =>
      let history := build_history bm ++ option_list (worker_entry w r now) in
      mkBuildManager false false "Ready"
        history (Some history)
        (delete k (workers bm))
        (dialogs bm)
  end.

(** The events of a session: a button calls [run_command], or a pending
    worker finishes. *)
Inductive Event :=
| Call (command description : string)
| Finish (k : nat) (r : Run) (now : string).

Definition step (bm : BuildManager) (e : Event) : BuildManager :=
  match e with
  | Call command description => snd (run_command command description bm)
  | Finish k r now => run_in_thread k r now bm
  end.

Definition session (es : list Event) : BuildManager :=
  fold_left step es init.

End BuildMgr.

(** ** build_optimizer_enhanced.py: [generate_report] *)

Module BuildOptimizer.

Inductive CheckStatus := SUCCESS | WARNING | ERROR | INFO.

Record CheckResult := mkCheckResult {
  status : CheckStatus;
  message : string;
  details : option string;
  fix_suggestion : option string
}.

Definition CheckStatus_eqb (a b : CheckStatus) : bool :=
  match a, b with
  | SUCCESS, SUCCESS | WARNING, WARNING | ERROR, ERROR | INFO, INFO => true
  | _, _ => false
  end.

(** [len([r for r in results if r.status == s])] *)
Definition count_status (s : CheckStatus) (results : list CheckResult) : Z :=
  Z.of_nat (length (List.filter (fun r => CheckStatus_eqb (status r) s) results)).

(** The ['status'] entry of the summary:
    ['PASS' if error_count == 0 else 'FAIL' if error_count > 10 else 'WARNING'] *)
Definition summary_status (error_count : Z) : string :=
  if error_count =? 0 then "PASS"
  else if 10 <? error_count then "FAIL"
  else "WARNING".

(** The ['summary'] dictionary of the report. *)
Record Summary := mkSummary {
  total_checks : Z;
  success_count : Z;
  warning_count : Z;
  error_count : Z;
  info_count : Z;
  success_rate : Q;
  summary_state : string
}.

(** How the method ends. *)
Inductive Result (A : Type) :=
| Returned (a : A)
| RaisedError (exception : string).
Arguments Returned {A} a.
Arguments RaisedError {A} exception.

(** The value of a name in the body of [generate_report], outside its
    comprehensions; [bound] gives, for each name bound there to a checker
    object, the [results] of that object.  Only [self] is such a name: the
    module binds no global [r], and a comprehension keeps its variable to
    itself. *)
Definition name_value (bound : list (string * list CheckResult))
    (name : string) : Result (list CheckResult) :=
  match List.find (fun b => String.eqb (fst b) name) bound with
  | Some b => Returned (snd b)
  | None => RaisedError ("NameError: name '" +:+ name +:+ "' is not defined")
  end.

(** [generate_report], the summary of the dictionary it builds.  The first
    three counts iterate over [self.results]; the fourth iterates over
    [r.results], whose [r] is evaluated in the body of the method, before
    the comprehension starts. *)
Definition generate_report (results : list CheckResult) : Result Summary :=
  let bound := [("self", results)] in
  match name_value bound "self" with
  | RaisedError e => RaisedError e
  | Returned self_results =>
      let successes := count_status SUCCESS self_results in
      let warnings := count_status WARNING self_results in
      let errors := count_status ERROR self_results in
      match name_value bound "r" with
      | RaisedError e => RaisedError e
      | Returned r_results =>
          let infos := count_status INFO r_results in
          let total := Z.of_nat (length self_results) in
          Returned
            (mkSummary total successes warnings errors infos
               (if 0 <? total
                then (inject_Z successes / inject_Z total * 100)%Q
                else 0%Q)
               (summary_status errors))
      end
  end.

End BuildOptimizer.

(** ** ci_cd_analyzer.py: [CICDAnalyzer] *)

Module CICD.
Import PyStr.

(** An issue dictionary.  Workflow issues carry the key ["line"] (whose value
    is [None] when the pattern is on no line), the others the key ["file"];
    the ["heavy_dependency"] issue has the key ["lazy"] where the others
    have ["severity"]. *)
Record Issue := mkIssue {
  i_type : string;
  i_severity : option string;
  i_description : string;
  i_fix : string;
  i_line : option (option nat);
  i_file : option string;
  i_lazy : option string
}.

Definition line_issue (type severity description fix_text : string)
    (line : option nat) : Issue :=
  mkIssue type (Some severity) description fix_text (Some line) None None.

Definition file_issue (type severity description fix_text file : string)
  : Issue :=
  mkIssue type (Some severity) description fix_text None (Some file) None.

(** A path below [project_path]: a text file, or something [open] or [read]
    raises on (a directory, no permission, bytes that do not decode). *)
Inductive File :=
| Text (content : string)
| Unreadable (error : string).

(** A [subprocess.run] call: it completes, or raises (no executable, the
    timeout). *)
Inductive Subprocess :=
| Completed (returncode : Z) (stdout : string)
| Failed (error : string).

(** A file yielded by [project_path.glob("**/*.dart")]. *)
Record DartFile := mkDartFile {
  df_name : string;
  df_path : string;
  df_file : File
}.

(** What an analysis reads: the files by path relative to [project_path]
    (the current directory, as in [main]), the test directories, the Dart
    sources and the three [flutter] calls. *)
Record Project := mkProject {
  files : gmap string File;
  test_dir : option nat;
  integration_test_dir : bool;
  dart_files : list DartFile;
  flutter_pub_outdated : Subprocess;
  flutter_test_coverage : Subprocess;
  flutter_pub_deps : Subprocess
}.

(** [self.analysis_report] (its two lists) and the project. *)
Record Analyzer := mkAnalyzer {
  project : Project;
  report_issues : list Issue;
  report_fixes_applied : list string
}.

(** A method call returns a value and the object afterwards, or raises. *)
Inductive Exc (A : Type) :=
| Ok (a : A)
| Raise (exception : string).
Arguments Ok {A} a.
Arguments Raise {A} exception.

Definition M (A : Type) : Type := Analyzer -> Exc (A * Analyzer).

Definition ret {A} (x : A) : M A := fun a => Ok (x, a).

Definition raise {A} (e : string) : M A := fun _ => Raise e.

Definition bind {A B} (m : M A) (k : A -> M B) : M B :=
  fun a => match m a with
           | Ok (x, a') => k x a'
           | Raise e => Raise e
           end.

Notation "x <- m ;; k" := (bind m (fun x => k))
  (at level 65, m at next level, right associativity).

(** [self.analysis_report["issues"].extend(issues); return issues] *)
Definition extend_report (issues : list Issue) : M (list Issue) :=
  fun a => Ok (issues,
               mkAnalyzer (project a) (report_issues a ++ issues)
                          (report_fixes_applied a)).

(** [with open(path, 'r') as f: content = f.read()] for a path that exists. *)
Definition read_file (f : File) : M string :=
  match f with
  | Text content => ret content
  | Unreadable error => raise error
  end.

Fixpoint find_from (i : nat) (lines : list string) (pattern : string)
  : option nat :=
  match lines with
  | [] => None
  | line :: lines' =>
      if contains pattern line then Some i
      else find_from (S i) lines' pattern
  end.

(** [find_line_number] *)
Definition find_line_number (content pattern : string) : option nat :=
  find_from 1 (split_nl content) pattern.

(** The issues [analyze_workflow_structure] collects. *)
Definition workflow_issues (content : string) : list Issue :=
  (if negb (contains "timeout-minutes:" content)
   then [line_issue "timeout_missing" "medium"
           "No timeout specified for jobs"
           "Add timeout-minutes to all jobs"
           (find_line_number content "jobs:")]
   else []) ++
  (if negb (contains "cache:" content)
   then [line_issue "cache_missing" "medium"
           "No caching configured"
           "Add Flutter caching to speed up builds"
           (find_line_number content "uses: subosito/flutter-action@v2")]
   else []) ++
  (if negb (contains "continue-on-error:" content)
      && negb (contains "if: failure()" content)
   then [line_issue "error_handling_missing" "high"
           "No error handling in workflow"
           "Add continue-on-error or proper error handling"
           (find_line_number content "steps:")]
   else []) ++
  (if negb (contains "uses: actions/upload-artifact@v3" content)
   then [line_issue "artifact_upload_missing" "medium"
           "No artifact upload configured"
           "Add artifact upload for build results"
           (find_line_number content "flutter build")]
   else []).

(** [analyze_workflow_structure] *)
Definition analyze_workflow_structure (content : string) : M (list Issue) :=
  extend_report (workflow_issues content).

(** [str(n)] for a count. *)
Definition str_nat (n : nat) : string :=
  NilEmpty.string_of_uint (Nat.to_uint n).

(** [s.count(p)] for a pattern no proper prefix of which is a suffix of it,
    as ['outdated']: the number of positions where [p] starts. *)
Fixpoint count_sub (p s : string) : nat :=
  (if startswith p s then 1 else 0) +
  match s with
  | EmptyString => 0
  | String _ s' => count_sub p s'
  end.

(** The issues of the [try] block of [analyze_dependency_issues]. *)
Definition outdated_issues (run : Subprocess) : list Issue :=
  match run with
  | Completed returncode stdout =>
      if returncode =? 0 then
        let outdated_deps := count_sub "outdated" stdout in
        if (0 <? outdated_deps)%nat
        then [file_issue "outdated_dependencies" "medium"
                (str_nat outdated_deps +:+ " outdated dependencies")
                "Run 'flutter pub upgrade' to update dependencies"
                "pubspec.yaml"]
        else []
      else []
  | Failed error =>
      [file_issue "dependency_check_failed" "low"
         ("Failed to check dependencies: " +:+ error)
         "Ensure Flutter SDK is properly installed"
         "pubspec.yaml"]
  end.

(** The issues [analyze_dependency_issues] collects from the content of
    [pubspec.yaml]. *)
Definition dependency_issues (content : string) (p : Project) : list Issue :=
  (if negb (contains "sdk:" content)
   then [file_issue "sdk_constraint_missing" "high"
           "No SDK version constraint"
           "Add sdk: '>=2.17.0 <4.0.0' to pubspec.yaml"
           "pubspec.yaml"]
   else []) ++
  outdated_issues (flutter_pub_outdated p).

(** [analyze_dependency_issues] *)
Definition analyze_dependency_issues : M (list Issue) :=
  fun a =>
    match files (project a) !! "pubspec.yaml" with
    | Some f =>
        (content <- read_file f ;;
         extend_report (dependency_issues content (project a))) a
    | None => extend_report [] a
    end.

(** The issues [analyze_build_issues] collects from the content of
    [pubspec.yaml]. *)
Definition build_issues (content : string) : list Issue :=
  (if negb (contains "flutter_lints:" content)
   then [file_issue "linting_missing" "low"
           "No linting rules configured"
           "Add flutter_lints to dev_dependencies"
           "pubspec.yaml"]
   else []) ++
  (if negb (contains "flutter_test:" content)
   then [file_issue "test_dependencies_missing" "medium"
           "No test dependencies configured"
           "Add flutter_test to dev_dependencies"
           "pubspec.yaml"]
   else []) ++
  (if negb (contains "build_runner:" content)
      && contains "json_serializable:" content
   then [file_issue "build_runner_missing" "medium"
           "json_serializable requires build_runner"
           "Add build_runner to dev_dependencies"
           "pubspec.yaml"]
   else []).

(** [analyze_build_issues] *)
Definition analyze_build_issues : M (list Issue) :=
  fun a =>
    match files (project a) !! "pubspec.yaml" with
    | Some f =>
        (content <- read_file f ;; extend_report (build_issues content)) a
    | None => extend_report [] a
    end.

(** The issue of the coverage run of [analyze_test_issues]. *)
Definition coverage_issues (run : Subprocess) : list Issue :=
  match run with
  | Completed returncode _ =>
      if returncode =? 0 then []
      else [file_issue "test_coverage_failed" "medium"
              "Test coverage check failed"
              "Fix failing tests and ensure proper coverage"
              "test/"]
  | Failed error =>
      [file_issue "test_coverage_check_failed" "low"
         ("Failed to check test coverage: " +:+ error)
         "Ensure Flutter SDK is properly installed"
         "test/"]
  end.

(** The issues [analyze_test_issues] collects; [test_dir] is [None] without
    a [test] directory, else the number of files matching [**/*_test.dart]
    in it. *)
Definition test_issues (p : Project) : list Issue :=
  (match test_dir p with
   | None =>
       [file_issue "test_directory_missing" "high"
          "No test directory found"
          "Create test directory with unit tests"
          "test/"]
   | Some O =>
       [file_issue "no_test_files" "high"
          "No test files found in test directory"
          "Add unit tests to test directory"
          "test/"]
   | Some (S _) => []
   end) ++
  (if negb (integration_test_dir p)
   then [file_issue "integration_test_missing" "medium"
           "No integration test directory"
           "Create integration_test directory with integration tests"
           "integration_test/"]
   else []) ++
  coverage_issues (flutter_test_coverage p).

(** [analyze_test_issues] *)
Definition analyze_test_issues : M (list Issue) :=
  fun a => extend_report (test_issues (project a)) a.

(** The regular expressions of [sensitive_patterns]: a literal, a run of
    white space, a run of underscores and hyphens, and the closing single or
    double quote.  Each starred class is followed by a
    character outside the class, so skipping the whole run is what the
    backtracking search finds. *)
Inductive Tok :=
| Lit (s : string)
| Spaces
| Seps
| Quote.

Definition is_sep (c : ascii) : bool :=
  Ascii.eqb c "_"%char || Ascii.eqb c "-"%char.

Definition is_quote (c : ascii) : bool :=
  Ascii.eqb c "'"%char || Ascii.eqb c (ascii_of_nat 34).

Fixpoint skip (class : ascii -> bool) (s : string) : string :=
  match s with
  | EmptyString => EmptyString
  | String c s' => if class c then skip class s' else s
  end.

Fixpoint strip_prefix (p s : string) : option string :=
  match p, s with
  | EmptyString, _ => Some s
  | String _ _, EmptyString => None
  | String a p', String b s' =>
      if Ascii.eqb a b then strip_prefix p' s' else None
  end.

(** The pattern matches at the start of [s]. *)
Fixpoint match_here (toks : list Tok) (s : string) : bool :=
  match toks with
  | [] => true
  | Lit l :: toks' =>
      match strip_prefix l s with
      | Some rest => match_here toks' rest
      | None => false
      end
  | Spaces :: toks' => match_here toks' (skip is_space s)
  | Seps :: toks' => match_here toks' (skip is_sep s)
  | Quote :: toks' =>
      match s with
      | String c rest => is_quote c && match_here toks' rest
      | EmptyString => false
      end
  end.

Fixpoint search_from (toks : list Tok) (s : string) : bool :=
  match_here toks s ||
  match s with
  | EmptyString => false
  | String _ s' => search_from toks s'
  end.

(** [re.search(pattern, content, re.IGNORECASE)] for these patterns, whose
    literals are in lower case. *)
Definition re_search_ignorecase (toks : list Tok) (content : string) : bool :=
  search_from toks (lower content).

Definition assigned (keyword : list Tok) : list Tok :=
  keyword ++ [Spaces; Lit "="; Spaces; Quote].

Definition sensitive_patterns : list (list Tok) :=
  [ assigned [Lit "password"];
    assigned [Lit "api"; Seps; Lit "key"];
    assigned [Lit "secret"];
    assigned [Lit "token"];
    assigned [Lit "private"; Seps; Lit "key"] ].

(** The issues of one Dart file: one per pattern found; a file that cannot
    be read is reported on the console and skipped. *)
Definition dart_file_issues (d : DartFile) : list Issue :=
  match df_file d with
  | Text content =>
      flat_map
        (fun pattern =>
           if re_search_ignorecase pattern content
           then [file_issue "sensitive_data_found" "high"
                   ("Sensitive data pattern found in " +:+ df_name d)
                   "Remove or secure sensitive data"
                   (df_path d)]
           else [])
        sensitive_patterns
  | Unreadable _ => []
  end.

Definition vulnerable_packages : list string :=
  ["http: ^0.13.5"; "path: ^1.8.3"].

(** The issues of the dependency check of [analyze_security_issues]. *)
Definition vulnerable_issues (run : Subprocess) : list Issue :=
  match run with
  | Completed returncode stdout =>
      if returncode =? 0 then
        flat_map
          (fun package =>
             if contains package stdout
             then [file_issue "vulnerable_dependency" "high"
                     ("Vulnerable dependency: " +:+ package)
                     ("Update to a newer version of " +:+ package)
                     "pubspec.yaml"]
             else [])
          vulnerable_packages
      else []
  | Failed error =>
      [file_issue "dependency_security_check_failed" "low"
         ("Failed to check dependencies: " +:+ error)
         "Ensure Flutter SDK is properly installed"
         "pubspec.yaml"]
  end.

(** The issues [analyze_security_issues] collects. *)
Definition security_issues (p : Project) : list Issue :=
  flat_map dart_file_issues (dart_files p) ++
  vulnerable_issues (flutter_pub_deps p).

(** [analyze_security_issues] *)
Definition analyze_security_issues : M (list Issue) :=
  fun a => extend_report (security_issues (project a)) a.

Definition heavy_packages : list string :=
  ["firebase_core"; "google_maps_flutter"; "camera"; "video_player"].

Definition heavy_issue (package : string) : Issue :=
  mkIssue "heavy_dependency" None ("Heavy dependency: " +:+ package)
          "Consider lazy loading or alternatives" None (Some "pubspec.yaml")
          (Some "medium").

(** The issues [analyze_performance_issues] collects from the content of
    [pubspec.yaml]. *)
Definition performance_issues (content : string) : list Issue :=
  flat_map (fun package =>
              if contains package content then [heavy_issue package] else [])
           heavy_packages ++
  (if negb (contains "cached_network_image:" content)
      && contains "http:" content
   then [file_issue "image_caching_missing" "medium"
           "HTTP requests without caching"
           "Add cached_network_image for HTTP requests"
           "pubspec.yaml"]
   else []).

(** [analyze_performance_issues].  The second check reads [content] outside
    the [if pubspec_path.exists()] block that binds it. *)
Definition analyze_performance_issues : M (list Issue) :=
  fun a =>
    match files (project a) !! "pubspec.yaml" with
    | Some f =>
        (content <- read_file f ;; extend_report (performance_issues content)) a
    | None => Raise "UnboundLocalError"
    end.

(** What [analyze_ci_cd_failure] returns: the dictionary with the key
    ["error"], or [self.analysis_report]. *)
Inductive Analysis :=
| WorkflowNotFound (error : string)
| Report (issues : list Issue) (fixes_applied : list string).

Definition current_report : M Analysis :=
  fun a => Ok (Report (report_issues a) (report_fixes_applied a), a).

(** [analyze_ci_cd_failure] *)
Definition analyze_ci_cd_failure (workflow_file : string) : M Analysis :=
  fun a =>
    match files (project a) !! workflow_file with
    | None =>
        Ok (WorkflowNotFound ("Workflow file not found: " +:+ workflow_file), a)
    | Some f =>
        (content <- read_file f ;;
         _ <- analyze_workflow_structure content ;;
         _ <- analyze_dependency_issues ;;
         _ <- analyze_build_issues ;;
         _ <- analyze_test_issues ;;
         _ <- analyze_security_issues ;;
         _ <- analyze_performance_issues ;;
         current_report) a
    end.

(** *** The timeout fix *)

Definition timeout_line : string := "    timeout-minutes: 30".

Definition is_timeout_anchor (line : string) : bool :=
  contains "jobs:" line || contains "steps:" line.

(** The loop building [modified_lines]. *)
Definition add_timeouts (lines : list string) : list string :=
  flat_map (fun line => if is_timeout_anchor line then [line; timeout_line]
                        else [line])
           lines.

(** The content [fix_timeout_missing] writes for the content it read. *)
Definition timeout_fix (content : string) : string :=
  join_nl (add_timeouts (split_nl content)).

Definition default_workflow : string := ".github/workflows/ci.yml".

(** [str(e)] of the [FileNotFoundError] of [open]. *)
Definition no_such_file (path : string) : string :=
  "[Errno 2] No such file or directory: '" +:+ path +:+ "'".

Definition write_file (path content : string) (a : Analyzer) : Analyzer :=
  mkAnalyzer
    (mkProject (<[path := Text content]> (files (project a)))
               (test_dir (project a)) (integration_test_dir (project a))
               (dart_files (project a)) (flutter_pub_outdated (project a))
               (flutter_test_coverage (project a))
               (flutter_pub_deps (project a)))
    (report_issues a) (report_fixes_applied a).

(** [fix_timeout_missing]: the message returned and the object (with its
    files) afterwards. *)
Definition fix_timeout_missing (issue : Issue) (a : Analyzer)
  : string * Analyzer :=
  let workflow_file := default default_workflow (i_file issue) in
  match files (project a) !! workflow_file with
  | Some (Text content) =>
      ("Added timeout-minutes: 30 to jobs",
       write_file workflow_file (timeout_fix content) a)
  | Some (Unreadable error) => ("Failed to fix timeout: " +:+ error, a)
  | None => ("Failed to fix timeout: " +:+ no_such_file workflow_file, a)
  end.

End CICD.

(** ** ci_cd_analyzer.py: the other fixes and the report *)

Module CICDFixes.
Import PyStr CICD.

(** The body shared by the fixes of one file: read it, build the new
    content, write it; the [except] clause turns a failure into the message
    [failed] followed by the text of the exception.  [transform] raises when
    the loop over the lines does. *)
Definition rewrite_file (path : string) (transform : string -> Exc string)
    (done failed : string) (a : Analyzer) : string * Analyzer :=
  match files (project a) !! path with
  | Some (Text content) =>
      match transform content with
      | Ok content' => (done, write_file path content' a)
      | Raise e => (failed +:+ e, a)
      end
  | Some (Unreadable error) => (failed +:+ error, a)
  | None => (failed +:+ no_such_file path, a)
  end.

(** *** Workflow fixes *)

Definition cache_lines : list string :=
  [ "        cache: true";
    "        cache-key: flutter-${{ runner.os }}-${{ hashFiles('**/pubspec.lock') }}";
    "        cache-path: ${{ env.PUB_CACHE }}" ].

Definition add_cache (lines : list string) : list string :=
  flat_map (fun line =>
              if contains "uses: subosito/flutter-action@v2" line
              then line :: cache_lines else [line])
           lines.

Definition cache_fix (content : string) : string :=
  join_nl (add_cache (split_nl content)).

(** [fix_cache_missing] *)
Definition fix_cache_missing (issue : Issue) (a : Analyzer)
  : string * Analyzer :=
  rewrite_file (default default_workflow (i_file issue))
    (fun content => Ok (cache_fix content))
    "Added Flutter caching to workflow" "Failed to add caching: " a.

Definition continue_line : string := "    continue-on-error: true".

Definition add_continue (lines : list string) : list string :=
  flat_map (fun line => if contains "steps:" line then [line; continue_line]
                        else [line])
           lines.

Definition error_handling_fix (content : string) : string :=
  join_nl (add_continue (split_nl content)).

(** [fix_error_handling_missing] *)
Definition fix_error_handling_missing (issue : Issue) (a : Analyzer)
  : string * Analyzer :=
  rewrite_file (default default_workflow (i_file issue))
    (fun content => Ok (error_handling_fix content))
    "Added continue-on-error: true to steps" "Failed to add error handling: " a.

Definition upload_lines : list string :=
  [ "    - name: Upload build artifacts";
    "      uses: actions/upload-artifact@v3";
    "      with:";
    "        name: build-artifacts";
    "        path: build/";
    "        retention-days: 30" ].

Definition add_upload (lines : list string) : list string :=
  flat_map (fun line => if contains "flutter build" line
                        then line :: upload_lines else [line])
           lines.

Definition artifact_upload_fix (content : string) : string :=
  join_nl (add_upload (split_nl content)).

(** [fix_artifact_upload_missing] *)
Definition fix_artifact_upload_missing (issue : Issue) (a : Analyzer)
  : string * Analyzer :=
  rewrite_file (default default_workflow (i_file issue))
    (fun content => Ok (artifact_upload_fix content))
    "Added artifact upload to workflow" "Failed to add artifact upload: " a.

(** *** Fixes of [pubspec.yaml] *)

(** The loop variables of the fixes that look for a section: the lines
    built so far and the flag set at the section header. *)
Record Scan := mkScan {
  modified_lines : list string;
  in_section : bool
}.

(** One turn of the loop of [fix_linting_missing] and
    [fix_test_dependencies_missing]: after a [dev_dependencies:] line the
    lines [added] are appended; the [elif] and the [else] branch both keep
    the line. *)
Definition dev_dependencies_step (marker : string) (added : list string)
    (st : Scan) (line : string) : Scan :=
  if contains "dev_dependencies:" line then
    mkScan (modified_lines st ++ line :: added) true
  else if in_section st && negb (contains marker line)
          && negb (contains "}" line) then
    mkScan (modified_lines st ++ [line]) (in_section st)
  else
    mkScan (modified_lines st ++ [line]) (in_section st).

Definition linting_fix (content : string) : string :=
  join_nl (modified_lines
             (fold_left (dev_dependencies_step "flutter_lints:"
                                               ["  flutter_lints: ^3.0.1"])
                        (split_nl content) (mkScan [] false))).

(** [fix_linting_missing] *)
Definition fix_linting_missing (issue : Issue) (a : Analyzer)
  : string * Analyzer :=
  rewrite_file "pubspec.yaml" (fun content => Ok (linting_fix content))
    "Added flutter_lints to dev_dependencies" "Failed to add linting: " a.

Definition test_dependencies_fix (content : string) : string :=
  join_nl (modified_lines
             (fold_left (dev_dependencies_step "flutter_test:"
                                               ["  flutter_test:"; "  sdk: flutter"])
                        (split_nl content) (mkScan [] false))).

(** [fix_test_dependencies_missing] *)
Definition fix_test_dependencies_missing (issue : Issue) (a : Analyzer)
  : string * Analyzer :=
  rewrite_file "pubspec.yaml" (fun content => Ok (test_dependencies_fix content))
    "Added flutter_test to dev_dependencies"
    "Failed to add test dependencies: " a.

(** [str(e)] of the [TypeError] raised by calling the list
    [modified_lines]. *)
Definition list_not_callable : string := "'list' object is not callable".

(** One turn of the loop of [fix_build_runner_missing]: at a
    [dev_dependencies:] line the line is appended and then [modified_lines]
    is called as a function, which raises. *)
Definition build_runner_step (st : Exc Scan) (line : string) : Exc Scan :=
  match st with
  | Raise e => Raise e
  | Ok st =>
      if contains "dev_dependencies:" line then Raise list_not_callable
      else if in_section st && negb (contains "build_runner:" line)
              && negb (contains "}" line) then
        Ok (mkScan (modified_lines st ++ [line]) (in_section st))
      else
        Ok (mkScan (modified_lines st ++ [line]) (in_section st))
  end.

Definition build_runner_fix (content : string) : Exc string :=
  match fold_left build_runner_step (split_nl content) (Ok (mkScan [] false))
  with
  | Ok st => Ok (join_nl (modified_lines st))
  | Raise e => Raise e
  end.

(** [fix_build_runner_missing] *)
Definition fix_build_runner_missing (issue : Issue) (a : Analyzer)
  : string * Analyzer :=
  rewrite_file "pubspec.yaml" build_runner_fix
    "Added build_runner to dev_dependencies" "Failed to add build_runner: " a.

Definition sdk_line : string := "  sdk: '>=2.17.0 <4.0.0'".

Definition add_sdk (lines : list string) : list string :=
  flat_map (fun line => if contains "environment:" line then [line; sdk_line]
                        else [line])
           lines.

Definition sdk_constraint_fix (content : string) : string :=
  join_nl (add_sdk (split_nl content)).

(** [fix_sdk_constraint_missing] *)
Definition fix_sdk_constraint_missing (issue : Issue) (a : Analyzer)
  : string * Analyzer :=
  rewrite_file "pubspec.yaml" (fun content => Ok (sdk_constraint_fix content))
    "Added SDK constraint to pubspec.yaml" "Failed to add SDK constraint: " a.

Definition cached_image_line : string := "  cached_network_image: ^3.3.0".

(** One turn of the loop of [fix_image_caching_missing]: a
    [dependencies:] line sets the flag and is not appended; after it, a line
    without [cached_network_image:] and without a closing brace is replaced
    by the new line; any other line is kept. *)
Definition image_caching_step (st : Scan) (line : string) : Scan :=
  if contains "dependencies:" line then
    mkScan (modified_lines st) true
  else if in_section st && negb (contains "cached_network_image:" line)
          && negb (contains "}" line) then
    mkScan (modified_lines st ++ [cached_image_line]) (in_section st)
  else
    mkScan (modified_lines st ++ [line]) (in_section st).

Definition image_caching_fix (content : string) : string :=
  join_nl (modified_lines
             (fold_left image_caching_step (split_nl content)
                        (mkScan [] false))).

(** [fix_image_caching_missing] *)
Definition fix_image_caching_missing (issue : Issue) (a : Analyzer)
  : string * Analyzer :=
  rewrite_file "pubspec.yaml" (fun content => Ok (image_caching_fix content))
    "Added cached_network_image to dependencies"
    "Failed to add image caching: " a.

(** *** The report *)

Definition is_lower (c : ascii) : bool :=
  let n := nat_of_ascii c in (97 <=? n)%nat && (n <=? 122)%nat.

Definition upper_char (c : ascii) : ascii :=
  if is_lower c then ascii_of_nat (nat_of_ascii c - 32) else c.

(** [s.upper()] *)
Fixpoint upper (s : string) : string :=
  match s with
  | EmptyString => EmptyString
  | String c s' => String (upper_char c) (upper s')
  end.

(** The four lines of one issue, numbered [i]; [issue['severity']] raises
    [KeyError] for an issue without that key. *)
Definition issue_lines (i : nat) (issue : Issue) : Exc (list string) :=
  match i_severity issue with
  | None => Raise "'severity'"
  | Some severity =>
      Ok [ str_nat i +:+ ". **" +:+ upper severity +:+ "** - "
             +:+ i_description issue;
           "   Location: " +:+ default "Unknown" (i_file issue);
           "   Fix: " +:+ i_fix issue;
           "" ]
  end.

(** The loop over [enumerate(issues, i)]. *)
Fixpoint issues_lines (i : nat) (issues : list Issue) : Exc (list string) :=
  match issues with
  | [] => Ok []
  | issue :: issues' =>
      match issue_lines i issue with
      | Raise e => Raise e
      | Ok ls =>
          match issues_lines (S i) issues' with
          | Raise e => Raise e
          | Ok ls' => Ok (ls ++ ls')
          end
      end
  end.

(** The loop over [enumerate(fixes_applied, i)]. *)
Fixpoint fixes_lines (i : nat) (fixes : list string) : list string :=
  match fixes with
  | [] => []
  | f :: fixes' => (str_nat i +:+ ". " +:+ f) :: "" :: fixes_lines (S i) fixes'
  end.

(** The lines of [generate_report]; [now] is [datetime.now().isoformat()]
    and [project_path] the text of the project path.  The list of
    recommendations is never filled, so its section is never written. *)
Definition report_lines (now project_path : string) (a : Analyzer)
  : Exc (list string) :=
  let head :=
    [ "# CI/CD Pipeline Analysis Report";
      "Generated: " +:+ now;
      "Project: " +:+ project_path;
      "";
      "## Summary";
      "Total Issues Found: " +:+ str_nat (length (report_issues a));
      "Fixes Applied: " +:+ str_nat (length (report_fixes_applied a));
      "" ] in
  let fixes :=
    match report_fixes_applied a with
    | [] => []
    | _ => "## Fixes Applied" :: fixes_lines 1 (report_fixes_applied a)
    end in
  match report_issues a with
  | [] => Ok (head ++ fixes)
  | _ =>
      match issues_lines 1 (report_issues a) with
      | Raise e => Raise e
      | Ok ls => Ok (head ++ "## Issues Found" :: ls ++ fixes)
      end
  end.

(** [generate_report] *)
Definition generate_report (now project_path : string) (a : Analyzer)
  : Exc string :=
  match report_lines now project_path a with
  | Ok ls => Ok (join_nl ls)
  | Raise e => Raise e
  end.

End CICDFixes.

(** ** master_gui_app.py: platform statistics, clearing, error analysis *)

Module MasterGuiMore.
Import PyStr MasterGui.

(** The value of one platform in the dictionary of [_get_platform_stats]. *)
Record PlatformStat := mkPlatformStat {
  ps_total : Z;
  ps_successful : Z
}.

(** One turn of the loop of [_get_platform_stats]: the entry of the
    platform is created at zero when missing, then counted. *)
Definition platform_step (platform_stats : gmap string PlatformStat)
    (build : BuildRecord) : gmap string PlatformStat :=
  let current := default (mkPlatformStat 0 0)
                         (platform_stats !! platform build) in
  <[platform build :=
      mkPlatformStat (ps_total current + 1)
                     (if success build then ps_successful current + 1
                      else ps_successful current)]> platform_stats.

(** [_get_platform_stats] *)
Definition _get_platform_stats (a : App) : gmap string PlatformStat :=
  fold_left platform_step (build_history a) ∅.

(** [_clear_build_history]; [confirmed] is the answer to the dialog. *)
Definition _clear_build_history (confirmed : bool) (a : App) : App :=
  if confirmed then save_build_history (mkApp [] zero_stats (disk a))
  else a.

(** The suggestions of one platform branch of [analyze_build_error]. *)
Definition windows_suggestions (error_lower : string) : list string :=
  (if contains "visual studio" error_lower || contains "msbuild" error_lower
   then ["Ensure Visual Studio Build Tools are installed and configured"]
   else []) ++
  (if contains "sdk" error_lower
   then ["Check Windows SDK version and installation"] else []).

Definition android_suggestions (error_lower : string) : list string :=
  (if contains "sdk" error_lower || contains "android" error_lower
   then ["Verify Android SDK installation and ANDROID_HOME environment variable"]
   else []) ++
  (if contains "gradle" error_lower
   then ["Check Gradle version and Android Gradle Plugin compatibility"]
   else []) ++
  (if contains "java" error_lower
   then ["Ensure Java JDK is installed and JAVA_HOME is set"] else []).

Definition ios_suggestions (error_lower : string) : list string :=
  (if contains "xcode" error_lower
   then ["Verify Xcode installation and command line tools"] else []) ++
  (if contains "cocoapods" error_lower
   then ["Install CocoaPods: sudo gem install cocoapods"] else []).

Definition web_suggestions (error_lower : string) : list string :=
  if contains "chrome" error_lower || contains "chromium" error_lower
  then ["Install Chrome/Chromium for web testing"] else [].

Definition generic_suggestions (error_lower : string) : list string :=
  (if contains "pub get" error_lower || contains "dependencies" error_lower
   then ["Run 'flutter pub get' to resolve dependencies"] else []) ++
  (if contains "clean" error_lower
   then ["Try 'flutter clean' and rebuild"] else []) ++
  (if contains "cache" error_lower
   then ["Clear Flutter cache: flutter pub cache repair"] else []).

(** [analyze_build_error]; [command] is [str(command)]. *)
Definition analyze_build_error (command stderr : string) : list string :=
  let error_lower := lower stderr in
  let cmd := lower command in
  (if contains "flutter" cmd then
     if contains "windows" cmd then windows_suggestions error_lower
     else if contains "android" cmd then android_suggestions error_lower
     else if contains "ios" cmd then ios_suggestions error_lower
     else if contains "web" cmd then web_suggestions error_lower
     else []
   else []) ++
  generic_suggestions error_lower.




End MasterGuiMore.

(** ** isuite_master_app.py: error analysis and improvement suggestions *)

Module IsuiteMasterMore.
Import PyStr IsuiteMaster.

(** The dictionary [analysis] of [analyze_errors], by its six keys. *)
Record Analysis := mkAnalysis {
  compilation_errors : list string;
  dependency_errors : list string;
  permission_errors : list string;
  flutter_errors : list string;
  import_errors : list string;
  other_errors : list string
}.

Definition no_errors : Analysis := mkAnalysis [] [] [] [] [] [].

(** The [if]/[elif] chain on [error_type]: the line is appended to the list
    of its type. *)
Definition record_error (error_type x : string) (an : Analysis) : Analysis :=
  if String.eqb error_type "compilation_error" then
    mkAnalysis (compilation_errors an ++ [x]) (dependency_errors an)
      (permission_errors an) (flutter_errors an) (import_errors an)
      (other_errors an)
  else if String.eqb error_type "dependency_error" then
    mkAnalysis (compilation_errors an) (dependency_errors an ++ [x])
      (permission_errors an) (flutter_errors an) (import_errors an)
      (other_errors an)
  else if String.eqb error_type "permission_error" then
    mkAnalysis (compilation_errors an) (dependency_errors an)
      (permission_errors an ++ [x]) (flutter_errors an) (import_errors an)
      (other_errors an)
  else if String.eqb error_type "flutter_error" then
    mkAnalysis (compilation_errors an) (dependency_errors an)
      (permission_errors an) (flutter_errors an ++ [x]) (import_errors an)
      (other_errors an)
  else if String.eqb error_type "import_error" then
    mkAnalysis (compilation_errors an) (dependency_errors an)
      (permission_errors an) (flutter_errors an) (import_errors an ++ [x])
      (other_errors an)
  else an.

(** The loop over the patterns of one type, for one line. *)
Definition scan_patterns (line error_type : string) (patterns : list string)
    (an : Analysis) : Analysis :=
  fold_left (fun acc pattern =>
               if contains pattern line
               then record_error error_type (strip line) acc else acc)
            patterns an.

(** The loop over [self.error_patterns.items()], for one line. *)
Definition scan_line (an : Analysis) (line : string) : Analysis :=
  fold_left (fun acc entry => scan_patterns line (fst entry) (snd entry) acc)
            error_patterns an.

(** [analysis.values()] *)
Definition values (an : Analysis) : list (list string) :=
  [ compilation_errors an; dependency_errors an; permission_errors an;
    flutter_errors an; import_errors an; other_errors an ].

(** [any(x in errors for errors in analysis.values() if errors)] *)
Definition is_listed (x : string) (an : Analysis) : bool :=
  existsb (fun errors =>
             match errors with
             | [] => false
             | _ => existsb (String.eqb x) errors
             end)
          (values an).

(** One turn of the second loop: a line with an error word that is in no
    list yet goes to [other_errors]. *)
Definition other_step (an : Analysis) (line : string) : Analysis :=
  if contains_any ["error"; "failed"; "exception"] (lower line) then
    if negb (is_listed (strip line) an) then
      mkAnalysis (compilation_errors an) (dependency_errors an)
        (permission_errors an) (flutter_errors an) (import_errors an)
        (other_errors an ++ [strip line])
    else an
  else an.

(** [analyze_errors] *)
Definition analyze_errors (output : string) : Analysis :=
  let lines := split_nl output in
  fold_left other_step lines (fold_left scan_line lines no_errors).

(** *** [ImprovementEngine] *)

(** [build_history[-10:]] *)
Definition last10 (h : list HistoryEntry) : list HistoryEntry :=
  drop (length h - 10)%nat h.

(** The loop filling the set [error_types]. *)
Definition error_type_step (types : gset string) (error : string)
  : gset string :=
  if contains "dependency" (lower error) then {[ "dependency" ]} ∪ types
  else if contains "gradle" (lower error) then {[ "gradle" ]} ∪ types
  else if contains "permission" (lower error) then {[ "permission" ]} ∪ types
  else types.

(** [_calculate_avg_build_time]: a constant. *)
Definition _calculate_avg_build_time (builds : list HistoryEntry) : Q := 180.

(** [analyze_build_history] *)
Definition analyze_build_history (build_history : list HistoryEntry)
  : list string :=
  match build_history with
  | [] => ["No build history available. Run some builds first."]
  | _ =>
      let recent_builds := last10 build_history in
      let failure_count :=
        Z.of_nat (length (List.filter (fun b => negb (h_success b))
                                      recent_builds)) in
      let all_errors := flat_map h_errors recent_builds in
      let error_types := fold_left error_type_step all_errors ∅ in
      (if 5 <? failure_count
       then ["High failure rate detected. Consider running 'flutter doctor' to check environment."]
       else []) ++
      (if decide ("dependency" ∈ error_types)
       then ["Dependency issues detected. Try: flutter pub cache repair"]
       else []) ++
      (if decide ("gradle" ∈ error_types)
       then ["Gradle issues detected. Try: cd android && ./gradlew clean"]
       else []) ++
      (if (3 <=? length recent_builds)%nat
       then if negb (Qle_bool (_calculate_avg_build_time recent_builds) 300)
            then ["Build times are slow. Consider enabling build cache and using --no-sound-null-safety"]
            else []
       else [])
  end.

End IsuiteMasterMore.

(** ** build_manager.py: [show_build_history] *)

Module BuildMgrMore.
Import PyStr BuildMgr.

(** The command cell of a row: the first 50 characters and three dots for a
    command of more than 50 characters. *)
Definition command_cell (command : string) : string :=
  if (50 <? String.length command)%nat
  then take_str 50 command +:+ "..."
  else command.

(** One row of the tree view: timestamp, command, description, status. *)
Definition history_row (h : HistoryEntry)
  : string * string * string * string :=
  (he_timestamp h, command_cell (he_command h), he_description h, he_status h).

(** [show_build_history]: the rows inserted into the tree view. *)
Definition show_build_history (bm : BuildManager)
  : list (string * string * string * string) :=
  map history_row (build_history bm).

End BuildMgrMore.

(** * Properties *)

(** ** The build history of master_gui_app.py *)

Module MasterGuiFacts.
Import PyStr MasterGui.

(** The statistics agree with the history held in memory. *)
Definition consistent (a : App) : Prop :=
  metrics a = fold_metrics (build_history a).

Lemma save_keeps_memory (a : App) :
  build_history (save_build_history a) = build_history a /\
  build_stats (save_build_history a) = build_stats a.
Proof.
  unfold save_build_history. destruct (writable (disk a)); auto.
Qed.

Lemma save_writes (a : App) :
  writable (disk a) = true ->
  disk (save_build_history a) =
    mkDisk (Some (mkSavedData (Some (last100 (build_history a)))
                              (Some (build_stats a)))) true.
Proof.
  intros Hw. unfold save_build_history. rewrite Hw. reflexivity.
Qed.

Lemma save_writable (a : App) :
  writable (disk (save_build_history a)) = writable (disk a).
Proof.
  unfold save_build_history.
  destruct (writable (disk a)) eqn:Hw; simpl; auto.
Qed.

Lemma record_history (t : Attempt) (a : App) :
  build_history (record_build_attempt t a) = build_history a ++ [record_of t].
Proof.
  unfold record_build_attempt. apply save_keeps_memory.
Qed.

Lemma record_writable (t : Attempt) (a : App) :
  writable (disk (record_build_attempt t a)) = writable (disk a).
Proof.
  unfold record_build_attempt. rewrite save_writable. reflexivity.
Qed.

Lemma record_all_snoc (ts : list Attempt) (t : Attempt) (a : App) :
  record_all (ts ++ [t]) a = record_build_attempt t (record_all ts a).
Proof.
  unfold record_all. rewrite fold_left_app. reflexivity.
Qed.

Lemma record_all_history (ts : list Attempt) (a : App) :
  build_history (record_all ts a) = build_history a ++ map record_of ts.
Proof.
  induction ts as [|t ts IH] using rev_ind.
  - simpl. rewrite app_nil_r. reflexivity.
  - rewrite record_all_snoc, record_history, IH, map_app, app_assoc.
    reflexivity.
Qed.

Lemma record_all_writable (ts : list Attempt) (a : App) :
  writable (disk (record_all ts a)) = writable (disk a).
Proof.
  induction ts as [|t ts IH] using rev_ind; [reflexivity|].
  rewrite record_all_snoc, record_writable. exact IH.
Qed.

Lemma count_succeeded_snoc (h : list BuildRecord) (r : BuildRecord) :
  count_succeeded (h ++ [r]) =
    if success r then count_succeeded h + 1 else count_succeeded h.
Proof.
  unfold count_succeeded. rewrite filter_app, length_app.
  destruct (success r) eqn:Hr.
  - rewrite filter_cons_True by exact Hr. simpl. lia.
  - rewrite filter_cons_False by congruence. simpl. lia.
Qed.

Lemma count_failed_snoc (h : list BuildRecord) (r : BuildRecord) :
  count_failed (h ++ [r]) =
    if success r then count_failed h else count_failed h + 1.
Proof.
  unfold count_failed. rewrite filter_app, length_app.
  destruct (success r) eqn:Hr.
  - rewrite filter_cons_False by congruence. simpl. lia.
  - rewrite filter_cons_True by exact Hr. simpl. lia.
Qed.

Lemma count_succeeded_nonneg (h : list BuildRecord) : 0 <= count_succeeded h.
Proof. unfold count_succeeded. lia. Qed.

Lemma counts_sum (h : list BuildRecord) :
  count_succeeded h + count_failed h = Z.of_nat (length h).
Proof.
  induction h as [|r h IH] using rev_ind; [reflexivity|].
  rewrite count_succeeded_snoc, count_failed_snoc, length_app. simpl.
  destruct (success r); lia.
Qed.

Lemma record_stats (t : Attempt) (a : App) :
  build_stats (record_build_attempt t a) =
    let s := build_stats a in
    let succ := if at_success t then successful_builds s + 1
                else successful_builds s in
    mkBuildStats (total_builds s + 1) succ
      (if at_success t then failed_builds s else failed_builds s + 1)
      (if 0 <? succ
       then (total_time (build_history a ++ [record_of t]) / inject_Z succ)%Q
       else average_build_time s)
      (Some (at_now_stats t)).
Proof.
  unfold record_build_attempt. apply save_keeps_memory.
Qed.

(** One append keeps the statistics equal to the fold over the history. *)
Lemma record_consistent (t : Attempt) (a : App) :
  consistent a -> consistent (record_build_attempt t a).
Proof.
  unfold consistent, metrics, fold_metrics. intros H.
  injection H as Ht Hs Hf Ha.
  rewrite record_stats, record_history. cbn zeta. simpl.
  rewrite count_succeeded_snoc, count_failed_snoc, length_app.
  change (success (record_of t)) with (at_success t).
  rewrite Ht, Hs, Hf. simpl length.
  pose proof (count_succeeded_nonneg (build_history a)) as Hnn.
  destruct (at_success t).
  - replace (0 <? count_succeeded (build_history a) + 1) with true
      by (symmetry; apply Z.ltb_lt; lia).
    f_equal; lia.
  - rewrite Ha.
    destruct (0 <? count_succeeded (build_history a)); f_equal; lia.
Qed.

Lemma record_all_consistent (ts : list Attempt) (a : App) :
  consistent a -> consistent (record_all ts a).
Proof.
  intros H. induction ts as [|t ts IH] using rev_ind; [exact H|].
  rewrite record_all_snoc. apply record_consistent, IH.
Qed.

Lemma fresh_consistent (d : Disk) : consistent (mkApp [] zero_stats d).
Proof. reflexivity. Qed.

(** On a writable disk every append leaves the file holding the last 100
    records and the statistics as they are in memory. *)
Lemma record_disk (t : Attempt) (a : App) :
  writable (disk a) = true ->
  history_file (disk (record_build_attempt t a)) =
    Some (mkSavedData
            (Some (last100 (build_history (record_build_attempt t a))))
            (Some (build_stats (record_build_attempt t a)))).
Proof.
  intros Hw. unfold record_build_attempt, save_build_history.
  cbn [disk]. rewrite Hw. reflexivity.
Qed.

Lemma last100_short (h : list BuildRecord) :
  (length h <= 100)%nat -> last100 h = h.
Proof.
  intros H. unfold last100.
  replace (length h - 100)%nat with 0%nat by lia. reflexivity.
Qed.

Lemma last100_length (h : list BuildRecord) :
  length (last100 h) = Nat.min (length h) 100.
Proof. unfold last100. rewrite length_drop. lia. Qed.

(** The metrics the history file holds, and the fold over the history it
    holds. *)
Definition file_metrics (d : Disk) : option Metrics :=
  match history_file d with
  | Some (mkSavedData _ (Some s)) =>
      Some (mkMetrics (total_builds s) (successful_builds s)
                      (failed_builds s) (average_build_time s))
  | _ => None
  end.

Definition file_fold (d : Disk) : option Metrics :=
  match history_file d with
  | Some (mkSavedData (Some h) _) => Some (fold_metrics h)
  | _ => None
  end.

(** After at least one append on a writable disk the file holds the last
    100 records of the history in memory and the statistics in memory. *)
Lemma file_after_record (ts : list Attempt) (d : Disk) :
  writable d = true -> ts <> [] ->
  history_file (disk (record_all ts (mkApp [] zero_stats d))) =
    Some (mkSavedData
            (Some (last100 (build_history
                              (record_all ts (mkApp [] zero_stats d)))))
            (Some (build_stats (record_all ts (mkApp [] zero_stats d))))).
Proof.
  intros Hw Hne.
  destruct ts as [|t ts _] using rev_ind; [congruence|].
  rewrite record_all_snoc. apply record_disk.
  rewrite record_all_writable. exact Hw.
Qed.

(** The success rate of counters with [0 <= succeeded <= total]. *)
Lemma rate_bounds (succ total : Z) :
  0 <= succ <= total -> 0 < total ->
  (0 <= inject_Z succ / inject_Z total * 100)%Q /\
  (inject_Z succ / inject_Z total * 100 <= 100)%Q.
Proof.
  intros Hs Ht. destruct total as [|p|p]; try lia.
  unfold Qle, Qdiv, Qmult, Qinv, inject_Z. simpl. split; nia.
Qed.

(** C1, as the code has it: for every sequence of appended results, starting
    from the empty history and the zeroed statistics, the total, succeeded
    and failed counts and the average duration held in memory equal the fold
    over the history held in memory, which keeps every entry.  On save the
    file receives the last 100 entries and the counters as they are: the
    saved counters equal the fold over the saved entries when at most 100
    results were recorded, and beyond that the saved total counts every
    recorded result while 100 entries are saved. *)
Theorem metrics_equal_fold_of_history (ts : list Attempt) (d : Disk) :
  metrics (record_all ts (mkApp [] zero_stats d))
    = fold_metrics (build_history (record_all ts (mkApp [] zero_stats d))) /\
  build_history (record_all ts (mkApp [] zero_stats d)) = map record_of ts /\
  (writable d = true -> ts <> [] ->
   history_file (disk (record_all ts (mkApp [] zero_stats d))) =
     Some (mkSavedData (Some (last100 (map record_of ts)))
             (Some (build_stats (record_all ts (mkApp [] zero_stats d))))) /\
   length (last100 (map record_of ts)) = Nat.min (length ts) 100 /\
   ((length ts <= 100)%nat ->
    file_metrics (disk (record_all ts (mkApp [] zero_stats d)))
      = file_fold (disk (record_all ts (mkApp [] zero_stats d)))) /\
   ((100 < length ts)%nat ->
    option_map m_total
      (file_metrics (disk (record_all ts (mkApp [] zero_stats d))))
      = Some (Z.of_nat (length ts)) /\
    option_map m_total
      (file_fold (disk (record_all ts (mkApp [] zero_stats d))))
      = Some 100)).
Proof.
  pose proof (record_all_consistent ts _ (fresh_consistent d)) as Hc.
  pose proof (record_all_history ts (mkApp [] zero_stats d)) as Hh.
  simpl in Hh.
  split; [exact Hc|]. split; [exact Hh|].
  intros Hw Hne.
  pose proof (file_after_record ts d Hw Hne) as Hf. rewrite Hh in Hf.
  split; [exact Hf|].
  split; [rewrite last100_length, length_map; reflexivity|].
  unfold file_metrics, file_fold. rewrite Hf. cbn [option_map m_total].
  unfold consistent in Hc. rewrite Hh in Hc. split.
  - intros Hle. rewrite last100_short by (rewrite length_map; exact Hle).
    f_equal. exact Hc.
  - intros Hgt. unfold metrics, fold_metrics in Hc.
    injection Hc as Ht _ _ _. rewrite Ht. unfold fold_metrics.
    cbn [m_total]. rewrite last100_length, !length_map.
    split; f_equal; lia.
Qed.

Definition sample_attempt : Attempt :=
  mkAttempt 1000 1000 "['flutter', 'build', 'windows']" "Build Windows"
            true 1 None.

Definition fresh_disk : Disk := mkDisk None true.

(** The theorem at one recorded build on a fresh, writable disk. *)
Lemma metrics_equal_fold_of_history_witness :
  metrics (record_all [sample_attempt] (mkApp [] zero_stats fresh_disk))
    = fold_metrics (build_history (record_all [sample_attempt]
                                     (mkApp [] zero_stats fresh_disk))) /\
  file_metrics (disk (record_all [sample_attempt]
                        (mkApp [] zero_stats fresh_disk)))
    = file_fold (disk (record_all [sample_attempt]
                         (mkApp [] zero_stats fresh_disk))).
Proof.
  destruct (metrics_equal_fold_of_history [sample_attempt] fresh_disk)
    as (Hm & _ & Hr).
  assert (Hne : [sample_attempt] <> []) by discriminate.
  destruct (Hr eq_refl Hne) as (_ & _ & Hle & _).
  split; [exact Hm|]. apply Hle. simpl. lia.
Defined.

(** C1 as stated fails at 101 recorded builds: the history is truncated on
    save, and the file then holds 100 entries beside statistics that count
    101 builds. *)
Lemma metrics_drift_after_truncation :
  length (build_history (record_all (replicate 101 sample_attempt)
                           (mkApp [] zero_stats fresh_disk))) = 101%nat /\
  option_map m_total
    (file_metrics (disk (record_all (replicate 101 sample_attempt)
                           (mkApp [] zero_stats fresh_disk)))) = Some 101 /\
  option_map m_total
    (file_fold (disk (record_all (replicate 101 sample_attempt)
                        (mkApp [] zero_stats fresh_disk)))) = Some 100.
Proof. repeat split; vm_compute; reflexivity. Qed.

(** C10: every [record_build_attempt] adds one to [total_builds] and one to
    exactly one of [successful_builds] and [failed_builds]; from the zeroed
    statistics every sequence of appends keeps
    [successful_builds + failed_builds = total_builds], and the success rate
    lies between 0 and 100. *)
Theorem record_build_attempt_counts
    (t : Attempt) (a : App) (ts : list Attempt) (d : Disk) :
  (let s := build_stats a in
   let s' := build_stats (record_build_attempt t a) in
   total_builds s' = total_builds s + 1 /\
   ((successful_builds s' = successful_builds s + 1 /\
     failed_builds s' = failed_builds s) \/
    (successful_builds s' = successful_builds s /\
     failed_builds s' = failed_builds s + 1))) /\
  (let s := build_stats (record_all ts (mkApp [] zero_stats d)) in
   successful_builds s + failed_builds s = total_builds s /\
   (0 <= _calculate_success_rate s)%Q /\
   (_calculate_success_rate s <= 100)%Q).
Proof.
  split.
  - cbn zeta. rewrite record_stats. cbn zeta. simpl.
    destruct (at_success t); split; auto.
  - cbn zeta.
    pose proof (record_all_consistent ts _ (fresh_consistent d)) as Hc.
    unfold consistent, metrics, fold_metrics in Hc.
    injection Hc as Ht Hs Hf _.
    set (h := build_history (record_all ts (mkApp [] zero_stats d))) in *.
    pose proof (counts_sum h) as Hsum.
    pose proof (count_succeeded_nonneg h) as Hnn.
    assert (Hfn : 0 <= count_failed h) by (unfold count_failed; lia).
    split; [lia|].
    unfold _calculate_success_rate.
    destruct (Z.eqb_spec
      (total_builds (build_stats (record_all ts (mkApp [] zero_stats d)))) 0)
      as [E|E].
    + split; [apply Qle_refl | discriminate].
    + apply rate_bounds; lia.
Qed.

End MasterGuiFacts.

(** ** Substrings and lines *)

Module PyStrFacts.
Import PyStr.

#[local] Arguments String.append !s1 s2 : simpl nomatch.

(** [p] occurs in [s]: some text before it, some text after it. *)
Definition occurs_in (p s : string) : Prop :=
  exists pre post, s = pre +:+ p +:+ post.

Lemma append_assoc (a b c : string) : (a +:+ b) +:+ c = a +:+ b +:+ c.
Proof. induction a as [|x a IH]; simpl; [reflexivity | now rewrite IH]. Qed.

Lemma append_nil_r (a : string) : a +:+ "" = a.
Proof. induction a as [|x a IH]; simpl; [reflexivity | now rewrite IH]. Qed.

Lemma startswith_spec (p s : string) :
  startswith p s = true <-> exists post, s = p +:+ post.
Proof.
  revert s. induction p as [|a p IH]; intros s; simpl.
  - split; [intros _; exists s; reflexivity | reflexivity].
  - destruct s as [|b s].
    + split; [discriminate | intros [post H]; discriminate].
    + rewrite andb_true_iff, Ascii.eqb_eq, IH. split.
      * intros [-> [post ->]]. exists post. reflexivity.
      * intros [post H]. injection H as -> ->. split; [reflexivity|eauto].
Qed.

Lemma contains_spec (p s : string) :
  contains p s = true <-> occurs_in p s.
Proof.
  unfold occurs_in. induction s as [|c s IH].
  - simpl. rewrite orb_false_r, startswith_spec. split.
    + intros [post H]. exists "", post. exact H.
    + intros (pre & post & H). destruct pre; [|discriminate].
      exists post. exact H.
  - cbn [contains]. rewrite orb_true_iff, startswith_spec, IH. split.
    + intros [[post H] | (pre & post & H)].
      * exists "", post. exact H.
      * exists (String c pre), post. simpl. now rewrite H.
    + intros (pre & post & H). destruct pre as [|c' pre].
      * left. exists post. exact H.
      * right. simpl in H. injection H as _ H. eauto.
Qed.

Lemma contains_app_l (p a b : string) :
  contains p a = true -> contains p (a +:+ b) = true.
Proof.
  rewrite !contains_spec. intros (pre & post & ->).
  exists pre, (post +:+ b). now rewrite !append_assoc.
Qed.

Lemma contains_app_r (p a b : string) :
  contains p b = true -> contains p (a +:+ b) = true.
Proof.
  rewrite !contains_spec. intros (pre & post & ->).
  exists (a +:+ pre), post. now rewrite !append_assoc.
Qed.

(** A pattern found in a line is found in the joined text. *)
Lemma contains_join (p l : string) (ls : list string) :
  In l ls -> contains p l = true -> contains p (join_nl ls) = true.
Proof.
  induction ls as [|x ls IH]; intros Hin Hp; [destruct Hin|].
  destruct Hin as [-> | Hin].
  - destruct ls; simpl; [exact Hp | now apply contains_app_l].
  - destruct ls as [|y ls]; [destruct Hin|].
    change (join_nl (x :: y :: ls)) with (x +:+ NL +:+ join_nl (y :: ls)).
    apply contains_app_r, contains_app_r, IH; assumption.
Qed.

(** No line feed in the string. *)
Fixpoint no_nl (s : string) : bool :=
  match s with
  | EmptyString => true
  | String c s' => negb (Ascii.eqb c nl) && no_nl s'
  end.

Lemma split_nl_nonempty (s : string) : split_nl s <> [].
Proof.
  induction s as [|c s IH]; simpl; [discriminate|].
  destruct (Ascii.eqb c nl); [discriminate|].
  destruct (split_nl s); [contradiction | discriminate].
Qed.

Lemma split_nl_lines (s : string) :
  Forall (fun l => no_nl l = true) (split_nl s).
Proof.
  induction s as [|c s IH]; simpl.
  - constructor; [reflexivity | constructor].
  - destruct (Ascii.eqb c nl) eqn:E.
    + constructor; [reflexivity | exact IH].
    + destruct (split_nl s) as [|l ls]; [constructor; [simpl; now rewrite E | constructor]|].
      inversion IH; subst. constructor; [simpl; now rewrite E | assumption].
Qed.

Lemma join_split (s : string) : join_nl (split_nl s) = s.
Proof.
  induction s as [|c s IH]; [reflexivity|]. simpl.
  pose proof (split_nl_nonempty s) as Hne.
  destruct (Ascii.eqb_spec c nl) as [-> | _].
  - destruct (split_nl s) as [|l ls]; [contradiction|].
    change (join_nl ("" :: l :: ls)) with ("" +:+ NL +:+ join_nl (l :: ls)).
    rewrite IH. reflexivity.
  - destruct (split_nl s) as [|l ls]; [contradiction|].
    rewrite <- IH. destruct ls; reflexivity.
Qed.

Lemma split_line (l : string) : no_nl l = true -> split_nl l = [l].
Proof.
  induction l as [|c l IH]; [reflexivity|]. simpl.
  rewrite andb_true_iff, negb_true_iff. intros [-> H].
  now rewrite (IH H).
Qed.

Lemma split_line_rest (l rest : string) :
  no_nl l = true -> split_nl (l +:+ NL +:+ rest) = l :: split_nl rest.
Proof.
  induction l as [|c l IH]; [reflexivity|]. simpl in *.
  rewrite andb_true_iff, negb_true_iff. intros [-> H].
  now rewrite (IH H).
Qed.

Lemma split_join (ls : list string) :
  ls <> [] -> Forall (fun l => no_nl l = true) ls ->
  split_nl (join_nl ls) = ls.
Proof.
  induction ls as [|l ls IH]; [congruence|]. intros _ Hall.
  inversion Hall as [|? ? Hl Hls]; subst.
  destruct ls as [|l' ls].
  - simpl. now apply split_line.
  - change (join_nl (l :: l' :: ls)) with (l +:+ NL +:+ join_nl (l' :: ls)).
    rewrite split_line_rest by exact Hl.
    rewrite IH by (discriminate || assumption). reflexivity.
Qed.

Lemma existsb_contains (ps : list string) (s : string) :
  contains_any ps s = true <-> exists p, In p ps /\ occurs_in p s.
Proof.
  unfold contains_any. rewrite existsb_exists.
  split; intros (p & Hin & Hp); exists p; split; auto;
    now apply contains_spec.
Qed.

End PyStrFacts.

(** ** The tags of captured output in master_gui_app.py *)

Module MasterGuiLogFacts.
Import PyStr PyStrFacts MasterGuiLog.

(** Some word of [ws] occurs in the line, whatever the case of its letters. *)
Definition has_word (ws : list string) (line : string) : Prop :=
  exists w, In w ws /\ occurs_in w (lower line).

Lemma has_word_dec (ws : list string) (line : string) :
  contains_any ws (lower line) = true <-> has_word ws line.
Proof. apply existsb_contains. Qed.

Lemma has_word_false (ws : list string) (line : string) :
  contains_any ws (lower line) = false <-> ~ has_word ws line.
Proof.
  rewrite <- has_word_dec. destruct (contains_any ws (lower line)); split;
    congruence.
Qed.

Lemma stdout_entries (stdout : string) :
  Forall (fun e => snd e = stdout_line_tag (fst e))
         (map (fun line => (line, stdout_line_tag line)) (split_nl (strip stdout))).
Proof. apply Forall_map, Forall_forall. reflexivity. Qed.

Lemma stderr_entries (stderr : string) (returncode : Z) :
  Forall (fun e => snd e = stderr_line_tag returncode (fst e))
         (map (fun line => (line, stderr_line_tag returncode line))
              (split_nl (strip stderr))).
Proof. apply Forall_map, Forall_forall. reflexivity. Qed.

(** C3, as the code has it: the tag of a line of standard output is a
    function of the line alone, one of error, warning and info (never
    success): error when one of the error words occurs in it, whether or not
    a warning word does too; else warning when a warning word occurs; else
    info.  A line of standard error is tagged by the exit code and not by
    its words: warning when the exit code is 0, error otherwise.  The log
    calls are those of the stdout lines followed by those of the stderr
    lines. *)
Theorem stdout_tag_by_words_stderr_tag_by_exit
    (line stdout stderr : string) (returncode : Z) :
  stdout_line_tag line <> success /\
  (has_word error_words line -> stdout_line_tag line = error) /\
  (~ has_word error_words line -> has_word warn_words line ->
   stdout_line_tag line = warning) /\
  (~ has_word error_words line -> ~ has_word warn_words line ->
   stdout_line_tag line = info) /\
  (returncode = 0 -> stderr_line_tag returncode line = warning) /\
  (returncode <> 0 -> stderr_line_tag returncode line = error) /\
  (exists out err,
     log_output stdout stderr returncode = out ++ err /\
     map fst out = (if nonempty stdout then split_nl (strip stdout) else []) /\
     map fst err = (if nonempty stderr then split_nl (strip stderr) else []) /\
     Forall (fun e => snd e = stdout_line_tag (fst e)) out /\
     Forall (fun e => snd e = stderr_line_tag returncode (fst e)) err).
Proof.
  unfold stdout_line_tag.
  split; [|split; [|split; [|split; [|split; [|split]]]]].
  - destruct (contains_any error_words (lower line));
      [|destruct (contains_any warn_words (lower line))]; discriminate.
  - intros He. apply has_word_dec in He. rewrite He. reflexivity.
  - intros He Hw. apply has_word_false in He. apply has_word_dec in Hw.
    rewrite He, Hw. reflexivity.
  - intros He Hw. apply has_word_false in He. apply has_word_false in Hw.
    rewrite He, Hw. reflexivity.
  - intros ->. reflexivity.
  - intros Hne. unfold stderr_line_tag.
    destruct (Z.eqb_spec returncode 0); [contradiction | reflexivity].
  - unfold log_output. eexists _, _. split; [reflexivity|].
    split; [|split; [|split]].
    + destruct (nonempty stdout); [|reflexivity].
      rewrite map_map. simpl. apply map_id.
    + destruct (nonempty stderr); [|reflexivity].
      rewrite map_map. simpl. apply map_id.
    + destruct (nonempty stdout); [apply stdout_entries | constructor].
    + destruct (nonempty stderr); [apply stderr_entries | constructor].
Qed.

(** The theorem at three lines of standard output and two exit codes. *)
Lemma stdout_tag_by_words_stderr_tag_by_exit_witness :
  stdout_line_tag "Warning: build FAILED" = error /\
  stdout_line_tag "Deprecated API used" = warning /\
  stdout_line_tag "Compiling lib/main.dart" = info /\
  stderr_line_tag 0 "note" = warning /\
  stderr_line_tag 1 "note" = error.
Proof.
  destruct (stdout_tag_by_words_stderr_tag_by_exit
              "Warning: build FAILED" "" "" 0) as (_ & Herror & _).
  destruct (stdout_tag_by_words_stderr_tag_by_exit
              "Deprecated API used" "" "" 0) as (_ & _ & Hwarning & _).
  destruct (stdout_tag_by_words_stderr_tag_by_exit
              "Compiling lib/main.dart" "" "" 0) as (_ & _ & _ & Hinfo & _).
  destruct (stdout_tag_by_words_stderr_tag_by_exit "note" "" "" 0)
    as (_ & _ & _ & _ & Hzero & _).
  destruct (stdout_tag_by_words_stderr_tag_by_exit "note" "" "" 1)
    as (_ & _ & _ & _ & _ & Hnonzero & _).
  split; [|split; [|split; [|split]]].
  - apply Herror. exists "failed".
    split; [simpl; auto | apply contains_spec; reflexivity].
  - apply Hwarning.
    + apply has_word_false. reflexivity.
    + exists "deprecated".
      split; [simpl; auto | apply contains_spec; reflexivity].
  - apply Hinfo; apply has_word_false; reflexivity.
  - apply Hzero. reflexivity.
  - apply Hnonzero. discriminate.
Defined.

(** C3 as stated fails on standard error: with exit code 0 the line
    [error: deprecated API], which holds an error word and a warning word,
    is logged with the tag warning. *)
Lemma stderr_line_with_error_word_tagged_warning :
  contains_any error_words (lower "error: deprecated API") = true /\
  contains_any warn_words (lower "error: deprecated API") = true /\
  log_output "" "error: deprecated API" 0 =
    [("error: deprecated API", warning)].
Proof. repeat split. Qed.

End MasterGuiLogFacts.

(** ** [run_flutter_command] of isuite_master_app.py *)

Module IsuiteMasterFacts.
Import PyStr PyStrFacts IsuiteMaster.

#[local] Arguments String.append !s1 s2 : simpl nomatch.

(** The state of the loop before the first line. *)
Definition start : Loop := mkLoop [] false [] [].

(** The lines the process printed that the loop can reach: the non-empty
    results of [readline()] before the end of file or the read that
    raises. *)
Fixpoint lines_read (reads : list Read) : list string :=
  match reads with
  | Line line :: rest => if nonempty line then line :: lines_read rest else []
  | _ => []
  end.

(** Every read gives text. *)
Definition decodes (reads : list Read) : Prop :=
  Forall (fun rd => exists line, rd = Line line) reads.

(** What the callback is handed for the lines processed. *)
Definition handed (output_callback : option Callback)
    (processed : list string) : list string :=
  match output_callback with
  | Some _ => map strip processed
  | None => []
  end.

Lemma no_error_line (ls : list string) :
  existsb is_error_line ls = false <->
  Forall (fun l => is_error_line l = false) ls.
Proof.
  induction ls as [|l ls IH]; simpl.
  - split; [constructor | reflexivity].
  - rewrite orb_false_iff, IH. split.
    + intros [? ?]. constructor; assumption.
    + intros H. inversion H; subst. split; assumption.
Qed.


(** A line is an error line exactly when one of the patterns of
    [error_patterns] occurs in it. *)
Lemma is_error_line_spec (line : string) :
  is_error_line line = true <->
  exists category patterns pattern,
    In (category, patterns) error_patterns /\ In pattern patterns /\
    occurs_in pattern line.
Proof.
  unfold is_error_line. rewrite existsb_exists. split.
  - intros ([category patterns] & Hin & H). apply existsb_exists in H.
    destruct H as (pattern & Hp & Hc). apply contains_spec in Hc.
    exists category, patterns, pattern. auto.
  - intros (category & patterns & pattern & Hin & Hp & Hc).
    exists (category, patterns). split; [exact Hin|].
    apply existsb_exists. exists pattern. split; [exact Hp|].
    now apply contains_spec.
Qed.

(** What the loop has collected when it ends: the lines it processed are
    the first of the lines printed, all of them when nothing raised. *)
Definition collected (output_callback : option Callback)
    (processed : list string) (st st' : Loop) : Prop :=
  output_lines st' = output_lines st ++ map strip processed /\
  error_detected st' = error_detected st || existsb is_error_line processed /\
  error_details st'
    = error_details st ++ map strip (List.filter is_error_line processed) /\
  notified st' = notified st ++ handed output_callback processed.

Lemma collected_nil (output_callback : option Callback) (st : Loop) :
  collected output_callback [] st st.
Proof.
  unfold collected, handed. simpl. rewrite orb_false_r, !app_nil_r.
  destruct output_callback; rewrite ?app_nil_r; auto.
Qed.

Lemma collected_scan (line : string) (st : Loop) :
  collected None [line] st (scan_line st line).
Proof.
  unfold collected, handed, scan_line. simpl.
  destruct (is_error_line line), (error_detected st); simpl;
    rewrite ?app_nil_r; auto.
Qed.

Lemma collected_notify (callback : Callback) (line : string) (st : Loop) :
  collected (Some callback) [line] st (notify (scan_line st line) line).
Proof.
  unfold collected, handed, notify, scan_line. simpl.
  destruct (is_error_line line), (error_detected st); simpl;
    rewrite ?app_nil_r; auto.
Qed.

Lemma collected_cons (output_callback : option Callback) (line : string)
    (processed : list string) (st st1 st2 : Loop) :
  collected output_callback [line] st st1 ->
  collected output_callback processed st1 st2 ->
  collected output_callback (line :: processed) st st2.
Proof.
  unfold collected, handed.
  intros (Ho & Hd & He & Hn) (Ho' & Hd' & He' & Hn').
  rewrite Ho', Hd', He', Hn', Ho, Hd, He, Hn. simpl.
  rewrite <- !app_assoc, orb_false_r.
  destruct (is_error_line line), output_callback; simpl;
    rewrite ?app_nil_r, ?orb_true_r, ?orb_false_r; auto.
Qed.

Lemma read_loop_collects (output_callback : option Callback)
    (reads : list Read) (st : Loop) :
  exists processed rest,
    lines_read reads = processed ++ rest /\
    collected output_callback processed st
              (fst (read_loop output_callback reads st)) /\
    (snd (read_loop output_callback reads st) = None -> rest = []).
Proof.
  revert st. induction reads as [|rd reads IH]; intros st.
  - exists [], []. split; [reflexivity|].
    split; [apply collected_nil | reflexivity].
  - destruct rd as [line | e].
    + cbn [read_loop lines_read]. destruct (nonempty line).
      * destruct output_callback as [callback|].
        -- destruct (callback (notified (scan_line st line)) (strip line))
             as [e|] eqn:Hcb.
           ++ exists [line], (lines_read reads). split; [reflexivity|].
              split; [apply collected_notify | discriminate].
           ++ destruct (IH (notify (scan_line st line) line))
                as (processed & rest & Hl & Hc & Hr).
              exists (line :: processed), rest.
              split; [rewrite Hl; reflexivity|].
              split; [|exact Hr].
              eapply collected_cons; [apply collected_notify | exact Hc].
        -- destruct (IH (scan_line st line))
             as (processed & rest & Hl & Hc & Hr).
           exists (line :: processed), rest.
           split; [rewrite Hl; reflexivity|].
           split; [|exact Hr].
           eapply collected_cons; [apply collected_scan | exact Hc].
      * exists [], []. split; [reflexivity|].
        split; [apply collected_nil | reflexivity].
    + exists [], []. split; [reflexivity|].
      split; [apply collected_nil | discriminate].
Qed.

(** A loop that ends without an exception has processed every line. *)
Lemma read_loop_completed (output_callback : option Callback)
    (reads : list Read) :
  snd (read_loop output_callback reads start) = None ->
  collected output_callback (lines_read reads) start
            (fst (read_loop output_callback reads start)).
Proof.
  intros Hnone.
  destruct (read_loop_collects output_callback reads start)
    as (processed & rest & Hl & Hc & Hr).
  rewrite Hl, (Hr Hnone), app_nil_r. exact Hc.
Qed.

(** Without a callback, on output that decodes, nothing raises. *)
Lemma read_loop_decodes (reads : list Read) (st : Loop) :
  decodes reads -> snd (read_loop None reads st) = None.
Proof.
  revert st. induction reads as [|rd reads IH]; intros st Hd;
    [reflexivity|].
  inversion Hd as [|? ? [line ->] Hrest]; subst.
  cbn [read_loop]. destruct (nonempty line); [|reflexivity].
  apply IH, Hrest.
Qed.

Lemma failure_fails (e : Exn) : fst (failure e) = false.
Proof. destruct e; reflexivity. Qed.

(** C2, as the code has it: a command whose output is read to its end,
    neither a read nor the callback raising, is returned and recorded as
    succeeded exactly when the exit code is 0 and no line printed is an
    error line; that is the case of every command run without a callback
    whose output decodes.  When the spawn, a read or the callback raises,
    the call returns the failure of the exception and records no entry,
    whatever the exit code.  A command printing [error: something broke]
    and exiting with 0 is not succeeded. *)
Theorem succeeded_iff_exit_zero_and_no_error_line
    (bm : BuildManager) (now : string) (command : list string)
    (output_callback : option Callback) (stdout : list Read)
    (returncode : Z) (e : Exn) :
  (snd (read_loop output_callback stdout start) = None ->
   (fst (returned (run_flutter_command bm now command output_callback
                     (Spawned stdout returncode))) = true <->
    returncode = 0 /\
    Forall (fun l => is_error_line l = false) (lines_read stdout)) /\
   exists entry,
     build_history (manager (run_flutter_command bm now command
                               output_callback (Spawned stdout returncode)))
       = build_history bm ++ [entry] /\
     h_success entry
       = fst (returned (run_flutter_command bm now command output_callback
                          (Spawned stdout returncode)))) /\
  (output_callback = None -> decodes stdout ->
   snd (read_loop output_callback stdout start) = None) /\
  (snd (read_loop output_callback stdout start) = Some e ->
   returned (run_flutter_command bm now command output_callback
               (Spawned stdout returncode)) = failure e /\
   fst (failure e) = false /\
   manager (run_flutter_command bm now command output_callback
              (Spawned stdout returncode)) = bm) /\
  (returned (run_flutter_command bm now command output_callback
               (SpawnRaised e)) = failure e /\
   manager (run_flutter_command bm now command output_callback
              (SpawnRaised e)) = bm) /\
  fst (returned (run_flutter_command bm now command output_callback
                   (Spawned [Line ("error: something broke" +:+ NL)] 0)))
    = false.
Proof.
  split; [|split; [|split; [|split]]].
  - intros Hnone.
    destruct (read_loop_completed output_callback stdout Hnone)
      as (_ & Hd & _ & _).
    unfold run_flutter_command. fold start.
    destruct (read_loop output_callback stdout start) as [st raised].
    simpl in Hnone, Hd. subst raised. simpl. split.
    + rewrite andb_true_iff, negb_true_iff, Z.eqb_eq, Hd, no_error_line.
      reflexivity.
    + eexists. split; reflexivity.
  - intros -> Hd. apply read_loop_decodes, Hd.
  - intros Hsome. unfold run_flutter_command. fold start.
    destruct (read_loop output_callback stdout start) as [st raised].
    simpl in Hsome. subst raised. simpl.
    split; [reflexivity|]. split; [apply failure_fails | reflexivity].
  - split; reflexivity.
  - unfold run_flutter_command. cbn [read_loop nonempty String.append].
    destruct output_callback as [callback|]; [|reflexivity].
    destruct (callback _ _); [apply failure_fails | reflexivity].
Qed.

Definition get_dependencies : list string := ["flutter"; "pub"; "get"].

Definition fresh_manager : BuildManager := mkBuildManager "." false [].

(** The output of [flutter pub get] on a project whose dependencies
    resolve. *)
Definition resolved : list Read :=
  [Line ("Resolving dependencies..." +:+ NL);
   Line ("Got dependencies!" +:+ NL); Line ""].

(** A callback that writes to a window that is gone. *)
Definition closed_window : Callback :=
  fun _ _ => Some (OtherException "invalid command name .!text").

(** The theorem at [flutter pub get] without a callback, and with a
    callback that raises. *)
Lemma succeeded_iff_exit_zero_and_no_error_line_witness :
  fst (returned (run_flutter_command fresh_manager "2024-01-01T00:00:00"
                   get_dependencies None (Spawned resolved 0))) = true /\
  returned (run_flutter_command fresh_manager "2024-01-01T00:00:00"
              get_dependencies (Some closed_window) (Spawned resolved 0))
    = failure (OtherException "invalid command name .!text").
Proof.
  split.
  - destruct (succeeded_iff_exit_zero_and_no_error_line
                fresh_manager "2024-01-01T00:00:00" get_dependencies None
                resolved 0 TimeoutExpired) as (Hdone & Hnone & _).
    assert (Hd : decodes resolved) by (repeat constructor; eexists; eauto).
    destruct (Hdone (Hnone eq_refl Hd)) as (Hiff & _).
    apply Hiff. split; [reflexivity|]. repeat constructor.
  - destruct (succeeded_iff_exit_zero_and_no_error_line
                fresh_manager "2024-01-01T00:00:00" get_dependencies
                (Some closed_window) resolved 0
                (OtherException "invalid command name .!text"))
      as (_ & _ & Hraised & _).
    apply Hraised. reflexivity.
Defined.

(** C2 as stated fails: a process that prints no error line and exits with
    0 is returned as failed and not recorded at all when the callback
    raises, or when a line it printed does not decode. *)
Lemma clean_exit_zero_run_is_not_recorded :
  existsb is_error_line (lines_read resolved) = false /\
  returned (run_flutter_command fresh_manager "2024-01-01T00:00:00"
              get_dependencies (Some closed_window) (Spawned resolved 0))
    = (false, "Command execution error: invalid command name .!text") /\
  build_history
    (manager (run_flutter_command fresh_manager "2024-01-01T00:00:00"
                get_dependencies (Some closed_window) (Spawned resolved 0)))
    = [] /\
  returned (run_flutter_command fresh_manager "2024-01-01T00:00:00"
              get_dependencies None
              (Spawned [Line ("Resolving dependencies..." +:+ NL);
                        ReadRaised (OtherException "invalid start byte")]
                       0))
    = (false, "Command execution error: invalid start byte") /\
  build_history
    (manager (run_flutter_command fresh_manager "2024-01-01T00:00:00"
                get_dependencies None
                (Spawned [Line ("Resolving dependencies..." +:+ NL);
                          ReadRaised (OtherException "invalid start byte")]
                         0)))
    = [].
Proof. repeat split. Qed.

End IsuiteMasterFacts.

(** ** The single-flight guard of build_manager.py *)

Module BuildMgrFacts.
Import BuildMgr.

Definition busy_warning : string * string :=
  ("Build in Progress", "Another build is already running!").

(** The same object with one more warning dialog shown. *)
Definition warned (bm : BuildManager) : BuildManager :=
  mkBuildManager (is_building bm) (progress_running bm) (status_var bm)
    (build_history bm) (history_json bm) (workers bm)
    (dialogs bm ++ [busy_warning]).

(** At most one worker is pending, and none when the flag is clear. *)
Definition single_flight (bm : BuildManager) : Prop :=
  (length (workers bm) <= 1)%nat /\
  (is_building bm = false -> workers bm = []).

Lemma run_command_busy (command description : string) (bm : BuildManager) :
  is_building bm = true ->
  run_command command description bm = (ReturnedNone, warned bm).
Proof. intros H. unfold run_command, warned. rewrite H. reflexivity. Qed.

Lemma run_in_thread_warned (k : nat) (r : Run) (now : string)
    (bm : BuildManager) :
  run_in_thread k r now (warned bm) = warned (run_in_thread k r now bm).
Proof.
  unfold run_in_thread. simpl. destruct (workers bm !! k); reflexivity.
Qed.

Lemma step_single_flight (bm : BuildManager) (e : Event) :
  single_flight bm -> single_flight (step bm e).
Proof.
  intros [Hlen Hidle]. unfold single_flight.
  destruct e as [command description | k r now]; simpl.
  - unfold run_command. destruct (is_building bm) eqn:Hb; simpl.
    + split; [exact Hlen | discriminate].
    + rewrite (Hidle eq_refl). simpl. split; [lia | discriminate].
  - unfold run_in_thread. destruct (workers bm !! k) as [w|] eqn:Hk.
    + simpl. apply lookup_lt_Some in Hk.
      destruct (workers bm) as [|w0 [|w1 ws]]; simpl in *; try lia.
      assert (k = 0%nat) as -> by lia. simpl. split; [lia | reflexivity].
    + split; assumption.
Qed.

Lemma session_single_flight (es : list Event) : single_flight (session es).
Proof.
  unfold session. induction es as [|e es IH] using rev_ind.
  - split; [simpl; lia | reflexivity].
  - rewrite fold_left_app. simpl. apply step_single_flight, IH.
Qed.

(** C4, as the code has it: a call of [run_command] while a build is in
    flight is rejected at once and without queuing: it returns normally
    after showing the warning [Build in Progress], starts no worker (so no
    second process) and changes nothing else, and the worker in flight ends
    in the same state as without the call, the warning apart.  In every
    session at most one worker is pending. *)
Theorem busy_call_is_rejected_with_a_warning
    (command description : string) (bm : BuildManager)
    (k : nat) (r : Run) (now : string) (es : list Event) :
  (is_building bm = true ->
   let bm' := snd (run_command command description bm) in
   fst (run_command command description bm) = ReturnedNone /\
   workers bm' = workers bm /\
   build_history bm' = build_history bm /\
   history_json bm' = history_json bm /\
   is_building bm' = true /\
   status_var bm' = status_var bm /\
   dialogs bm' = dialogs bm ++ [busy_warning] /\
   run_in_thread k r now bm' = warned (run_in_thread k r now bm)) /\
  (length (workers (session es)) <= 1)%nat /\
  (is_building (session es) = false -> workers (session es) = []).
Proof.
  split.
  - intros Hb. cbn zeta. rewrite (run_command_busy _ _ _ Hb). simpl.
    rewrite run_in_thread_warned. repeat split; auto.
  - apply session_single_flight.
Qed.

Definition build_web : Event :=
  Call "flutter build web" "Build Web Application".

Definition build_apk : Event :=
  Call "flutter build apk --split-per-abi" "Build Android APK".

(** The theorem at a second call made while the first build runs. *)
Lemma busy_call_is_rejected_with_a_warning_witness :
  let bm := session [build_web] in
  let bm' := step bm build_apk in
  is_building bm = true /\
  workers bm' = workers bm /\
  dialogs bm' = [busy_warning] /\
  run_in_thread 0 (Exited [] 0) "2024-01-01T00:00:00" bm' =
    warned (run_in_thread 0 (Exited [] 0) "2024-01-01T00:00:00" bm).
Proof.
  cbn zeta.
  destruct (busy_call_is_rejected_with_a_warning
              "flutter build apk --split-per-abi" "Build Android APK"
              (session [build_web]) 0 (Exited [] 0) "2024-01-01T00:00:00" [])
    as [H _].
  destruct (H eq_refl) as (_ & Hw & _ & _ & _ & _ & Hd & Hr).
  split; [reflexivity|]. split; [exact Hw|]. split; [exact Hd|]. exact Hr.
Defined.

(** C4 as stated fails: the rejected call raises nothing, it returns [None]
    as an accepted call does; the rejection is the warning dialog. *)
Lemma busy_call_returns_none :
  let bm := session [build_web] in
  is_building bm = true /\
  fst (run_command "flutter build apk --split-per-abi" "Build Android APK" bm)
    = ReturnedNone /\
  fst (run_command "flutter build web" "Build Web Application" init)
    = ReturnedNone /\
  dialogs (step bm build_apk) = [busy_warning].
Proof. repeat split. Qed.

End BuildMgrFacts.

(** ** The quality report of build_optimizer_enhanced.py *)

Module BuildOptimizerFacts.
Import BuildOptimizer.

Definition a_warning : CheckResult :=
  mkCheckResult WARNING "Plugin manager missing" None
                (Some "Implement plugin management system").

Definition an_error : CheckResult :=
  mkCheckResult ERROR "pubspec.yaml not found" None None.

(** C9: [generate_report] derives no status.  Whatever the results, with
    or without errors and warnings, the count of the INFO results reads the
    unbound name [r] and the call raises [NameError] before the summary and
    its status exist; so it does for a report with one warning and for one
    with one error. *)
Theorem generate_report_raises_name_error (results : list CheckResult) :
  generate_report results
    = RaisedError "NameError: name 'r' is not defined" /\
  generate_report [a_warning]
    = RaisedError "NameError: name 'r' is not defined" /\
  generate_report [an_error]
    = RaisedError "NameError: name 'r' is not defined".
Proof. repeat split. Qed.

End BuildOptimizerFacts.

(** ** The average build time in master_gui_app.py *)

Module AverageFacts.
Import MasterGui.

(** The durations of the succeeded attempts, in order. *)
Definition succeeded_durations (ts : list Attempt) : list Q :=
  map at_duration (filter (fun t => at_success t = true) ts).

(** The mean of a list of durations, 0 for the empty list. *)
Definition mean (ds : list Q) : Q :=
  if 0 <? Z.of_nat (length ds)
  then (fold_left Qplus ds 0 / inject_Z (Z.of_nat (length ds)))%Q
  else 0%Q.

Lemma succeeded_records (ts : list Attempt) :
  filter (fun r => success r = true) (map record_of ts) =
    map record_of (filter (fun t => at_success t = true) ts).
Proof.
  induction ts as [|t ts IH]; [reflexivity|].
  cbn [map]. destruct (at_success t) eqn:Ht.
  - rewrite !filter_cons_True by exact Ht. cbn [map]. now rewrite IH.
  - rewrite !filter_cons_False by (simpl; congruence). exact IH.
Qed.

Lemma durations_of_records (ts : list Attempt) :
  map duration (map record_of ts) = map at_duration ts.
Proof. rewrite map_map. reflexivity. Qed.

(** From the empty history the average held is the mean of the durations of
    the succeeded attempts. *)
Lemma average_is_mean_of_succeeded (ts : list Attempt) (d : Disk) :
  average_build_time (build_stats (record_all ts (mkApp [] zero_stats d))) =
    mean (succeeded_durations ts).
Proof.
  pose proof (MasterGuiFacts.record_all_consistent ts _
                (MasterGuiFacts.fresh_consistent d)) as Hc.
  unfold MasterGuiFacts.consistent, metrics, fold_metrics in Hc.
  injection Hc as _ _ _ Ha. rewrite Ha.
  rewrite (MasterGuiFacts.record_all_history ts (mkApp [] zero_stats d)).
  simpl build_history. rewrite app_nil_l.
  unfold mean, succeeded_durations, count_succeeded, total_time.
  rewrite succeeded_records, durations_of_records, !length_map.
  reflexivity.
Qed.

(** A failed record at the end of a history adds nothing to the sum the
    average is computed from. *)
Lemma total_time_failed (h : list BuildRecord) (t : Attempt) :
  at_success t = false -> total_time (h ++ [record_of t]) = total_time h.
Proof.
  intros Hf. unfold total_time. rewrite filter_app.
  rewrite (filter_cons_False _ (record_of t)) by (simpl; congruence).
  rewrite filter_nil, app_nil_r. reflexivity.
Qed.

(** The average after a failed attempt, in every state. *)
Lemma average_after_failed (t : Attempt) (a : App) :
  at_success t = false ->
  average_build_time (build_stats (record_build_attempt t a)) =
    if 0 <? successful_builds (build_stats a)
    then (total_time (build_history a)
          / inject_Z (successful_builds (build_stats a)))%Q
    else average_build_time (build_stats a).
Proof.
  intros Hf. rewrite MasterGuiFacts.record_stats. cbn zeta. simpl.
  rewrite Hf, (total_time_failed _ _ Hf). reflexivity.
Qed.

(** The average after an attempt, in every state: the sum over the
    succeeded records in memory by the counter of succeeded builds. *)
Lemma average_after_record (t : Attempt) (a : App) :
  average_build_time (build_stats (record_build_attempt t a)) =
    let succ := if at_success t then successful_builds (build_stats a) + 1
                else successful_builds (build_stats a) in
    if 0 <? succ
    then (fold_left Qplus
            (map duration
               (filter (fun r => success r = true) (build_history a)
                ++ filter (fun r => success r = true) [record_of t])) 0
          / inject_Z succ)%Q
    else average_build_time (build_stats a).
Proof.
  rewrite MasterGuiFacts.record_stats. cbn zeta. simpl.
  unfold total_time. rewrite filter_app. reflexivity.
Qed.

(** C5: the average duration is computed over the succeeded runs only.  For
    every history recorded from the start it is the mean of the durations
    of the succeeded runs, so two histories with the same succeeded
    durations have the same average whatever their failed runs.  In every
    state the failed records of the history and the duration of a failed
    run being recorded have no part in the average computed, and once a run
    has been recorded, recording a failed run leaves the average as it
    is. *)
Theorem average_over_succeeded_runs
    (ts ts' : list Attempt) (d d' : Disk) (t t' : Attempt) (a : App)
    (h h' : list BuildRecord) (s : BuildStats) :
  average_build_time (build_stats (record_all ts (mkApp [] zero_stats d)))
    = mean (succeeded_durations ts) /\
  (succeeded_durations ts = succeeded_durations ts' ->
   average_build_time (build_stats (record_all ts (mkApp [] zero_stats d)))
   = average_build_time
       (build_stats (record_all ts' (mkApp [] zero_stats d')))) /\
  (at_success t = false -> at_success t' = false ->
   average_build_time (build_stats (record_build_attempt t a))
   = average_build_time (build_stats (record_build_attempt t' a))) /\
  (filter (fun r => success r = true) h
     = filter (fun r => success r = true) h' ->
   average_build_time (build_stats (record_build_attempt t (mkApp h s d)))
   = average_build_time
       (build_stats (record_build_attempt t (mkApp h' s d')))) /\
  (at_success t' = false ->
   average_build_time
     (build_stats (record_build_attempt t' (record_build_attempt t a)))
   = average_build_time (build_stats (record_build_attempt t a))).
Proof.
  split; [apply average_is_mean_of_succeeded|]. split; [|split; [|split]].
  - intros H. rewrite !average_is_mean_of_succeeded, H. reflexivity.
  - intros Hf Hf'. rewrite !average_after_failed by assumption. reflexivity.
  - intros Hs. rewrite !average_after_record. cbn zeta. simpl.
    rewrite Hs. reflexivity.
  - intros Hf'. rewrite (average_after_failed t' _ Hf').
    rewrite MasterGuiFacts.record_history, MasterGuiFacts.record_stats.
    cbn zeta. simpl.
    destruct (0 <? (if at_success t
                    then successful_builds (build_stats a) + 1
                    else successful_builds (build_stats a))); reflexivity.
Qed.

Definition quick_failure : Attempt :=
  mkAttempt 1001 1001 "['flutter', 'build', 'web']" "Build Web" false (1 # 10)
            (Some "Unknown error").

Definition slow_failure : Attempt :=
  mkAttempt 1002 1002 "['flutter', 'build', 'apk']" "Build APK" false 600
            (Some "Gradle task assembleRelease failed").

(** The theorem at a succeeded build of one second followed by a failed run
    of a tenth of a second, or by one of ten minutes. *)
Lemma average_over_succeeded_runs_witness :
  average_build_time
    (build_stats (record_all [MasterGuiFacts.sample_attempt; quick_failure]
                             (mkApp [] zero_stats MasterGuiFacts.fresh_disk)))
  = average_build_time
      (build_stats (record_all [MasterGuiFacts.sample_attempt]
                               (mkApp [] zero_stats MasterGuiFacts.fresh_disk)))
  /\
  average_build_time
    (build_stats
       (record_build_attempt quick_failure
          (record_all [MasterGuiFacts.sample_attempt]
             (mkApp [] zero_stats MasterGuiFacts.fresh_disk))))
  = average_build_time
      (build_stats
         (record_build_attempt slow_failure
            (record_all [MasterGuiFacts.sample_attempt]
               (mkApp [] zero_stats MasterGuiFacts.fresh_disk))))
  /\
  average_build_time
    (build_stats
       (record_build_attempt quick_failure
          (record_build_attempt MasterGuiFacts.sample_attempt
             (mkApp [] zero_stats MasterGuiFacts.fresh_disk))))
  = average_build_time
      (build_stats
         (record_build_attempt MasterGuiFacts.sample_attempt
            (mkApp [] zero_stats MasterGuiFacts.fresh_disk)))
  /\
  average_build_time
    (build_stats
       (record_build_attempt MasterGuiFacts.sample_attempt
          (mkApp [record_of slow_failure] zero_stats
                 MasterGuiFacts.fresh_disk)))
  = average_build_time
      (build_stats
         (record_build_attempt MasterGuiFacts.sample_attempt
            (mkApp [] zero_stats MasterGuiFacts.fresh_disk))).
Proof.
  destruct (average_over_succeeded_runs [] []
              MasterGuiFacts.fresh_disk MasterGuiFacts.fresh_disk
              MasterGuiFacts.sample_attempt quick_failure
              (mkApp [] zero_stats MasterGuiFacts.fresh_disk)
              [record_of slow_failure] [] zero_stats)
    as (_ & _ & _ & Hhistory & _).
  destruct (average_over_succeeded_runs
              [MasterGuiFacts.sample_attempt; quick_failure]
              [MasterGuiFacts.sample_attempt]
              MasterGuiFacts.fresh_disk MasterGuiFacts.fresh_disk
              quick_failure slow_failure
              (record_all [MasterGuiFacts.sample_attempt]
                 (mkApp [] zero_stats MasterGuiFacts.fresh_disk))
              [] [] zero_stats)
    as (_ & Hsame & Hfailed & _).
  destruct (average_over_succeeded_runs [] []
              MasterGuiFacts.fresh_disk MasterGuiFacts.fresh_disk
              MasterGuiFacts.sample_attempt quick_failure
              (mkApp [] zero_stats MasterGuiFacts.fresh_disk)
              [] [] zero_stats)
    as (_ & _ & _ & _ & Hkeeps).
  split; [apply Hsame; reflexivity|].
  split; [apply Hfailed; reflexivity|].
  split; [apply Hkeeps; reflexivity | apply Hhistory; reflexivity].
Defined.

End AverageFacts.

(** ** The timeout rule and its fix in ci_cd_analyzer.py *)

Module TimeoutFixFacts.
Import PyStr PyStrFacts CICD.

(** The lines the fix inserts after: those holding [jobs:] or [steps:]. *)
Definition anchors (content : string) : nat :=
  length (List.filter is_timeout_anchor (split_nl content)).

(** The issues of the rule [timeout_missing] in a list of issues. *)
Definition timeout_issues (issues : list Issue) : list Issue :=
  List.filter (fun i => String.eqb (i_type i) "timeout_missing") issues.

(** The issues a rule method returns; none when it raises. *)
Definition returned_issues (r : Exc (list Issue * Analyzer)) : list Issue :=
  match r with
  | Ok (issues, _) => issues
  | Raise _ => []
  end.

Lemma add_timeouts_length (ls : list string) :
  length (add_timeouts ls) =
    (length ls + length (List.filter is_timeout_anchor ls))%nat.
Proof.
  induction ls as [|l ls IH]; [reflexivity|].
  unfold add_timeouts in *. simpl.
  destruct (is_timeout_anchor l); simpl; rewrite IH; lia.
Qed.

Lemma add_timeouts_anchors (ls : list string) :
  List.filter is_timeout_anchor (add_timeouts ls) =
    List.filter is_timeout_anchor ls.
Proof.
  induction ls as [|l ls IH]; [reflexivity|].
  unfold add_timeouts in *. simpl.
  destruct (is_timeout_anchor l) eqn:E; simpl; rewrite E, IH; reflexivity.
Qed.

Lemma add_timeouts_none (ls : list string) :
  List.filter is_timeout_anchor ls = [] -> add_timeouts ls = ls.
Proof.
  induction ls as [|l ls IH]; [reflexivity|].
  unfold add_timeouts in *. simpl.
  destruct (is_timeout_anchor l); [discriminate|].
  intros H. simpl. now rewrite IH.
Qed.

Lemma add_timeouts_lines (ls : list string) :
  Forall (fun l => no_nl l = true) ls ->
  Forall (fun l => no_nl l = true) (add_timeouts ls).
Proof.
  induction 1 as [|l ls Hl Hls IH]; [constructor|].
  unfold add_timeouts in *. simpl.
  destruct (is_timeout_anchor l); simpl; repeat constructor; assumption.
Qed.

Lemma add_timeouts_nonempty (ls : list string) :
  ls <> [] -> add_timeouts ls <> [].
Proof.
  destruct ls as [|l ls]; [intros H; now destruct H|]. intros _.
  unfold add_timeouts. simpl. destruct (is_timeout_anchor l); discriminate.
Qed.

Lemma add_timeouts_inserts (ls : list string) :
  List.filter is_timeout_anchor ls <> [] -> In timeout_line (add_timeouts ls).
Proof.
  induction ls as [|l ls IH]; [intros H; now destruct H|].
  unfold add_timeouts in *. simpl.
  destruct (is_timeout_anchor l); simpl; intros H.
  - right. left. reflexivity.
  - right. apply IH, H.
Qed.

(** The lines of the fixed content are the lines given with the timeout
    lines inserted. *)
Lemma split_timeout_fix (content : string) :
  split_nl (timeout_fix content) = add_timeouts (split_nl content).
Proof.
  unfold timeout_fix. apply split_join.
  - apply add_timeouts_nonempty, split_nl_nonempty.
  - apply add_timeouts_lines, split_nl_lines.
Qed.

Lemma timeout_fix_lines (content : string) :
  length (split_nl (timeout_fix content)) =
    (length (split_nl content) + anchors content)%nat.
Proof. rewrite split_timeout_fix. apply add_timeouts_length. Qed.

Lemma timeout_fix_anchors (content : string) :
  anchors (timeout_fix content) = anchors content.
Proof.
  unfold anchors. now rewrite split_timeout_fix, add_timeouts_anchors.
Qed.

Lemma timeout_fix_unanchored (content : string) :
  anchors content = 0%nat -> timeout_fix content = content.
Proof.
  unfold anchors, timeout_fix. intros H.
  rewrite add_timeouts_none by (now apply length_zero_iff_nil).
  apply join_split.
Qed.

Lemma timeout_fix_declares (content : string) :
  (0 < anchors content)%nat ->
  contains "timeout-minutes:" (timeout_fix content) = true.
Proof.
  unfold anchors, timeout_fix. intros H.
  apply (contains_join _ timeout_line); [|reflexivity].
  apply add_timeouts_inserts. intros E. rewrite E in H. simpl in H. lia.
Qed.

Lemma timeout_fix_twice (content : string) :
  timeout_fix (timeout_fix content) = timeout_fix content <->
  anchors content = 0%nat.
Proof.
  split.
  - intros H. apply (f_equal (fun c => length (split_nl c))) in H.
    rewrite !timeout_fix_lines, timeout_fix_anchors in H. lia.
  - intros H. now rewrite !(timeout_fix_unanchored content H).
Qed.

Lemma timeout_issues_reported (content : string) :
  timeout_issues (workflow_issues content) =
    if contains "timeout-minutes:" content then []
    else [line_issue "timeout_missing" "medium"
            "No timeout specified for jobs" "Add timeout-minutes to all jobs"
            (find_line_number content "jobs:")].
Proof.
  unfold workflow_issues, timeout_issues.
  destruct (contains "timeout-minutes:" content),
           (contains "cache:" content),
           (contains "continue-on-error:" content),
           (contains "if: failure()" content),
           (contains "uses: actions/upload-artifact@v3" content);
    reflexivity.
Qed.

Lemma fix_timeout_missing_writes (issue : Issue) (a : Analyzer)
    (content : string) :
  i_file issue = None ->
  files (project a) !! default_workflow = Some (Text content) ->
  fix_timeout_missing issue a =
    ("Added timeout-minutes: 30 to jobs",
     write_file default_workflow (timeout_fix content) a).
Proof.
  intros Hf Hc. unfold fix_timeout_missing. rewrite Hf. simpl.
  rewrite Hc. reflexivity.
Qed.

Lemma write_file_read (path content : string) (a : Analyzer) :
  files (project (write_file path content a)) !! path = Some (Text content).
Proof. simpl. apply lookup_insert_eq. Qed.

Lemma write_file_twice (path c1 c2 : string) (a : Analyzer) :
  write_file path c2 (write_file path c1 a) = write_file path c2 a.
Proof. unfold write_file. simpl. now rewrite insert_insert_eq. Qed.

(** C6, as the code has it: the timeout fix is idempotent exactly on the
    contents it leaves unchanged, those with no line holding [jobs:] or
    [steps:].  Every application writes the lines it read with one
    [timeout-minutes: 30] line inserted after each line holding [jobs:] or
    [steps:], whether or not one is already there, and keeps the number of
    such lines: a second application to fixed content inserts the same
    number of lines again, and [fix_timeout_missing] rewrites the workflow
    file that way at every call. *)
Theorem timeout_fix_idempotent_iff_unanchored
    (content : string) (issue : Issue) (a : Analyzer) :
  (timeout_fix (timeout_fix content) = timeout_fix content <->
   anchors content = 0%nat) /\
  (anchors content = 0%nat -> timeout_fix content = content) /\
  split_nl (timeout_fix content) = add_timeouts (split_nl content) /\
  split_nl (timeout_fix (timeout_fix content))
    = add_timeouts (add_timeouts (split_nl content)) /\
  length (split_nl (timeout_fix content)) =
    (length (split_nl content) + anchors content)%nat /\
  length (split_nl (timeout_fix (timeout_fix content))) =
    (length (split_nl content) + 2 * anchors content)%nat /\
  (i_file issue = None ->
   files (project a) !! default_workflow = Some (Text content) ->
   let once := snd (fix_timeout_missing issue a) in
   let twice := snd (fix_timeout_missing issue once) in
   files (project once) !! default_workflow
     = Some (Text (timeout_fix content)) /\
   files (project twice) !! default_workflow
     = Some (Text (timeout_fix (timeout_fix content))) /\
   (twice = once <-> anchors content = 0%nat)).
Proof.
  split; [apply timeout_fix_twice|].
  split; [apply timeout_fix_unanchored|].
  split; [apply split_timeout_fix|].
  split; [rewrite !split_timeout_fix; reflexivity|].
  split; [apply timeout_fix_lines|].
  split; [rewrite !timeout_fix_lines, timeout_fix_anchors; lia|].
  intros Hf Hc. cbn zeta.
  rewrite (fix_timeout_missing_writes issue a content Hf Hc). simpl snd.
  rewrite (fix_timeout_missing_writes issue _ _ Hf
             (write_file_read default_workflow (timeout_fix content) a)).
  simpl snd. rewrite write_file_twice.
  split; [apply write_file_read|]. split; [apply write_file_read|].
  split.
  - intros H. apply timeout_fix_twice.
    apply (f_equal (fun x => files (project x) !! default_workflow)) in H.
    rewrite !write_file_read in H. congruence.
  - intros H. apply timeout_fix_twice in H. now rewrite H.
Qed.

Definition plain_workflow : string :=
  "name: CI" +:+ NL +:+ "on: push".

Definition ci_workflow : string :=
  "name: CI" +:+ NL +:+ "jobs:" +:+ NL +:+ "  build:" +:+ NL +:+ "    steps:"
  +:+ NL +:+ "    - run: flutter build apk".

Definition timeout_issue (content : string) : Issue :=
  line_issue "timeout_missing" "medium" "No timeout specified for jobs"
             "Add timeout-minutes to all jobs"
             (find_line_number content "jobs:").

Definition project_with (workflow : string) : Project :=
  mkProject {[ default_workflow := Text workflow ]} None false []
            (Failed "flutter") (Failed "flutter") (Failed "flutter").

Definition analyzer_of (workflow : string) : Analyzer :=
  mkAnalyzer (project_with workflow) [] [].

(** The theorem at a workflow without jobs, which the fix leaves as it is. *)
Lemma timeout_fix_idempotent_iff_unanchored_witness :
  timeout_fix plain_workflow = plain_workflow /\
  (let once := snd (fix_timeout_missing (timeout_issue plain_workflow)
                      (analyzer_of plain_workflow)) in
   let twice := snd (fix_timeout_missing (timeout_issue plain_workflow) once) in
   twice = once).
Proof.
  destruct (timeout_fix_idempotent_iff_unanchored plain_workflow
              (timeout_issue plain_workflow) (analyzer_of plain_workflow))
    as (_ & Hsame & _ & _ & _ & _ & Hfiles).
  split; [apply Hsame; reflexivity|].
  destruct (Hfiles eq_refl eq_refl) as (_ & _ & Hiff).
  apply Hiff. reflexivity.
Defined.

(** C6 as stated fails: on a workflow with a [jobs:] and a [steps:] line the
    second application of the timeout fix changes the fixed content, which
    then holds each inserted line twice. *)
Lemma timeout_fix_not_idempotent :
  timeout_fix ci_workflow =
    "name: CI" +:+ NL +:+ "jobs:" +:+ NL +:+ timeout_line +:+ NL
    +:+ "  build:" +:+ NL +:+ "    steps:" +:+ NL +:+ timeout_line +:+ NL
    +:+ "    - run: flutter build apk" /\
  timeout_fix (timeout_fix ci_workflow) =
    "name: CI" +:+ NL +:+ "jobs:" +:+ NL +:+ timeout_line +:+ NL
    +:+ timeout_line +:+ NL
    +:+ "  build:" +:+ NL +:+ "    steps:" +:+ NL +:+ timeout_line +:+ NL
    +:+ timeout_line +:+ NL
    +:+ "    - run: flutter build apk" /\
  String.eqb (timeout_fix (timeout_fix ci_workflow)) (timeout_fix ci_workflow)
    = false.
Proof. repeat split. Qed.

(** What a call of the workflow rule with [content] leaves: the object with
    the issues of the content added to its report. *)
Definition analysed (content : string) (a : Analyzer) : Analyzer :=
  mkAnalyzer (project a) (report_issues a ++ workflow_issues content)
             (report_fixes_applied a).

Lemma timeout_issues_app (l1 l2 : list Issue) :
  timeout_issues (l1 ++ l2) = timeout_issues l1 ++ timeout_issues l2.
Proof. unfold timeout_issues. apply List.filter_app. Qed.

(** The file analysed after the timeout fix: rewritten when it is
    [.github/workflows/ci.yml], as it was otherwise. *)
Lemma fix_timeout_missing_file (workflow_file content : string)
    (issue : Issue) (a : Analyzer) :
  i_file issue = None ->
  files (project a) !! workflow_file = Some (Text content) ->
  files (project (snd (fix_timeout_missing issue a))) !! workflow_file
    = Some (Text (if String.eqb workflow_file default_workflow
                  then timeout_fix content else content)).
Proof.
  intros Hf Hc. unfold fix_timeout_missing. rewrite Hf. simpl default.
  destruct (String.eqb_spec workflow_file default_workflow) as [->|Hne].
  - rewrite Hc. simpl. apply lookup_insert_eq.
  - destruct (files (project a) !! default_workflow) as [[c0|err]|];
      simpl; [|exact Hc|exact Hc].
    rewrite lookup_insert_ne by congruence. exact Hc.
Qed.

(** The rule is silent on the content of the file after the fix exactly
    when the fix rewrote it and found a line to insert after. *)
Lemma timeout_issue_after_fix (workflow_file content : string) :
  contains "timeout-minutes:" content = false ->
  timeout_issues
    (workflow_issues (if String.eqb workflow_file default_workflow
                      then timeout_fix content else content)) = [] <->
  workflow_file = default_workflow /\ (0 < anchors content)%nat.
Proof.
  intros Hno. rewrite timeout_issues_reported.
  destruct (String.eqb_spec workflow_file default_workflow) as [->|Hne].
  - destruct (Nat.eq_dec (anchors content) 0%nat) as [Hz|Hnz].
    + rewrite (timeout_fix_unanchored content Hz), Hno.
      split; [discriminate | lia].
    + rewrite timeout_fix_declares by lia. split; [split; [reflexivity|lia]|].
      reflexivity.
  - rewrite Hno. split; [discriminate | intros [? _]; contradiction].
Qed.

(** C7, as the code has it: for a workflow file whose content has no
    [timeout-minutes:] the analysis reports exactly one issue of the rule
    [timeout_missing] and adds it to the report.  Its fix rewrites
    [.github/workflows/ci.yml], whatever file was analysed.  The analysis
    of the content the analysed file has after the fix reports no issue of
    the rule exactly when that file is [.github/workflows/ci.yml] and its
    content has a line holding [jobs:] or [steps:]; otherwise the file is
    as it was and the issue is reported again.  The report is not reset:
    after the second analysis it still holds the first issue, followed by
    what the second analysis reported. *)
Theorem timeout_issue_reported_once_then_fixed_if_anchored
    (workflow_file content : string) (a : Analyzer) :
  contains "timeout-minutes:" content = false ->
  files (project a) !! workflow_file = Some (Text content) ->
  exists fixed_content,
    analyze_workflow_structure content a
      = Ok (workflow_issues content, analysed content a) /\
    timeout_issues (workflow_issues content) = [timeout_issue content] /\
    files (project (snd (fix_timeout_missing (timeout_issue content)
                           (analysed content a)))) !! workflow_file
      = Some (Text fixed_content) /\
    fixed_content = (if String.eqb workflow_file default_workflow
                     then timeout_fix content else content) /\
    (timeout_issues (workflow_issues fixed_content) = [] <->
     workflow_file = default_workflow /\ (0 < anchors content)%nat) /\
    (timeout_issues (workflow_issues fixed_content) = [] \/
     (fixed_content = content /\
      timeout_issues (workflow_issues fixed_content)
        = [timeout_issue content])) /\
    analyze_workflow_structure fixed_content
      (snd (fix_timeout_missing (timeout_issue content) (analysed content a)))
      = Ok (workflow_issues fixed_content,
            analysed fixed_content
              (snd (fix_timeout_missing (timeout_issue content)
                      (analysed content a)))) /\
    timeout_issues
      (report_issues
         (analysed fixed_content
            (snd (fix_timeout_missing (timeout_issue content)
                    (analysed content a)))))
      = timeout_issues (report_issues a) ++ [timeout_issue content]
        ++ timeout_issues (workflow_issues fixed_content).
Proof.
  intros Hno Hfile.
  exists (if String.eqb workflow_file default_workflow
          then timeout_fix content else content).
  assert (Hone : timeout_issues (workflow_issues content)
                 = [timeout_issue content])
    by (rewrite timeout_issues_reported, Hno; reflexivity).
  split; [reflexivity|]. split; [exact Hone|].
  split; [apply fix_timeout_missing_file; [reflexivity | exact Hfile]|].
  split; [reflexivity|].
  split; [apply timeout_issue_after_fix, Hno|].
  split; [|split; [reflexivity|]].
  - destruct (String.eqb_spec workflow_file default_workflow) as [->|Hne];
      [|right; split; [reflexivity | exact Hone]].
    destruct (Nat.eq_dec (anchors content) 0%nat) as [Hz|Hnz].
    + right. rewrite (timeout_fix_unanchored content Hz).
      split; [reflexivity | exact Hone].
    + left. rewrite timeout_issues_reported, timeout_fix_declares by lia.
      reflexivity.
  - assert (Hrep : report_issues
                     (snd (fix_timeout_missing (timeout_issue content)
                             (analysed content a)))
                   = report_issues a ++ workflow_issues content).
    { unfold fix_timeout_missing. simpl default.
      destruct (files (project (analysed content a)) !! default_workflow)
        as [[c0|err]|]; reflexivity. }
    unfold analysed at 1. cbn [report_issues]. rewrite Hrep.
    rewrite !timeout_issues_app, Hone, <- app_assoc. reflexivity.
Qed.

Definition build_workflow : string := ".github/workflows/build.yml".

(** An analyzer of a project whose only workflow is stored as
    [.github/workflows/build.yml]. *)
Definition build_analyzer (workflow : string) : Analyzer :=
  mkAnalyzer
    (mkProject {[ build_workflow := Text workflow ]} None false []
               (Failed "flutter") (Failed "flutter") (Failed "flutter"))
    [] [].

(** The theorem at a workflow with jobs and steps stored as
    [.github/workflows/ci.yml], where the fix removes the issue, and stored
    as [.github/workflows/build.yml], where it does not. *)
Lemma timeout_issue_reported_once_then_fixed_if_anchored_witness :
  (exists fixed_content,
     files (project (snd (fix_timeout_missing (timeout_issue ci_workflow)
                            (analysed ci_workflow (analyzer_of ci_workflow)))))
       !! default_workflow = Some (Text fixed_content) /\
     timeout_issues (workflow_issues fixed_content) = []) /\
  (exists fixed_content,
     files (project (snd (fix_timeout_missing (timeout_issue ci_workflow)
                            (analysed ci_workflow
                               (build_analyzer ci_workflow)))))
       !! build_workflow = Some (Text fixed_content) /\
     timeout_issues (workflow_issues fixed_content)
       = [timeout_issue ci_workflow]).
Proof.
  split.
  - destruct (timeout_issue_reported_once_then_fixed_if_anchored
                default_workflow ci_workflow (analyzer_of ci_workflow)
                eq_refl eq_refl)
      as (fixed_content & _ & _ & Hfile & _ & Hiff & _).
    exists fixed_content. split; [exact Hfile|].
    apply Hiff. split; [reflexivity|]. vm_compute. lia.
  - destruct (timeout_issue_reported_once_then_fixed_if_anchored
                build_workflow ci_workflow (build_analyzer ci_workflow)
                eq_refl (lookup_singleton_eq build_workflow
                           (Text ci_workflow)))
      as (fixed_content & _ & _ & Hfile & _ & Hiff & [Hnone|[_ Hagain]] & _).
    + apply Hiff in Hnone as [Hsame _]. discriminate Hsame.
    + exists fixed_content. split; [exact Hfile | exact Hagain].
Defined.

(** C7 as stated fails on a workflow without [jobs:] and [steps:]: the fix
    reports success and writes the same content, and the analysis of it
    reports the timeout issue again. *)
Lemma timeout_issue_remains_without_anchor :
  let a := analyzer_of plain_workflow in
  let issue := timeout_issue plain_workflow in
  contains "timeout-minutes:" plain_workflow = false /\
  timeout_issues (returned_issues (analyze_workflow_structure plain_workflow a))
    = [issue] /\
  fst (fix_timeout_missing issue a) = "Added timeout-minutes: 30 to jobs" /\
  files (project (snd (fix_timeout_missing issue a))) !! default_workflow
    = Some (Text plain_workflow) /\
  timeout_issues
    (returned_issues
       (analyze_workflow_structure plain_workflow
          (snd (fix_timeout_missing issue a))))
  = [issue].
Proof.
  cbn zeta.
  rewrite (fix_timeout_missing_writes (timeout_issue plain_workflow)
             (analyzer_of plain_workflow) plain_workflow eq_refl eq_refl).
  split; [reflexivity|]. split; [reflexivity|]. split; [reflexivity|].
  split; [|reflexivity].
  simpl snd. rewrite write_file_read. reflexivity.
Qed.

End TimeoutFixFacts.

(** ** The rules of [analyze_ci_cd_failure] and their failures *)

Module PipelineFacts.
Import PyStr CICD.

(** The issues of the six rules, in the order the pipeline runs them. *)
Definition all_issues (workflow pubspec : string) (p : Project) : list Issue :=
  workflow_issues workflow ++ dependency_issues pubspec p ++
  build_issues pubspec ++ test_issues p ++ security_issues p ++
  performance_issues pubspec.

(** The issues of a given type. *)
Definition of_type (type : string) (issues : list Issue) : list Issue :=
  List.filter (fun i => String.eqb (i_type i) type) issues.

(** The issue a rule makes of a failed [flutter] call. *)
Definition check_failed (type description error file : string) : Issue :=
  file_issue type "low" (description +:+ error)
             "Ensure Flutter SDK is properly installed" file.

Definition extended (issues : list Issue) (a : Analyzer) : Analyzer :=
  mkAnalyzer (project a) (report_issues a ++ issues) (report_fixes_applied a).

Lemma Forall_flat_map_each {A B} (P : B -> Prop) (f : A -> list B)
    (l : list A) :
  (forall x, Forall P (f x)) -> Forall P (flat_map f l).
Proof.
  intros H. induction l as [|x l IH]; simpl; [constructor|].
  apply Forall_app. split; [apply H | exact IH].
Qed.

Lemma of_type_app (type : string) (l1 l2 : list Issue) :
  of_type type (l1 ++ l2) = of_type type l1 ++ of_type type l2.
Proof. apply List.filter_app. Qed.

Lemma of_type_none (type : string) (l : list Issue) :
  Forall (fun i => String.eqb (i_type i) type = false) l ->
  of_type type l = [].
Proof.
  induction 1 as [|i l Hi Hl IH]; [reflexivity|].
  unfold of_type in *. simpl. now rewrite Hi.
Qed.

(** Splits a property of all issues of a rule into its single issues. *)
Ltac each_issue :=
  repeat first
    [ apply Forall_nil
    | apply Forall_app; split
    | apply Forall_cons; split
    | apply Forall_flat_map_each; intros ?
    | match goal with
      | |- Forall _ (if ?b then _ else _) => destruct b
      | |- Forall _ (match ?x with _ => _ end) => destruct x
      end ];
  try (simpl; (discriminate || reflexivity)).

Lemma workflow_issues_types (type : string) (content : string) :
  In type ["dependency_check_failed"; "test_coverage_check_failed";
           "dependency_security_check_failed"] ->
  Forall (fun i => String.eqb (i_type i) type = false) (workflow_issues content).
Proof.
  intros H. simpl in H. unfold workflow_issues.
  destruct H as [<- | [<- | [<- | []]]]; each_issue.
Qed.

Lemma build_issues_types (type : string) (content : string) :
  In type ["dependency_check_failed"; "test_coverage_check_failed";
           "dependency_security_check_failed"] ->
  Forall (fun i => String.eqb (i_type i) type = false) (build_issues content).
Proof.
  intros H. simpl in H. unfold build_issues.
  destruct H as [<- | [<- | [<- | []]]]; each_issue.
Qed.

Lemma performance_issues_types (type : string) (content : string) :
  In type ["dependency_check_failed"; "test_coverage_check_failed";
           "dependency_security_check_failed"] ->
  Forall (fun i => String.eqb (i_type i) type = false)
         (performance_issues content).
Proof.
  intros H. simpl in H. unfold performance_issues.
  destruct H as [<- | [<- | [<- | []]]]; each_issue.
Qed.

Lemma dart_issues_types (type : string) (ds : list DartFile) :
  In type ["dependency_check_failed"; "test_coverage_check_failed";
           "dependency_security_check_failed"] ->
  Forall (fun i => String.eqb (i_type i) type = false)
         (flat_map dart_file_issues ds).
Proof.
  intros H. simpl in H. unfold dart_file_issues.
  destruct H as [<- | [<- | [<- | []]]]; each_issue.
Qed.

(** No rule gives an issue the severity [error]. *)
Lemma no_error_severity (workflow pubspec : string) (p : Project) :
  Forall (fun i => i_severity i <> Some "error")
         (all_issues workflow pubspec p).
Proof.
  unfold all_issues, workflow_issues, dependency_issues, outdated_issues,
    build_issues, test_issues, coverage_issues, security_issues,
    dart_file_issues, vulnerable_issues, performance_issues.
  each_issue.
Qed.

(** Decides every test and every call result the goal branches on. *)
Ltac by_cases :=
  repeat match goal with
         | |- context [if ?b then _ else _] => destruct b
         | |- context [match ?x with _ => _ end] => destruct x
         end;
  reflexivity.

Lemma dependency_check_failed_once (pubspec : string) (p : Project) :
  of_type "dependency_check_failed" (dependency_issues pubspec p) =
    match flutter_pub_outdated p with
    | Failed e =>
        [check_failed "dependency_check_failed"
           "Failed to check dependencies: " e "pubspec.yaml"]
    | Completed _ _ => []
    end /\
  of_type "test_coverage_check_failed" (dependency_issues pubspec p) = [] /\
  of_type "dependency_security_check_failed" (dependency_issues pubspec p) = [].
Proof.
  unfold of_type, dependency_issues, outdated_issues.
  repeat split; by_cases.
Qed.

Lemma test_coverage_check_failed_once (p : Project) :
  of_type "test_coverage_check_failed" (test_issues p) =
    match flutter_test_coverage p with
    | Failed e =>
        [check_failed "test_coverage_check_failed"
           "Failed to check test coverage: " e "test/"]
    | Completed _ _ => []
    end /\
  of_type "dependency_check_failed" (test_issues p) = [] /\
  of_type "dependency_security_check_failed" (test_issues p) = [].
Proof.
  unfold of_type, test_issues, coverage_issues.
  repeat split; by_cases.
Qed.

Lemma security_check_failed_once (p : Project) :
  of_type "dependency_security_check_failed" (security_issues p) =
    match flutter_pub_deps p with
    | Failed e =>
        [check_failed "dependency_security_check_failed"
           "Failed to check dependencies: " e "pubspec.yaml"]
    | Completed _ _ => []
    end /\
  of_type "dependency_check_failed" (security_issues p) = [] /\
  of_type "test_coverage_check_failed" (security_issues p) = [].
Proof.
  unfold security_issues. rewrite !of_type_app.
  rewrite !(of_type_none _ (flat_map dart_file_issues (dart_files p)))
    by (apply dart_issues_types; simpl; auto).
  unfold of_type, vulnerable_issues. simpl flat_map.
  repeat split; by_cases.
Qed.

(** With a readable workflow and a readable [pubspec.yaml] the pipeline
    returns the report extended by the issues of the six rules. *)
Lemma analyze_readable (workflow_file workflow pubspec : string)
    (a : Analyzer) :
  files (project a) !! workflow_file = Some (Text workflow) ->
  files (project a) !! "pubspec.yaml" = Some (Text pubspec) ->
  analyze_ci_cd_failure workflow_file a =
    Ok (Report (report_issues a ++ all_issues workflow pubspec (project a))
               (report_fixes_applied a),
        extended (all_issues workflow pubspec (project a)) a).
Proof.
  intros Hw Hp.
  unfold analyze_ci_cd_failure, analyze_workflow_structure,
    analyze_dependency_issues, analyze_build_issues, analyze_test_issues,
    analyze_security_issues, analyze_performance_issues, current_report,
    bind, extend_report, extended, all_issues.
  rewrite Hw. simpl. repeat (rewrite Hp; simpl).
  rewrite <- !app_assoc. reflexivity.
Qed.

(** An unreadable [pubspec.yaml] makes the dependency rule raise, and the
    pipeline with it. *)
Lemma analyze_unreadable_pubspec (workflow_file workflow error : string)
    (a : Analyzer) :
  files (project a) !! workflow_file = Some (Text workflow) ->
  files (project a) !! "pubspec.yaml" = Some (Unreadable error) ->
  analyze_ci_cd_failure workflow_file a = Raise error.
Proof.
  intros Hw Hp.
  unfold analyze_ci_cd_failure, analyze_workflow_structure,
    analyze_dependency_issues, bind, extend_report.
  rewrite Hw. simpl. rewrite Hp. reflexivity.
Qed.

Lemma failed_check_once (workflow pubspec : string) (p : Project) :
  of_type "dependency_check_failed" (all_issues workflow pubspec p) =
    of_type "dependency_check_failed" (dependency_issues pubspec p) /\
  of_type "test_coverage_check_failed" (all_issues workflow pubspec p) =
    of_type "test_coverage_check_failed" (test_issues p) /\
  of_type "dependency_security_check_failed" (all_issues workflow pubspec p) =
    of_type "dependency_security_check_failed" (security_issues p).
Proof.
  destruct (dependency_check_failed_once pubspec p) as (_ & Hd2 & Hd3).
  destruct (test_coverage_check_failed_once p) as (_ & Ht1 & Ht3).
  destruct (security_check_failed_once p) as (_ & Hs1 & Hs2).
  unfold all_issues. rewrite !of_type_app.
  rewrite !(of_type_none _ (workflow_issues workflow))
    by (apply workflow_issues_types; simpl; auto).
  rewrite !(of_type_none _ (build_issues pubspec))
    by (apply build_issues_types; simpl; auto).
  rewrite !(of_type_none _ (performance_issues pubspec))
    by (apply performance_issues_types; simpl; auto).
  rewrite Hd2, Hd3, Ht1, Ht3, Hs1, Hs2. simpl.
  rewrite !app_nil_r. repeat split.
Qed.

(** C8, as the code has it: the pipeline runs its six rules in sequence
    and catches nothing itself.  With a readable workflow and a readable
    [pubspec.yaml] it returns the report extended by the issues of all six
    rules, none of severity [error]; a [flutter] call that raises inside the
    dependency, test or security rule becomes exactly one issue of severity
    [low] named after the failed check, and the other rules contribute
    their issues all the same.  An exception that leaves a rule, as from a
    [pubspec.yaml] that cannot be read, leaves the pipeline too. *)
Theorem tool_failure_is_one_low_issue_and_rule_error_propagates
    (workflow_file workflow : string) (a : Analyzer) :
  files (project a) !! workflow_file = Some (Text workflow) ->
  (forall pubspec,
     files (project a) !! "pubspec.yaml" = Some (Text pubspec) ->
     let issues := all_issues workflow pubspec (project a) in
     analyze_ci_cd_failure workflow_file a =
       Ok (Report (report_issues a ++ issues) (report_fixes_applied a),
           extended issues a) /\
     Forall (fun i => i_severity i <> Some "error") issues /\
     (forall e, flutter_pub_outdated (project a) = Failed e ->
        of_type "dependency_check_failed" issues =
          [check_failed "dependency_check_failed"
             "Failed to check dependencies: " e "pubspec.yaml"]) /\
     (forall e, flutter_test_coverage (project a) = Failed e ->
        of_type "test_coverage_check_failed" issues =
          [check_failed "test_coverage_check_failed"
             "Failed to check test coverage: " e "test/"]) /\
     (forall e, flutter_pub_deps (project a) = Failed e ->
        of_type "dependency_security_check_failed" issues =
          [check_failed "dependency_security_check_failed"
             "Failed to check dependencies: " e "pubspec.yaml"])) /\
  (forall error,
     files (project a) !! "pubspec.yaml" = Some (Unreadable error) ->
     analyze_ci_cd_failure workflow_file a = Raise error).
Proof.
  intros Hw. split.
  - intros pubspec Hp. cbn zeta.
    destruct (failed_check_once workflow pubspec (project a))
      as (Hd & Ht & Hs).
    destruct (dependency_check_failed_once pubspec (project a)) as (Hd1 & _).
    destruct (test_coverage_check_failed_once (project a)) as (Ht1 & _).
    destruct (security_check_failed_once (project a)) as (Hs1 & _).
    split; [now apply analyze_readable|].
    split; [apply no_error_severity|].
    split; [|split].
    + intros e He. rewrite Hd, Hd1, He. reflexivity.
    + intros e He. rewrite Ht, Ht1, He. reflexivity.
    + intros e He. rewrite Hs, Hs1, He. reflexivity.
  - intros error Hp. now apply analyze_unreadable_pubspec with workflow.
Qed.

(** The issues of the report an analysis returns; none when it raises or
    finds no workflow. *)
Definition reported (r : Exc (Analysis * Analyzer)) : list Issue :=
  match r with
  | Ok (Report issues _, _) => issues
  | _ => []
  end.

Definition no_flutter : string :=
  "[Errno 2] No such file or directory: 'flutter'".

Definition sample_pubspec : string :=
  "name: isuite" +:+ NL +:+ "environment:" +:+ NL +:+ "  sdk: '>=3.0.0 <4.0.0'".

(** A project whose files can be read, on a machine without Flutter. *)
Definition project_without_flutter : Project :=
  mkProject
    (<["pubspec.yaml" := Text sample_pubspec]>
       {[ default_workflow := Text TimeoutFixFacts.ci_workflow ]})
    None false [] (Failed no_flutter) (Failed no_flutter) (Failed no_flutter).

Definition undecodable : string :=
  "'utf-8' codec can't decode byte 0xff in position 0: invalid start byte".

(** The same project with a [pubspec.yaml] that is not text. *)
Definition project_with_broken_pubspec : Project :=
  mkProject
    (<["pubspec.yaml" := Unreadable undecodable]>
       {[ default_workflow := Text TimeoutFixFacts.ci_workflow ]})
    None false [] (Failed no_flutter) (Failed no_flutter) (Failed no_flutter).

(** The theorem at the project without Flutter and at the one with the
    broken [pubspec.yaml]. *)
Lemma tool_failure_is_one_low_issue_and_rule_error_propagates_witness :
  of_type "dependency_check_failed"
    (all_issues TimeoutFixFacts.ci_workflow sample_pubspec
       project_without_flutter)
  = [check_failed "dependency_check_failed" "Failed to check dependencies: "
       no_flutter "pubspec.yaml"] /\
  analyze_ci_cd_failure default_workflow
    (mkAnalyzer project_with_broken_pubspec [] []) = Raise undecodable.
Proof.
  destruct (tool_failure_is_one_low_issue_and_rule_error_propagates
              default_workflow TimeoutFixFacts.ci_workflow
              (mkAnalyzer project_without_flutter [] []) eq_refl)
    as (Hreadable & _).
  destruct (Hreadable sample_pubspec eq_refl) as (_ & _ & Hlow & _).
  destruct (tool_failure_is_one_low_issue_and_rule_error_propagates
              default_workflow TimeoutFixFacts.ci_workflow
              (mkAnalyzer project_with_broken_pubspec [] []) eq_refl)
    as (_ & Hraise).
  split; [apply Hlow; reflexivity | apply Hraise; reflexivity].
Defined.

(** C8 as stated fails twice.  The failed [flutter] calls of a machine
    without Flutter are reported with severity [low], and the report holds
    no issue of severity [error]; and a [pubspec.yaml] that cannot be
    decoded makes the dependency rule raise: the pipeline raises with it and
    returns no report, so no later rule runs. *)
Lemma failed_rule_is_low_or_raises :
  map i_severity
    (of_type "dependency_check_failed"
       (reported (analyze_ci_cd_failure default_workflow
                    (mkAnalyzer project_without_flutter [] []))))
  = [Some "low"] /\
  List.filter (fun i => match i_severity i with
                        | Some severity => String.eqb severity "error"
                        | None => false
                        end)
    (reported (analyze_ci_cd_failure default_workflow
                 (mkAnalyzer project_without_flutter [] [])))
  = [] /\
  analyze_ci_cd_failure default_workflow
    (mkAnalyzer project_with_broken_pubspec [] []) = Raise undecodable.
Proof.
  rewrite (analyze_readable default_workflow TimeoutFixFacts.ci_workflow
             sample_pubspec (mkAnalyzer project_without_flutter [] [])
             eq_refl eq_refl).
  rewrite (analyze_unreadable_pubspec default_workflow
             TimeoutFixFacts.ci_workflow undecodable
             (mkAnalyzer project_with_broken_pubspec [] []) eq_refl eq_refl).
  repeat split.
Qed.

End PipelineFacts.

(** ** Patterns and lines; fixes that insert lines *)

Module LineFacts.
Import PyStr PyStrFacts.

Lemma startswith_contains (p s : string) :
  startswith p s = true -> contains p s = true.
Proof. intros H. destruct s; simpl in *; rewrite H; reflexivity. Qed.

Lemma contains_cons (p : string) (c : ascii) (s : string) :
  contains p s = true -> contains p (String c s) = true.
Proof. intros H. cbn [contains]. rewrite H. apply orb_true_r. Qed.

(** A pattern without line feed that starts a text starts its first line. *)
Lemma startswith_first_line (p s : string) :
  no_nl p = true -> startswith p s = true ->
  exists l ls, split_nl s = l :: ls /\ startswith p l = true.
Proof.
  revert s. induction p as [|a p IH]; intros s Hp Hs.
  - destruct (split_nl s) as [|l ls] eqn:E.
    + now apply split_nl_nonempty in E.
    + exists l, ls. split; reflexivity.
  - destruct s as [|b s]; [discriminate|]. simpl in Hp, Hs.
    apply andb_true_iff in Hp as [Ha Hp]. apply andb_true_iff in Hs as [Hab Hs].
    apply Ascii.eqb_eq in Hab. subst b.
    destruct (IH s Hp Hs) as (l & ls & E & Hl).
    exists (String a l), ls. simpl.
    apply negb_true_iff in Ha. rewrite Ha, E. simpl.
    rewrite Ascii.eqb_refl, Hl. split; reflexivity.
Qed.

(** A pattern without line feed found in a text is found in one of its
    lines. *)
Lemma contains_some_line (p s : string) :
  no_nl p = true -> contains p s = true ->
  Exists (fun l => contains p l = true) (split_nl s).
Proof.
  intros Hp. induction s as [|c s IH]; intros H.
  - simpl. apply Exists_cons_hd. exact H.
  - cbn [contains] in H. apply orb_true_iff in H as [H | H].
    + destruct (startswith_first_line p (String c s) Hp H) as (l & ls & E & Hl).
      rewrite E. apply Exists_cons_hd. now apply startswith_contains.
    + specialize (IH H). simpl.
      destruct (Ascii.eqb c nl); [now apply Exists_cons_tl|].
      destruct (split_nl s) as [|l ls]; [inversion IH|].
      inversion IH as [? ? Hl | ? ? Hls]; subst.
      * apply Exists_cons_hd. now apply contains_cons.
      * now apply Exists_cons_tl.
Qed.

Lemma contains_lines (p s : string) :
  no_nl p = true ->
  contains p s = existsb (contains p) (split_nl s).
Proof.
  intros Hp. apply eq_true_iff_eq. rewrite existsb_exists. split.
  - intros H. apply contains_some_line in H; [|exact Hp].
    apply Exists_exists in H. destruct H as (l & Hin & Hl).
    exists l. split; [now apply list_elem_of_In | exact Hl].
  - intros (l & Hin & Hl). rewrite <- (join_split s).
    now apply contains_join with l.
Qed.

(** The text joined from lines holds a pattern without line feed exactly
    when one of the lines does. *)
Lemma contains_joined (p : string) (ls : list string) :
  ls <> [] \/ p <> "" ->
  no_nl p = true -> Forall (fun l => no_nl l = true) ls ->
  contains p (join_nl ls) = existsb (contains p) ls.
Proof.
  intros Hne Hp Hls. destruct ls as [|l ls].
  - destruct Hne as [Hne | Hne]; [now destruct Hne|].
    destruct p; [now destruct Hne | reflexivity].
  - rewrite contains_lines by exact Hp.
    rewrite split_join; [reflexivity | discriminate | exact Hls].
Qed.

(** After every line satisfying [anchor], the lines [extra]. *)
Definition insert_after (anchor : string -> bool) (extra lines : list string)
  : list string :=
  flat_map (fun line => if anchor line then line :: extra else [line]) lines.

Section Insertion.
Variable anchor : string -> bool.
Variable extra : list string.
Hypothesis extra_lines : Forall (fun l => no_nl l = true) extra.

Lemma insert_after_cons (line : string) (lines : list string) :
  insert_after anchor extra (line :: lines) =
    (if anchor line then line :: extra else [line])
    ++ insert_after anchor extra lines.
Proof. reflexivity. Qed.

Lemma insert_after_sublist (lines : list string) :
  sublist lines (insert_after anchor extra lines).
Proof.
  induction lines as [|l ls IH]; [constructor|].
  rewrite insert_after_cons. destruct (anchor l); simpl.
  - apply sublist_skip. now apply sublist_inserts_l.
  - now apply sublist_skip.
Qed.

Lemma insert_after_length (lines : list string) :
  length (insert_after anchor extra lines) =
    (length lines + length extra * length (List.filter anchor lines))%nat.
Proof.
  induction lines as [|l ls IH]; [simpl; lia|].
  rewrite insert_after_cons, length_app, IH. simpl.
  destruct (anchor l); simpl; rewrite ?length_app; simpl; lia.
Qed.

Lemma insert_after_lines (lines : list string) :
  Forall (fun l => no_nl l = true) lines ->
  Forall (fun l => no_nl l = true) (insert_after anchor extra lines).
Proof.
  induction 1 as [|l ls Hl Hls IH]; [constructor|].
  rewrite insert_after_cons. apply Forall_app. split; [|exact IH].
  destruct (anchor l); [constructor; assumption | constructor; [assumption|constructor]].
Qed.

Lemma insert_after_nonempty (lines : list string) :
  lines <> [] -> insert_after anchor extra lines <> [].
Proof.
  destruct lines as [|l ls]; [intros H; now destruct H|]. intros _.
  rewrite insert_after_cons. destruct (anchor l); discriminate.
Qed.

Lemma insert_after_exists (f : string -> bool) (lines : list string) :
  existsb f (insert_after anchor extra lines) =
    existsb f lines || (existsb anchor lines && existsb f extra).
Proof.
  induction lines as [|l ls IH]; [reflexivity|].
  rewrite insert_after_cons, existsb_app, IH. simpl.
  destruct (anchor l); simpl; rewrite ?orb_false_r;
    destruct (f l), (existsb f ls), (existsb anchor ls), (existsb f extra);
    reflexivity.
Qed.

Lemma split_inserted (content : string) :
  split_nl (join_nl (insert_after anchor extra (split_nl content))) =
    insert_after anchor extra (split_nl content).
Proof.
  apply split_join.
  - apply insert_after_nonempty, split_nl_nonempty.
  - apply insert_after_lines, split_nl_lines.
Qed.

(** What the text written by an inserting fix holds: what the text read
    held, and what the inserted lines hold if there is a line to insert
    after. *)
Lemma contains_inserted (p content : string) :
  no_nl p = true ->
  contains p (join_nl (insert_after anchor extra (split_nl content))) =
    contains p content
    || (existsb anchor (split_nl content) && existsb (contains p) extra).
Proof.
  intros Hp.
  rewrite contains_joined;
    [| left; apply insert_after_nonempty, split_nl_nonempty
     | exact Hp
     | apply insert_after_lines, split_nl_lines ].
  rewrite insert_after_exists, <- contains_lines by exact Hp. reflexivity.
Qed.

End Insertion.

End LineFacts.

(** ** The fixes and the report of ci_cd_analyzer.py *)

Module FixFacts.
Import PyStr PyStrFacts LineFacts CICD CICDFixes.

Lemma find_from_spec (pattern : string) (lines : list string) (i : nat) :
  match find_from i lines pattern with
  | None => Forall (fun l => contains pattern l = false) lines
  | Some n =>
      exists k l, n = (i + k)%nat /\ lines !! k = Some l /\
                  contains pattern l = true /\
                  Forall (fun l' => contains pattern l' = false) (take k lines)
  end.
Proof.
  revert i. induction lines as [|line lines IH]; intros i; simpl.
  - constructor.
  - destruct (contains pattern line) eqn:E.
    + exists 0%nat, line. repeat split; [lia | exact E | constructor].
    + specialize (IH (S i)). destruct (find_from (S i) lines pattern) as [n|].
      * destruct IH as (k & l & -> & Hk & Hl & Hbefore).
        exists (S k), l. repeat split; [lia | exact Hk | exact Hl |].
        simpl. constructor; assumption.
      * constructor; assumption.
Qed.

(** X1: [find_line_number] returns the 1-based number of the first line
    holding the pattern, and [None] exactly when no line holds it. *)
Theorem find_line_number_is_first_match (content pattern : string) :
  (find_line_number content pattern = None <->
   Forall (fun l => contains pattern l = false) (split_nl content)) /\
  (forall n, find_line_number content pattern = Some n ->
     (1 <= n <= length (split_nl content))%nat /\
     (exists l, split_nl content !! (n - 1)%nat = Some l /\
                contains pattern l = true) /\
     Forall (fun l => contains pattern l = false)
            (take (n - 1) (split_nl content))).
Proof.
  unfold find_line_number.
  pose proof (find_from_spec pattern (split_nl content) 1) as H.
  destruct (find_from 1 (split_nl content) pattern) as [m|]; split.
  - split; [discriminate|]. intros Hall.
    destruct H as (k & l & _ & Hk & Hl & _).
    apply list_elem_of_lookup_2 in Hk.
    rewrite Forall_forall in Hall. specialize (Hall l Hk). congruence.
  - intros n [= <-]. destruct H as (k & l & -> & Hk & Hl & Hbefore).
    replace (1 + k - 1)%nat with k by lia.
    pose proof (lookup_lt_Some _ _ _ Hk).
    split; [lia|]. split; [eauto | exact Hbefore].
  - split; [intros _; exact H | reflexivity].
  - intros n [=].
Qed.

Lemma timeout_fix_inserts (content : string) :
  timeout_fix content =
    join_nl (insert_after is_timeout_anchor [timeout_line] (split_nl content)).
Proof. reflexivity. Qed.

Lemma cache_fix_inserts (content : string) :
  cache_fix content =
    join_nl (insert_after (contains "uses: subosito/flutter-action@v2")
                          cache_lines (split_nl content)).
Proof. reflexivity. Qed.

Lemma error_handling_fix_inserts (content : string) :
  error_handling_fix content =
    join_nl (insert_after (contains "steps:") [continue_line]
                          (split_nl content)).
Proof. reflexivity. Qed.

Lemma artifact_upload_fix_inserts (content : string) :
  artifact_upload_fix content =
    join_nl (insert_after (contains "flutter build") upload_lines
                          (split_nl content)).
Proof. reflexivity. Qed.

Lemma sdk_constraint_fix_inserts (content : string) :
  sdk_constraint_fix content =
    join_nl (insert_after (contains "environment:") [sdk_line]
                          (split_nl content)).
Proof. reflexivity. Qed.

(** The loop with the section flag inserts after every [dev_dependencies:]
    line: its two other branches keep the line. *)
Lemma dev_dependencies_scan (marker : string) (added lines : list string)
    (st : Scan) :
  modified_lines (fold_left (dev_dependencies_step marker added) lines st) =
    modified_lines st
    ++ insert_after (contains "dev_dependencies:") added lines.
Proof.
  revert st. induction lines as [|l ls IH]; intros st.
  - simpl. now rewrite app_nil_r.
  - cbn [fold_left]. rewrite IH, insert_after_cons.
    unfold dev_dependencies_step.
    destruct (contains "dev_dependencies:" l).
    + simpl. rewrite <- app_assoc. reflexivity.
    + destruct (in_section st && negb (contains marker l)
                && negb (contains "}" l));
        simpl; rewrite <- app_assoc; reflexivity.
Qed.

Lemma linting_fix_inserts (content : string) :
  linting_fix content =
    join_nl (insert_after (contains "dev_dependencies:")
                          ["  flutter_lints: ^3.0.1"] (split_nl content)).
Proof. unfold linting_fix. now rewrite dev_dependencies_scan. Qed.

Lemma test_dependencies_fix_inserts (content : string) :
  test_dependencies_fix content =
    join_nl (insert_after (contains "dev_dependencies:")
                          ["  flutter_test:"; "  sdk: flutter"]
                          (split_nl content)).
Proof. unfold test_dependencies_fix. now rewrite dev_dependencies_scan. Qed.

Ltac lines_of_literals := repeat constructor.

(** X2: the fixes that add lines (timeout, cache, error handling, artifact
    upload, SDK constraint, linting, test dependencies) keep every line of
    the content they read, in the same order: the lines read are a
    subsequence of the lines written. *)
Theorem inserting_fixes_keep_the_lines (content : string) :
  sublist (split_nl content) (split_nl (timeout_fix content)) /\
  sublist (split_nl content) (split_nl (cache_fix content)) /\
  sublist (split_nl content) (split_nl (error_handling_fix content)) /\
  sublist (split_nl content) (split_nl (artifact_upload_fix content)) /\
  sublist (split_nl content) (split_nl (sdk_constraint_fix content)) /\
  sublist (split_nl content) (split_nl (linting_fix content)) /\
  sublist (split_nl content) (split_nl (test_dependencies_fix content)).
Proof.
  rewrite timeout_fix_inserts, cache_fix_inserts, error_handling_fix_inserts,
    artifact_upload_fix_inserts, sdk_constraint_fix_inserts,
    linting_fix_inserts, test_dependencies_fix_inserts.
  rewrite !split_inserted by lines_of_literals.
  repeat split; apply insert_after_sublist.
Qed.

Lemma anchor_lines (p content : string) :
  no_nl p = true -> existsb (contains p) (split_nl content) = contains p content.
Proof. intros Hp. symmetry. now apply contains_lines. Qed.

Lemma existsb_orb {A} (f g : A -> bool) (l : list A) :
  existsb (fun x => f x || g x) l = existsb f l || existsb g l.
Proof.
  induction l as [|x l IH]; [reflexivity|]. simpl. rewrite IH.
  destruct (f x), (g x), (existsb f l), (existsb g l); reflexivity.
Qed.

(** What each inserting fix adds to what the content holds. *)
Lemma contains_timeout_fix (p content : string) :
  no_nl p = true ->
  contains p (timeout_fix content) =
    contains p content
    || ((contains "jobs:" content || contains "steps:" content)
        && existsb (contains p) [timeout_line]).
Proof.
  intros Hp. rewrite timeout_fix_inserts, contains_inserted
    by (exact Hp || lines_of_literals).
  unfold is_timeout_anchor. rewrite existsb_orb, !anchor_lines by reflexivity.
  reflexivity.
Qed.

Lemma contains_cache_fix (p content : string) :
  no_nl p = true ->
  contains p (cache_fix content) =
    contains p content
    || (contains "uses: subosito/flutter-action@v2" content
        && existsb (contains p) cache_lines).
Proof.
  intros Hp. rewrite cache_fix_inserts, contains_inserted
    by (exact Hp || lines_of_literals).
  rewrite anchor_lines by reflexivity. reflexivity.
Qed.

Lemma contains_error_handling_fix (p content : string) :
  no_nl p = true ->
  contains p (error_handling_fix content) =
    contains p content
    || (contains "steps:" content && existsb (contains p) [continue_line]).
Proof.
  intros Hp. rewrite error_handling_fix_inserts, contains_inserted
    by (exact Hp || lines_of_literals).
  rewrite anchor_lines by reflexivity. reflexivity.
Qed.

Lemma contains_artifact_upload_fix (p content : string) :
  no_nl p = true ->
  contains p (artifact_upload_fix content) =
    contains p content
    || (contains "flutter build" content && existsb (contains p) upload_lines).
Proof.
  intros Hp. rewrite artifact_upload_fix_inserts, contains_inserted
    by (exact Hp || lines_of_literals).
  rewrite anchor_lines by reflexivity. reflexivity.
Qed.

Lemma contains_sdk_constraint_fix (p content : string) :
  no_nl p = true ->
  contains p (sdk_constraint_fix content) =
    contains p content
    || (contains "environment:" content && existsb (contains p) [sdk_line]).
Proof.
  intros Hp. rewrite sdk_constraint_fix_inserts, contains_inserted
    by (exact Hp || lines_of_literals).
  rewrite anchor_lines by reflexivity. reflexivity.
Qed.

Lemma contains_linting_fix (p content : string) :
  no_nl p = true ->
  contains p (linting_fix content) =
    contains p content
    || (contains "dev_dependencies:" content
        && existsb (contains p) ["  flutter_lints: ^3.0.1"]).
Proof.
  intros Hp. rewrite linting_fix_inserts, contains_inserted
    by (exact Hp || lines_of_literals).
  rewrite anchor_lines by reflexivity. reflexivity.
Qed.

Lemma contains_test_dependencies_fix (p content : string) :
  no_nl p = true ->
  contains p (test_dependencies_fix content) =
    contains p content
    || (contains "dev_dependencies:" content
        && existsb (contains p) ["  flutter_test:"; "  sdk: flutter"]).
Proof.
  intros Hp.
  rewrite test_dependencies_fix_inserts, contains_inserted
    by (exact Hp || lines_of_literals).
  rewrite anchor_lines by reflexivity. reflexivity.
Qed.

(** When each workflow rule is silent. *)
Lemma workflow_rule_silent (content : string) :
  (PipelineFacts.of_type "cache_missing" (workflow_issues content) = [] <->
   contains "cache:" content = true) /\
  (PipelineFacts.of_type "error_handling_missing" (workflow_issues content)
     = [] <->
   contains "continue-on-error:" content || contains "if: failure()" content
     = true) /\
  (PipelineFacts.of_type "artifact_upload_missing" (workflow_issues content)
     = [] <->
   contains "uses: actions/upload-artifact@v3" content = true).
Proof.
  unfold PipelineFacts.of_type, workflow_issues.
  destruct (contains "timeout-minutes:" content),
           (contains "cache:" content),
           (contains "continue-on-error:" content),
           (contains "if: failure()" content),
           (contains "uses: actions/upload-artifact@v3" content);
    simpl; repeat split; intros; (reflexivity || discriminate).
Qed.

(** X3: after [fix_cache_missing], [fix_error_handling_missing] and
    [fix_artifact_upload_missing] the analysis of the content written no
    longer reports the rule of the fix exactly when the content read
    already satisfied the rule or has a line for the fix to insert after
    ([uses: subosito/flutter-action@v2], [steps:], [flutter build]). *)
Theorem workflow_fix_resolves_iff_anchor (content : string) :
  (PipelineFacts.of_type "cache_missing"
     (workflow_issues (cache_fix content)) = [] <->
   contains "cache:" content = true \/
   contains "uses: subosito/flutter-action@v2" content = true) /\
  (PipelineFacts.of_type "error_handling_missing"
     (workflow_issues (error_handling_fix content)) = [] <->
   contains "continue-on-error:" content = true \/
   contains "if: failure()" content = true \/
   contains "steps:" content = true) /\
  (PipelineFacts.of_type "artifact_upload_missing"
     (workflow_issues (artifact_upload_fix content)) = [] <->
   contains "uses: actions/upload-artifact@v3" content = true \/
   contains "flutter build" content = true).
Proof.
  destruct (workflow_rule_silent (cache_fix content)) as (Hc & _).
  destruct (workflow_rule_silent (error_handling_fix content)) as (_ & He & _).
  destruct (workflow_rule_silent (artifact_upload_fix content)) as (_ & _ & Ha).
  rewrite Hc, He, Ha.
  rewrite contains_cache_fix, !contains_error_handling_fix,
    contains_artifact_upload_fix by reflexivity.
  simpl existsb.
  rewrite ?andb_true_r, ?andb_false_r, ?orb_false_r, !orb_true_iff.
  tauto.
Qed.

(** When the rules reading [pubspec.yaml] are silent. *)
Lemma pubspec_rule_silent (content : string) (p : Project) :
  (PipelineFacts.of_type "sdk_constraint_missing" (dependency_issues content p)
     = [] <-> contains "sdk:" content = true) /\
  (PipelineFacts.of_type "linting_missing" (build_issues content) = [] <->
   contains "flutter_lints:" content = true) /\
  (PipelineFacts.of_type "test_dependencies_missing" (build_issues content)
     = [] <-> contains "flutter_test:" content = true).
Proof.
  unfold PipelineFacts.of_type, dependency_issues, outdated_issues,
    build_issues.
  rewrite !List.filter_app.
  destruct (contains "sdk:" content), (contains "flutter_lints:" content),
           (contains "flutter_test:" content),
           (contains "build_runner:" content),
           (contains "json_serializable:" content);
    simpl; (split; [|split]);
    try (split; intros; (reflexivity || discriminate));
    destruct (flutter_pub_outdated p) as [rc out | e];
    try destruct (rc =? 0); try destruct (0 <? count_sub "outdated" out)%nat;
    simpl; split; intros; (reflexivity || discriminate).
Qed.

(** X4: after [fix_sdk_constraint_missing], [fix_linting_missing] and
    [fix_test_dependencies_missing] the analysis of the [pubspec.yaml]
    written no longer reports the rule of the fix exactly when the content
    read already satisfied the rule or has a line for the fix to insert
    after ([environment:], [dev_dependencies:]). *)
Theorem pubspec_fix_resolves_iff_anchor (content : string) (p : Project) :
  (PipelineFacts.of_type "sdk_constraint_missing"
     (dependency_issues (sdk_constraint_fix content) p) = [] <->
   contains "sdk:" content = true \/ contains "environment:" content = true) /\
  (PipelineFacts.of_type "linting_missing"
     (build_issues (linting_fix content)) = [] <->
   contains "flutter_lints:" content = true \/
   contains "dev_dependencies:" content = true) /\
  (PipelineFacts.of_type "test_dependencies_missing"
     (build_issues (test_dependencies_fix content)) = [] <->
   contains "flutter_test:" content = true \/
   contains "dev_dependencies:" content = true).
Proof.
  destruct (pubspec_rule_silent (sdk_constraint_fix content) p) as (Hs & _).
  destruct (pubspec_rule_silent (linting_fix content) p) as (_ & Hl & _).
  destruct (pubspec_rule_silent (test_dependencies_fix content) p)
    as (_ & _ & Ht).
  rewrite Hs, Hl, Ht.
  rewrite contains_sdk_constraint_fix, contains_linting_fix,
    contains_test_dependencies_fix by reflexivity.
  simpl existsb.
  rewrite ?andb_true_r, ?andb_false_r, ?orb_false_r, !orb_true_iff.
  tauto.
Qed.

Lemma rewrite_file_text (path content : string) (f : string -> string)
    (done failed : string) (a : Analyzer) :
  files (project a) !! path = Some (Text content) ->
  rewrite_file path (fun c => Ok (f c)) done failed a =
    (done, write_file path (f content) a).
Proof. intros H. unfold rewrite_file. rewrite H. reflexivity. Qed.

Lemma workflow_silent (content : string) :
  workflow_issues content = [] <->
  contains "timeout-minutes:" content = true /\
  contains "cache:" content = true /\
  contains "continue-on-error:" content || contains "if: failure()" content
    = true /\
  contains "uses: actions/upload-artifact@v3" content = true.
Proof.
  unfold workflow_issues.
  destruct (contains "timeout-minutes:" content),
           (contains "cache:" content),
           (contains "continue-on-error:" content),
           (contains "if: failure()" content),
           (contains "uses: actions/upload-artifact@v3" content);
    simpl; split; intros H; try reflexivity; try discriminate;
    try (repeat split; reflexivity);
    destruct H as (? & ? & ? & ?); discriminate.
Qed.

(** The content after the four workflow fixes, in the order of the report:
    timeout, cache, error handling, artifact upload. *)
Definition workflow_fixed (content : string) : string :=
  artifact_upload_fix (error_handling_fix (cache_fix (timeout_fix content))).

(** What the content holds after the four fixes. *)
Lemma contains_workflow_fixed (p content : string) :
  no_nl p = true ->
  contains p (workflow_fixed content) =
    contains p content
    || ((contains "jobs:" content || contains "steps:" content)
        && existsb (contains p) [timeout_line])
    || (contains "uses: subosito/flutter-action@v2" content
        && existsb (contains p) cache_lines)
    || (contains "steps:" content && existsb (contains p) [continue_line])
    || (contains "flutter build" content && existsb (contains p) upload_lines).
Proof.
  intros Hp. unfold workflow_fixed.
  rewrite contains_artifact_upload_fix by exact Hp.
  rewrite (contains_error_handling_fix p) by exact Hp.
  rewrite (contains_error_handling_fix "flutter build") by reflexivity.
  rewrite (contains_cache_fix p) by exact Hp.
  rewrite (contains_cache_fix "steps:") by reflexivity.
  rewrite (contains_cache_fix "flutter build") by reflexivity.
  rewrite (contains_timeout_fix p) by exact Hp.
  rewrite (contains_timeout_fix "steps:") by reflexivity.
  rewrite (contains_timeout_fix "flutter build") by reflexivity.
  rewrite (contains_timeout_fix "uses: subosito/flutter-action@v2")
    by reflexivity.
  simpl (existsb (contains "steps:") _).
  simpl (existsb (contains "flutter build") _).
  simpl (existsb (contains "uses: subosito/flutter-action@v2") _).
  rewrite ?andb_false_r, ?orb_false_r. reflexivity.
Qed.

Lemma workflow_fix_writes (cache handling upload : Issue) (a : Analyzer)
    (content : string) :
  i_file cache = None -> i_file handling = None -> i_file upload = None ->
  files (project a) !! default_workflow = Some (Text content) ->
  snd (fix_artifact_upload_missing upload
         (snd (fix_error_handling_missing handling
                 (snd (fix_cache_missing cache a))))) =
    write_file default_workflow
      (artifact_upload_fix (error_handling_fix (cache_fix content)))
      (write_file default_workflow (error_handling_fix (cache_fix content))
         (write_file default_workflow (cache_fix content) a)).
Proof.
  intros Hc Hh Hu Hfile.
  unfold fix_cache_missing, fix_error_handling_missing,
    fix_artifact_upload_missing.
  rewrite Hc, Hh, Hu. simpl default.
  rewrite (rewrite_file_text default_workflow content cache_fix _ _ a Hfile).
  simpl snd.
  rewrite (rewrite_file_text default_workflow (cache_fix content)
             error_handling_fix _ _ _
             (TimeoutFixFacts.write_file_read _ _ _)).
  simpl snd.
  rewrite (rewrite_file_text default_workflow
             (error_handling_fix (cache_fix content))
             artifact_upload_fix _ _ _
             (TimeoutFixFacts.write_file_read _ _ _)).
  reflexivity.
Qed.

(** X5: the four workflow fixes applied one after the other, in the order
    of the report, each to the file the one before wrote, leave a workflow
    on which the structure analysis reports nothing, provided the workflow
    read has a [steps:] line, a line with the Flutter action and a
    [flutter build] line. *)
Theorem workflow_fixes_compose (content : string) (a : Analyzer)
    (timeout cache handling upload : Issue) :
  files (project a) !! default_workflow = Some (Text content) ->
  i_file timeout = None -> i_file cache = None ->
  i_file handling = None -> i_file upload = None ->
  contains "steps:" content = true ->
  contains "uses: subosito/flutter-action@v2" content = true ->
  contains "flutter build" content = true ->
  let fixed :=
    snd (fix_artifact_upload_missing upload
           (snd (fix_error_handling_missing handling
                   (snd (fix_cache_missing cache
                           (snd (fix_timeout_missing timeout a))))))) in
  files (project fixed) !! default_workflow
    = Some (Text (workflow_fixed content)) /\
  workflow_issues (workflow_fixed content) = [].
Proof.
  intros Hfile Ht Hc Hh Hu Hsteps Haction Hbuild. cbn zeta. split.
  - rewrite (TimeoutFixFacts.fix_timeout_missing_writes timeout a content
               Ht Hfile).
    simpl snd.
    rewrite (workflow_fix_writes cache handling upload _ (timeout_fix content)
               Hc Hh Hu (TimeoutFixFacts.write_file_read _ _ _)).
    apply TimeoutFixFacts.write_file_read.
  - apply workflow_silent.
    rewrite !contains_workflow_fixed by reflexivity.
    rewrite Hsteps, Haction, Hbuild. simpl.
    rewrite ?orb_true_r. repeat split.
Qed.

(** The theorem at a workflow with steps, the Flutter action and a build. *)
Definition flutter_workflow : string :=
  "jobs:" +:+ NL +:+ "  build:" +:+ NL +:+ "    steps:" +:+ NL
  +:+ "    - uses: subosito/flutter-action@v2" +:+ NL
  +:+ "    - run: flutter build apk".

Lemma workflow_fixes_compose_witness :
  workflow_issues (workflow_fixed flutter_workflow) = [].
Proof.
  apply (workflow_fixes_compose flutter_workflow
           (TimeoutFixFacts.analyzer_of flutter_workflow)
           (TimeoutFixFacts.timeout_issue flutter_workflow)
           (TimeoutFixFacts.timeout_issue flutter_workflow)
           (TimeoutFixFacts.timeout_issue flutter_workflow)
           (TimeoutFixFacts.timeout_issue flutter_workflow));
    reflexivity.
Defined.

Lemma build_runner_raised (lines : list string) (e : string) :
  fold_left build_runner_step lines (Raise e) = Raise e.
Proof. induction lines as [|l ls IH]; [reflexivity | exact IH]. Qed.

(** The loop of the build_runner fix raises at the first
    [dev_dependencies:] line and otherwise copies the lines. *)
Lemma build_runner_scan (lines : list string) (st : Scan) :
  fold_left build_runner_step lines (Ok st) =
    if existsb (contains "dev_dependencies:") lines
    then Raise list_not_callable
    else Ok (mkScan (modified_lines st ++ lines) (in_section st)).
Proof.
  revert st. induction lines as [|l ls IH]; intros st.
  - simpl. rewrite app_nil_r. destruct st; reflexivity.
  - cbn [fold_left existsb]. unfold build_runner_step at 2.
    destruct (contains "dev_dependencies:" l).
    + apply build_runner_raised.
    + destruct (in_section st && negb (contains "build_runner:" l)
                && negb (contains "}" l));
        rewrite IH; simpl; rewrite <- app_assoc; reflexivity.
Qed.

Lemma build_runner_fix_result (content : string) :
  build_runner_fix content =
    if contains "dev_dependencies:" content then Raise list_not_callable
    else Ok content.
Proof.
  unfold build_runner_fix. rewrite build_runner_scan.
  rewrite anchor_lines by reflexivity.
  destruct (contains "dev_dependencies:" content); [reflexivity|].
  simpl. now rewrite join_split.
Qed.

Lemma write_file_same (path content : string) (a : Analyzer) :
  files (project a) !! path = Some (Text content) ->
  write_file path content a = a.
Proof.
  destruct a as [[fs td it ds o c d] issues fixes]. unfold write_file. simpl.
  intros H. now rewrite insert_id.
Qed.

(** X6: [fix_build_runner_missing] never adds anything.  Whatever the
    project, the object and its files are the same after the call; on a
    [pubspec.yaml] with a [dev_dependencies:] line the call returns the
    failure message of the [TypeError], on one without it reports success
    after writing the content back as it was.  The analysis of the build
    rules is therefore the same after the fix as before. *)
Theorem build_runner_fix_changes_nothing (issue : Issue) (a : Analyzer) :
  snd (fix_build_runner_missing issue a) = a /\
  (forall content,
     files (project a) !! "pubspec.yaml" = Some (Text content) ->
     fst (fix_build_runner_missing issue a) =
       if contains "dev_dependencies:" content
       then "Failed to add build_runner: 'list' object is not callable"
       else "Added build_runner to dev_dependencies") /\
  analyze_build_issues (snd (fix_build_runner_missing issue a))
    = analyze_build_issues a.
Proof.
  assert (Hsame : snd (fix_build_runner_missing issue a) = a).
  { unfold fix_build_runner_missing, rewrite_file.
    destruct (files (project a) !! "pubspec.yaml") as [[content|e]|] eqn:E;
      try reflexivity.
    rewrite build_runner_fix_result.
    destruct (contains "dev_dependencies:" content); [reflexivity|].
    simpl. now apply write_file_same. }
  split; [exact Hsame|]. split; [|now rewrite Hsame].
  intros content E. unfold fix_build_runner_missing, rewrite_file.
  rewrite E, build_runner_fix_result.
  destruct (contains "dev_dependencies:" content); reflexivity.
Qed.

Definition no_dependencies (line : string) : bool :=
  negb (contains "dependencies:" line).

Lemma image_caching_scan (lines : list string) (st : Scan) :
  Forall (fun l => no_dependencies l = true /\ no_nl l = true)
         (modified_lines st) ->
  Forall (fun l => no_nl l = true) lines ->
  Forall (fun l => no_dependencies l = true /\ no_nl l = true)
         (modified_lines (fold_left image_caching_step lines st)).
Proof.
  revert st. induction lines as [|l ls IH]; intros st Hst Hls; [exact Hst|].
  inversion Hls as [|? ? Hl Hls']; subst.
  cbn [fold_left]. apply IH; [|exact Hls'].
  unfold image_caching_step.
  destruct (contains "dependencies:" l) eqn:E; [exact Hst|].
  destruct (in_section st && negb (contains "cached_network_image:" l)
            && negb (contains "}" l)); simpl;
    apply Forall_app; (split; [exact Hst|]).
  - apply Forall_cons. split; [split; reflexivity | constructor].
  - apply Forall_cons. split; [|constructor].
    unfold no_dependencies. rewrite E. split; [reflexivity | exact Hl].
Qed.

(** Without a [dependencies:] line the flag is never set and every line is
    kept. *)
Lemma image_caching_idle (lines : list string) (st : Scan) :
  in_section st = false ->
  existsb (contains "dependencies:") lines = false ->
  modified_lines (fold_left image_caching_step lines st) =
    modified_lines st ++ lines.
Proof.
  revert st. induction lines as [|l ls IH]; intros st Hst Hno.
  - simpl. now rewrite app_nil_r.
  - simpl in Hno. apply orb_false_iff in Hno as [Hl Hno].
    cbn [fold_left]. unfold image_caching_step at 2. rewrite Hl, Hst. simpl.
    rewrite IH by (simpl; first [reflexivity | assumption]). simpl.
    now rewrite <- app_assoc.
Qed.

(** X7: the content [fix_image_caching_missing] writes never holds
    [dependencies:]: every line with it, the header of the dependencies and
    of the dev_dependencies section included, is dropped.  A content
    without such a line is written back unchanged. *)
Theorem image_caching_fix_drops_dependencies (content : string) :
  contains "dependencies:" (image_caching_fix content) = false /\
  (contains "dependencies:" content = false ->
   image_caching_fix content = content).
Proof.
  split.
  - unfold image_caching_fix.
    pose proof (image_caching_scan (split_nl content) (mkScan [] false)
                  (List.Forall_nil _) (split_nl_lines content)) as H.
    set (ls := modified_lines _) in *.
    rewrite contains_joined; [| right; discriminate | reflexivity |].
    + apply not_true_is_false. intros Hex.
      apply existsb_exists in Hex. destruct Hex as (l & Hin & Hl).
      rewrite Forall_forall in H. apply list_elem_of_In in Hin.
      destruct (H l Hin) as [Hno _]. unfold no_dependencies in Hno.
      rewrite Hl in Hno. discriminate.
    + eapply Forall_impl; [exact H|]. intros l [_ Hl]. exact Hl.
  - intros Hno. unfold image_caching_fix.
    rewrite image_caching_idle; [apply join_split | reflexivity |].
    now rewrite anchor_lines.
Qed.

(** The theorem at a [pubspec.yaml] without dependencies. *)
Lemma image_caching_fix_drops_dependencies_witness :
  image_caching_fix "name: isuite" = "name: isuite".
Proof.
  apply (image_caching_fix_drops_dependencies "name: isuite"). reflexivity.
Defined.

End FixFacts.

(** ** The report of ci_cd_analyzer.py *)

Module ReportFacts.
Import PyStr CICD CICDFixes.

Lemma issues_lines_complete (issues : list Issue) (i : nat) :
  Forall (fun issue => i_severity issue <> None) issues ->
  exists ls, issues_lines i issues = Ok ls /\
             length ls = (4 * length issues)%nat.
Proof.
  revert i. induction issues as [|issue issues IH]; intros i Hall.
  - exists []. split; reflexivity.
  - inversion Hall as [|? ? Hs Hrest]; subst.
    destruct (IH (S i) Hrest) as (ls & Hls & Hlen).
    cbn [issues_lines]. unfold issue_lines.
    destruct (i_severity issue) as [severity|]; [|congruence].
    rewrite Hls. eexists. split; [reflexivity|].
    rewrite length_app, Hlen. simpl. lia.
Qed.

Lemma issues_lines_key_error (issues : list Issue) (i : nat) :
  Exists (fun issue => i_severity issue = None) issues ->
  issues_lines i issues = Raise "'severity'".
Proof.
  revert i. induction issues as [|issue issues IH]; intros i Hex.
  - inversion Hex.
  - cbn [issues_lines]. unfold issue_lines.
    destruct (i_severity issue) as [severity|] eqn:E; [|reflexivity].
    inversion Hex as [? ? Hnone | ? ? Hrest]; subst; [congruence|].
    now rewrite (IH (S i) Hrest).
Qed.

Lemma fixes_lines_length (fixes : list string) (i : nat) :
  length (fixes_lines i fixes) = (2 * length fixes)%nat.
Proof.
  revert i. induction fixes as [|f fixes IH]; intros i; [reflexivity|].
  simpl. rewrite IH. lia.
Qed.

(** The number of lines of a report with [n] issues and [m] fixes. *)
Definition report_length (n m : nat) : nat :=
  8 + (match n with O => 0 | _ => 1 + 4 * n end)
    + (match m with O => 0 | _ => 1 + 2 * m end).

(** X8: [generate_report] returns the report text when every issue has a
    severity: 8 lines of head and summary, then a heading and 4 lines for
    each issue if there are issues, then a heading and 2 lines for each fix
    if there are fixes.  It raises [KeyError] for the key [severity] as
    soon as one issue has no severity, which is the case of every
    [heavy_dependency] issue of the performance rule. *)
Theorem generate_report_needs_severities
    (now project_path : string) (a : Analyzer) :
  (Forall (fun issue => i_severity issue <> None) (report_issues a) ->
   exists ls,
     report_lines now project_path a = Ok ls /\
     generate_report now project_path a = Ok (join_nl ls) /\
     length ls = report_length (length (report_issues a))
                               (length (report_fixes_applied a))) /\
  (Exists (fun issue => i_severity issue = None) (report_issues a) ->
   generate_report now project_path a = Raise "'severity'") /\
  (forall package,
     In (heavy_issue package) (report_issues a) ->
     generate_report now project_path a = Raise "'severity'").
Proof.
  assert (Hraise :
    Exists (fun issue => i_severity issue = None) (report_issues a) ->
    generate_report now project_path a = Raise "'severity'").
  { intros Hex. unfold generate_report, report_lines.
    rewrite (issues_lines_key_error _ 1 Hex).
    destruct (report_issues a); [inversion Hex | reflexivity]. }
  split; [|split; [exact Hraise|]].
  - intros Hall. unfold generate_report, report_lines, report_length.
    destruct (issues_lines_complete _ 1 Hall) as (ls & Hls & Hlen).
    rewrite Hls.
    destruct (report_issues a) as [|issue issues] eqn:Ei.
    + eexists. split; [reflexivity|]. split; [reflexivity|].
      destruct (report_fixes_applied a) as [|f fs]; [reflexivity|].
      cbn [length app]. rewrite fixes_lines_length. cbn [length]. lia.
    + eexists. split; [reflexivity|]. split; [reflexivity|].
      cbn [app]. cbn [length]. rewrite length_app, Hlen.
      destruct (report_fixes_applied a) as [|f fs];
        cbn [length]; rewrite ?fixes_lines_length; cbn [length]; lia.
  - intros package Hin. apply Hraise. apply Exists_exists.
    exists (heavy_issue package). split; [|reflexivity].
    now apply list_elem_of_In.
Qed.

Definition camera_project : Project :=
  mkProject
    (<["pubspec.yaml" := Text "dependencies:  camera: ^0.10.0"]>
       {[ default_workflow := Text TimeoutFixFacts.ci_workflow ]})
    None false [] (Failed PipelineFacts.no_flutter)
    (Failed PipelineFacts.no_flutter) (Failed PipelineFacts.no_flutter).

(** The theorem at an empty report and at a report with the heavy
    dependency [camera]. *)
Lemma generate_report_needs_severities_witness :
  (exists ls, report_lines "2024-01-01T00:00:00" "."
                (mkAnalyzer camera_project [] []) = Ok ls /\
              length ls = 8%nat) /\
  generate_report "2024-01-01T00:00:00" "."
    (mkAnalyzer camera_project [heavy_issue "camera"] [])
  = Raise "'severity'".
Proof.
  destruct (generate_report_needs_severities "2024-01-01T00:00:00" "."
              (mkAnalyzer camera_project [] [])) as (Hok & _).
  destruct (generate_report_needs_severities "2024-01-01T00:00:00" "."
              (mkAnalyzer camera_project [heavy_issue "camera"] []))
    as (_ & _ & Hheavy).
  split.
  - destruct (Hok (List.Forall_nil _)) as (ls & Hls & _ & Hlen).
    exists ls. split; [exact Hls | exact Hlen].
  - apply (Hheavy "camera"). left. reflexivity.
Defined.

(** X9: the report of the analyzer is never reset.  A second analysis of
    the same project appends its issues to those of the first: the report
    then holds every issue twice. *)
Theorem second_analysis_accumulates
    (workflow_file workflow pubspec : string) (a : Analyzer) :
  files (project a) !! workflow_file = Some (Text workflow) ->
  files (project a) !! "pubspec.yaml" = Some (Text pubspec) ->
  let issues := PipelineFacts.all_issues workflow pubspec (project a) in
  exists a1 a2,
    analyze_ci_cd_failure workflow_file a =
      Ok (Report (report_issues a ++ issues) (report_fixes_applied a), a1) /\
    analyze_ci_cd_failure workflow_file a1 =
      Ok (Report (report_issues a ++ issues ++ issues)
                 (report_fixes_applied a), a2).
Proof.
  intros Hw Hp. cbn zeta.
  eexists _, _. split.
  - now apply PipelineFacts.analyze_readable.
  - rewrite (PipelineFacts.analyze_readable workflow_file workflow pubspec
               (PipelineFacts.extended _ a) Hw Hp).
    simpl. rewrite <- app_assoc. reflexivity.
Qed.

(** The theorem at the project without Flutter. *)
Lemma second_analysis_accumulates_witness :
  let a := mkAnalyzer PipelineFacts.project_without_flutter [] [] in
  let issues :=
    PipelineFacts.all_issues TimeoutFixFacts.ci_workflow
      PipelineFacts.sample_pubspec PipelineFacts.project_without_flutter in
  exists a1 a2,
    analyze_ci_cd_failure default_workflow a = Ok (Report issues [], a1) /\
    analyze_ci_cd_failure default_workflow a1
      = Ok (Report (issues ++ issues) [], a2).
Proof.
  exact (second_analysis_accumulates default_workflow
           TimeoutFixFacts.ci_workflow PipelineFacts.sample_pubspec
           (mkAnalyzer PipelineFacts.project_without_flutter [] [])
           eq_refl eq_refl).
Defined.

End ReportFacts.

(** ** Platform statistics, clearing and error analysis of
       master_gui_app.py *)

Module MasterGuiMoreFacts.
Import PyStr MasterGui MasterGuiMore.

(** The number of builds of a platform in a history, and of the succeeded
    ones among them. *)
Definition builds_of (p : string) (h : list BuildRecord) : Z :=
  Z.of_nat (length (filter (fun b => platform b = p) h)).

Definition successes_of (p : string) (h : list BuildRecord) : Z :=
  Z.of_nat (length (filter (fun b => platform b = p /\ success b = true) h)).

Definition stats_of (h : list BuildRecord) : gmap string PlatformStat :=
  fold_left platform_step h ∅.

Lemma builds_of_snoc (p : string) (h : list BuildRecord) (b : BuildRecord) :
  builds_of p (h ++ [b]) =
    if decide (platform b = p) then builds_of p h + 1 else builds_of p h.
Proof.
  unfold builds_of. rewrite filter_app, length_app.
  destruct (decide (platform b = p)) as [E|E].
  - rewrite filter_cons_True by exact E. simpl. lia.
  - rewrite filter_cons_False by exact E. simpl. lia.
Qed.

Lemma successes_of_snoc (p : string) (h : list BuildRecord) (b : BuildRecord) :
  successes_of p (h ++ [b]) =
    if decide (platform b = p)
    then (if success b then successes_of p h + 1 else successes_of p h)
    else successes_of p h.
Proof.
  unfold successes_of. rewrite filter_app, length_app.
  destruct (decide (platform b = p)) as [E|E].
  - destruct (success b) eqn:Hs.
    + rewrite filter_cons_True by (split; assumption). simpl. lia.
    + rewrite filter_cons_False by (intros [_ H]; congruence). simpl. lia.
  - rewrite filter_cons_False by (intros [H _]; contradiction).
    destruct (success b); simpl; lia.
Qed.

Lemma successes_le_builds (p : string) (h : list BuildRecord) :
  0 <= successes_of p h <= builds_of p h.
Proof.
  induction h as [|b h IH] using rev_ind.
  - unfold successes_of, builds_of. simpl. lia.
  - rewrite successes_of_snoc, builds_of_snoc.
    destruct (decide (platform b = p)), (success b); lia.
Qed.

(** The dictionary after the loop: a platform has an entry when it has a
    build, and the entry holds its two counts. *)
Lemma stats_of_lookup (h : list BuildRecord) (p : string) :
  stats_of h !! p =
    if decide (builds_of p h = 0) then None
    else Some (mkPlatformStat (builds_of p h) (successes_of p h)).
Proof.
  unfold stats_of. induction h as [|b h IH] using rev_ind.
  - reflexivity.
  - rewrite fold_left_app. cbn [fold_left]. unfold platform_step at 1.
    rewrite builds_of_snoc, successes_of_snoc.
    pose proof (successes_le_builds p h) as Hle.
    destruct (decide (platform b = p)) as [E|E].
    + subst p. rewrite lookup_insert_eq, IH.
      destruct (decide (builds_of (platform b) h = 0)) as [Z0|Z0].
      * assert (successes_of (platform b) h = 0) as Hs by lia.
        rewrite Z0, Hs. simpl.
        destruct (decide (0 + 1 = 0)); [lia|]. reflexivity.
      * simpl.
        destruct (decide (builds_of (platform b) h + 1 = 0)); [lia|].
        reflexivity.
    + rewrite lookup_insert_ne by exact E. exact IH.
Qed.

Lemma builds_of_zero (p : string) (h : list BuildRecord) :
  builds_of p h = 0 <-> Forall (fun b => platform b <> p) h.
Proof.
  unfold builds_of. induction h as [|b h IH].
  - split; [constructor | reflexivity].
  - destruct (decide (platform b = p)) as [E|E].
    + rewrite filter_cons_True by exact E. simpl. split; [lia|].
      intros H. inversion H; subst. contradiction.
    + rewrite filter_cons_False by exact E. rewrite IH. split.
      * intros H. constructor; assumption.
      * intros H. now inversion H.
Qed.

(** X10: [_get_platform_stats] has an entry for a platform exactly when the
    history holds a build of it; the entry's total is the number of builds
    of the platform and its successful count the number of succeeded ones,
    so that [0 <= successful <= total] and [total >= 1]. *)
Theorem platform_stats_count_the_builds (a : App) (p : string) :
  (_get_platform_stats a !! p = None <->
   Forall (fun b => platform b <> p) (build_history a)) /\
  (forall st, _get_platform_stats a !! p = Some st ->
     ps_total st = builds_of p (build_history a) /\
     ps_successful st = successes_of p (build_history a) /\
     0 <= ps_successful st <= ps_total st /\ 1 <= ps_total st).
Proof.
  unfold _get_platform_stats.
  pose proof (stats_of_lookup (build_history a) p) as H.
  unfold stats_of in H. rewrite H.
  pose proof (successes_le_builds p (build_history a)) as Hle.
  pose proof (builds_of_zero p (build_history a)) as Hzero.
  destruct (decide (builds_of p (build_history a) = 0)) as [Z0|Z0]; split.
  - split; [intros _; now apply Hzero | reflexivity].
  - intros st [=].
  - split; [discriminate|]. intros Hall. apply Hzero in Hall. contradiction.
  - intros st [= <-]. simpl. repeat split; lia.
Qed.

(** X11: clearing the history, when confirmed, leaves an empty history and
    zeroed statistics which agree again with each other, whatever the state
    before; results recorded afterwards are counted from zero.  On a
    writable disk the file is emptied too: it holds an empty history and
    the zeroed statistics.  A declined dialog changes nothing. *)
Theorem clear_resets_history_and_statistics
    (a : App) (ts : list Attempt) :
  build_history (_clear_build_history true a) = [] /\
  build_stats (_clear_build_history true a) = zero_stats /\
  metrics (record_all ts (_clear_build_history true a)) =
    fold_metrics (map record_of ts) /\
  (writable (disk a) = true ->
   history_file (disk (_clear_build_history true a))
     = Some (mkSavedData (Some []) (Some zero_stats))) /\
  _clear_build_history false a = a.
Proof.
  unfold _clear_build_history.
  destruct (MasterGuiFacts.save_keeps_memory (mkApp [] zero_stats (disk a)))
    as [Hh Hs].
  simpl in Hh, Hs.
  split; [exact Hh|]. split; [exact Hs|]. split; [|split; [|reflexivity]].
  - assert (Hc : MasterGuiFacts.consistent
                   (save_build_history (mkApp [] zero_stats (disk a)))).
    { unfold MasterGuiFacts.consistent, metrics. rewrite Hh, Hs. reflexivity. }
    pose proof (MasterGuiFacts.record_all_consistent ts _ Hc) as H.
    unfold MasterGuiFacts.consistent in H. rewrite H.
    rewrite MasterGuiFacts.record_all_history, Hh. reflexivity.
  - intros Hw. unfold save_build_history. simpl. rewrite Hw. reflexivity.
Qed.

(** The theorem on a writable disk holding one build. *)
Lemma clear_resets_history_and_statistics_witness :
  history_file
    (disk (_clear_build_history true
             (record_all [MasterGuiFacts.sample_attempt]
                (mkApp [] zero_stats MasterGuiFacts.fresh_disk))))
  = Some (mkSavedData (Some []) (Some zero_stats)).
Proof.
  destruct (clear_resets_history_and_statistics
              (record_all [MasterGuiFacts.sample_attempt]
                          (mkApp [] zero_stats MasterGuiFacts.fresh_disk)) [])
    as (_ & _ & _ & Hfile & _).
  apply Hfile. reflexivity.
Defined.

(** X12: after every recorded build on a writable disk the history file
    holds at most 100 entries, and they are the most recent ones in their
    order: the history in memory is some older entries followed by the
    saved ones, and no entry is older when it has at most 100. *)
Theorem saved_history_is_the_recent_hundred (t : Attempt) (a : App) :
  writable (disk a) = true ->
  exists saved older,
    history_file (disk (record_build_attempt t a)) =
      Some (mkSavedData (Some saved)
                        (Some (build_stats (record_build_attempt t a)))) /\
    build_history (record_build_attempt t a) = older ++ saved /\
    (length saved <= 100)%nat /\
    length saved = Nat.min (length (build_history a) + 1) 100.
Proof.
  intros Hw.
  exists (last100 (build_history (record_build_attempt t a))),
         (take (length (build_history (record_build_attempt t a)) - 100)
               (build_history (record_build_attempt t a))).
  split; [now apply MasterGuiFacts.record_disk|].
  split; [unfold last100; now rewrite take_drop|].
  rewrite MasterGuiFacts.last100_length, MasterGuiFacts.record_history,
    length_app.
  simpl. split; lia.
Qed.

(** The theorem at the first build on a fresh disk. *)
Lemma saved_history_is_the_recent_hundred_witness :
  exists saved older,
    history_file (disk (record_build_attempt MasterGuiFacts.sample_attempt
                          (mkApp [] zero_stats MasterGuiFacts.fresh_disk))) =
      Some (mkSavedData (Some saved)
              (Some (build_stats
                       (record_build_attempt MasterGuiFacts.sample_attempt
                          (mkApp [] zero_stats MasterGuiFacts.fresh_disk))))) /\
    build_history (record_build_attempt MasterGuiFacts.sample_attempt
                     (mkApp [] zero_stats MasterGuiFacts.fresh_disk))
      = older ++ saved /\
    (length saved <= 100)%nat /\
    length saved = Nat.min (length (@nil BuildRecord) + 1) 100.
Proof.
  exact (saved_history_is_the_recent_hundred MasterGuiFacts.sample_attempt
           (mkApp [] zero_stats MasterGuiFacts.fresh_disk) eq_refl).
Defined.



Ltac by_suggestions :=
  repeat match goal with
         | |- context [if ?b then _ else _] => destruct b
         end;
  simpl; try reflexivity; try lia.

Lemma generic_suggestions_length (error_lower : string) :
  (length (generic_suggestions error_lower) <= 3)%nat.
Proof. unfold generic_suggestions. by_suggestions. Qed.

(** X14: [analyze_build_error] gives at most six suggestions, none at all
    for an empty standard error, and for a command that does not name
    [flutter] only those of the three generic checks. *)
Theorem build_error_suggestions_are_bounded (command stderr : string) :
  (length (analyze_build_error command stderr) <= 6)%nat /\
  analyze_build_error command "" = [] /\
  (contains "flutter" (lower command) = false ->
   analyze_build_error command stderr = generic_suggestions (lower stderr) /\
   (length (analyze_build_error command stderr) <= 3)%nat).
Proof.
  split; [|split].
  - unfold analyze_build_error. cbn zeta. rewrite length_app.
    pose proof (generic_suggestions_length (lower stderr)) as Hg.
    assert (Hp : (length
      (if contains "flutter" (lower command)
       then if contains "windows" (lower command)
            then windows_suggestions (lower stderr)
            else if contains "android" (lower command)
                 then android_suggestions (lower stderr)
                 else if contains "ios" (lower command)
                      then ios_suggestions (lower stderr)
                      else if contains "web" (lower command)
                           then web_suggestions (lower stderr) else []
       else []) <= 3)%nat).
    { unfold windows_suggestions, android_suggestions, ios_suggestions,
        web_suggestions.
      by_suggestions. }
    lia.
  - unfold analyze_build_error. cbn zeta.
    change (lower "") with "".
    destruct (contains "flutter" (lower command)),
             (contains "windows" (lower command)),
             (contains "android" (lower command)),
             (contains "ios" (lower command)),
             (contains "web" (lower command)); reflexivity.
  - intros Hno. unfold analyze_build_error. cbn zeta. rewrite Hno.
    split; [reflexivity | apply generic_suggestions_length].
Qed.

End MasterGuiMoreFacts.

(** ** Error analysis and suggestions of isuite_master_app.py *)

Module IsuiteMasterMoreFacts.
Import PyStr IsuiteMaster IsuiteMasterMore.

(** The list of the analysis that belongs to an error type. *)
Definition category (error_type : string) (an : Analysis) : list string :=
  if String.eqb error_type "compilation_error" then compilation_errors an
  else if String.eqb error_type "dependency_error" then dependency_errors an
  else if String.eqb error_type "permission_error" then permission_errors an
  else if String.eqb error_type "flutter_error" then flutter_errors an
  else if String.eqb error_type "import_error" then import_errors an
  else [].

Definition error_types : list string := map fst error_patterns.

(** The entries one line adds to the list of a type: the stripped line,
    once for each pattern of the type it holds. *)
Definition hits (patterns : list string) (line : string) : list string :=
  map (fun _ => strip line) (List.filter (fun p => contains p line) patterns).

(** The entries of a type for a whole output. *)
Definition listed (patterns : list string) (output : string) : list string :=
  flat_map (hits patterns) (split_nl output).

Ltac five_types H :=
  unfold error_types in H; simpl in H;
  destruct H as [<- | [<- | [<- | [<- | [<- | []]]]]].

Lemma record_error_category (t t' x : string) (an : Analysis) :
  In t error_types -> In t' error_types ->
  category t' (record_error t x an) =
    category t' an ++ (if String.eqb t t' then [x] else []).
Proof.
  intros Ht Ht'. five_types Ht; five_types Ht';
    unfold category, record_error; simpl; rewrite ?app_nil_r; reflexivity.
Qed.

Lemma record_error_other (t x : string) (an : Analysis) :
  other_errors (record_error t x an) = other_errors an.
Proof.
  unfold record_error.
  repeat match goal with
         | |- context [if ?b then _ else _] => destruct b
         end; reflexivity.
Qed.

Lemma scan_patterns_category (line t t' : string) (patterns : list string)
    (an : Analysis) :
  In t error_types -> In t' error_types ->
  category t' (scan_patterns line t patterns an) =
    category t' an ++ (if String.eqb t t' then hits patterns line else []).
Proof.
  intros Ht Ht'. unfold scan_patterns, hits.
  revert an. induction patterns as [|p ps IH]; intros an.
  - simpl. destruct (String.eqb t t'); now rewrite app_nil_r.
  - cbn [fold_left List.filter]. rewrite IH.
    destruct (contains p line); [|reflexivity].
    rewrite record_error_category by assumption.
    destruct (String.eqb t t'); simpl; rewrite <- ?app_assoc; reflexivity.
Qed.

Lemma scan_patterns_other (line t : string) (patterns : list string)
    (an : Analysis) :
  other_errors (scan_patterns line t patterns an) = other_errors an.
Proof.
  unfold scan_patterns. revert an.
  induction patterns as [|p ps IH]; intros an; [reflexivity|].
  cbn [fold_left]. rewrite IH.
  destruct (contains p line); [apply record_error_other | reflexivity].
Qed.

Lemma scan_line_category (line t : string) (patterns : list string)
    (an : Analysis) :
  In (t, patterns) error_patterns ->
  category t (scan_line an line) = category t an ++ hits patterns line.
Proof.
  intros Hin. unfold scan_line, error_patterns in *.
  cbn [fold_left fst snd].
  assert (Hall : forall x, In x ["compilation_error"; "dependency_error";
                                 "permission_error"; "flutter_error";
                                 "import_error"] -> In x error_types)
    by (intros x Hx; exact Hx).
  simpl in Hin.
  destruct Hin as [[= <- <-] | [[= <- <-] | [[= <- <-] | [[= <- <-]
                  | [[= <- <-] | []]]]]];
    rewrite !scan_patterns_category by (apply Hall; simpl; tauto);
    simpl String.eqb; cbv iota; rewrite ?app_nil_r; reflexivity.
Qed.

Lemma scan_line_other (line : string) (an : Analysis) :
  other_errors (scan_line an line) = other_errors an.
Proof.
  unfold scan_line, error_patterns. cbn [fold_left fst snd].
  now rewrite !scan_patterns_other.
Qed.

Lemma first_loop_category (lines : list string) (t : string)
    (patterns : list string) (an : Analysis) :
  In (t, patterns) error_patterns ->
  category t (fold_left scan_line lines an) =
    category t an ++ flat_map (hits patterns) lines.
Proof.
  intros Hin. revert an. induction lines as [|l ls IH]; intros an.
  - simpl. now rewrite app_nil_r.
  - cbn [fold_left flat_map]. rewrite IH, (scan_line_category _ _ _ _ Hin).
    now rewrite app_assoc.
Qed.

Lemma first_loop_other (lines : list string) (an : Analysis) :
  other_errors (fold_left scan_line lines an) = other_errors an.
Proof.
  revert an. induction lines as [|l ls IH]; intros an; [reflexivity|].
  cbn [fold_left]. now rewrite IH, scan_line_other.
Qed.

(** The second loop leaves the five lists of the types as they are. *)
Lemma other_step_keeps (an : Analysis) (line : string) :
  take 5 (values (other_step an line)) = take 5 (values an).
Proof.
  unfold other_step.
  destruct (contains_any _ (lower line)); [|reflexivity].
  destruct (negb (is_listed (strip line) an)); reflexivity.
Qed.

Lemma second_loop_keeps (lines : list string) (an : Analysis) :
  take 5 (values (fold_left other_step lines an)) = take 5 (values an).
Proof.
  revert an. induction lines as [|l ls IH]; intros an; [reflexivity|].
  cbn [fold_left]. now rewrite IH, other_step_keeps.
Qed.

Lemma category_of_values (t : string) (an an' : Analysis) :
  take 5 (values an) = take 5 (values an') -> category t an = category t an'.
Proof.
  unfold values, category. simpl. intros [= -> -> -> -> ->]. reflexivity.
Qed.

(** X15: the five lists [analyze_errors] fills by type hold, for each line
    of the output in order, the stripped line once for every pattern of the
    type that occurs in the line (so a line holding two patterns of a type
    is listed twice), and nothing else. *)
Theorem analyze_errors_lists_pattern_hits (output : string) :
  compilation_errors (analyze_errors output)
    = listed ["error:"; "Error:"; "ERROR:"] output /\
  dependency_errors (analyze_errors output)
    = listed ["failed:"; "Failed:"; "FAILED:"] output /\
  permission_errors (analyze_errors output)
    = listed ["permission denied"; "Permission denied"; "access denied"]
             output /\
  flutter_errors (analyze_errors output)
    = listed ["FlutterError"; "flutter:"] output /\
  import_errors (analyze_errors output)
    = listed ["import error"; "ImportError"] output.
Proof.
  unfold analyze_errors, listed. cbn zeta.
  pose proof (second_loop_keeps (split_nl output)
                (fold_left scan_line (split_nl output) no_errors)) as Hkeep.
  pose proof (fun t => category_of_values t _ _ Hkeep) as Hcat.
  pose proof (fun t ps H =>
                first_loop_category (split_nl output) t ps no_errors H) as H1.
  assert (Hc : In ("compilation_error", ["error:"; "Error:"; "ERROR:"])
                  error_patterns) by (simpl; tauto).
  assert (Hd : In ("dependency_error", ["failed:"; "Failed:"; "FAILED:"])
                  error_patterns) by (simpl; tauto).
  assert (Hp : In ("permission_error",
                   ["permission denied"; "Permission denied"; "access denied"])
                  error_patterns) by (simpl; tauto).
  assert (Hf : In ("flutter_error", ["FlutterError"; "flutter:"])
                  error_patterns) by (simpl; tauto).
  assert (Hi : In ("import_error", ["import error"; "ImportError"])
                  error_patterns) by (simpl; tauto).
  split; [exact (eq_trans (Hcat "compilation_error") (H1 _ _ Hc))|].
  split; [exact (eq_trans (Hcat "dependency_error") (H1 _ _ Hd))|].
  split; [exact (eq_trans (Hcat "permission_error") (H1 _ _ Hp))|].
  split; [exact (eq_trans (Hcat "flutter_error") (H1 _ _ Hf))|].
  exact (eq_trans (Hcat "import_error") (H1 _ _ Hi)).
Qed.

Definition error_words : list string := ["error"; "failed"; "exception"].

Lemma is_listed_false (x : string) (an : Analysis) (l : list string) :
  is_listed x an = false -> In l (values an) -> ~ In x l.
Proof.
  unfold is_listed. intros H Hl Hx.
  assert (Hex : existsb (fun errors => match errors with
                                       | [] => false
                                       | _ => existsb (String.eqb x) errors
                                       end) (values an) = true).
  { apply existsb_exists. exists l. split; [exact Hl|].
    destruct l as [|y l]; [destruct Hx|].
    apply existsb_exists. exists x. split; [exact Hx | apply String.eqb_refl]. }
  congruence.
Qed.

(** What the second loop keeps true of [other_errors]: no entry twice, no
    entry that one of the five lists holds, every entry a stripped line with
    an error word. *)
Definition others_sound (lines : list string) (an : Analysis) : Prop :=
  NoDup (other_errors an) /\
  Forall (fun x =>
            (forall l, In l (take 5 (values an)) -> ~ In x l) /\
            exists line, In line lines /\ x = strip line /\
                         contains_any error_words (lower line) = true)
         (other_errors an).

Lemma other_step_sound (lines : list string) (an : Analysis) (line : string) :
  In line lines -> others_sound lines an ->
  others_sound lines (other_step an line).
Proof.
  intros Hin [Hnd Hall]. unfold others_sound.
  rewrite other_step_keeps. unfold other_step.
  destruct (contains_any ["error"; "failed"; "exception"] (lower line)) eqn:Hw;
    [|split; assumption].
  destruct (is_listed (strip line) an) eqn:Hl; simpl; [split; assumption|].
  split.
  - apply NoDup_app. split; [exact Hnd|]. split; [|apply NoDup_singleton].
    intros x Hx Hx'. apply list_elem_of_In in Hx.
    apply list_elem_of_In in Hx'. destruct Hx' as [<- | []].
    apply (is_listed_false _ _ (other_errors an) Hl); [|exact Hx].
    unfold values. simpl. tauto.
  - apply Forall_app. split; [exact Hall|].
    apply Forall_cons. split; [|constructor]. split.
    + intros l Hl5. apply (is_listed_false _ _ l Hl).
      unfold values in *. simpl in *. tauto.
    + exists line. repeat split; assumption.
Qed.

Lemma second_loop_sound (lines rest : list string) (an : Analysis) :
  (forall line, In line rest -> In line lines) ->
  others_sound lines an ->
  others_sound lines (fold_left other_step rest an).
Proof.
  revert an. induction rest as [|l ls IH]; intros an Hsub Han; [exact Han|].
  cbn [fold_left]. apply IH.
  - intros line Hl. apply Hsub. now right.
  - apply other_step_sound; [apply Hsub; now left | exact Han].
Qed.

(** X16: the list [other_errors] of [analyze_errors] holds no entry twice
    and no entry that one of the five lists by type holds; each entry is a
    stripped line of the output holding one of the words [error], [failed],
    [exception] in any case. *)
Theorem other_errors_are_new_and_distinct (output : string) :
  let an := analyze_errors output in
  NoDup (other_errors an) /\
  (forall x, In x (other_errors an) ->
     ~ In x (compilation_errors an) /\ ~ In x (dependency_errors an) /\
     ~ In x (permission_errors an) /\ ~ In x (flutter_errors an) /\
     ~ In x (import_errors an) /\
     exists line, In line (split_nl output) /\ x = strip line /\
                  contains_any error_words (lower line) = true).
Proof.
  cbn zeta. unfold analyze_errors. cbn zeta.
  assert (H0 : others_sound (split_nl output)
                 (fold_left scan_line (split_nl output) no_errors)).
  { unfold others_sound. rewrite first_loop_other. simpl.
    split; constructor. }
  pose proof (second_loop_sound (split_nl output) (split_nl output) _
                (fun _ H => H) H0) as [Hnd Hall].
  split; [exact Hnd|].
  intros x Hx. rewrite Forall_forall in Hall.
  apply list_elem_of_In in Hx. destruct (Hall x Hx) as [Hnew Hline].
  unfold values in Hnew. simpl in Hnew.
  repeat split; try (apply Hnew; tauto). exact Hline.
Qed.

Definition slow_builds : string :=
  "Build times are slow. Consider enabling build cache and using --no-sound-null-safety".

Lemma last10_short (h : list HistoryEntry) :
  (length h <= 10)%nat -> last10 h = h.
Proof.
  intros H. unfold last10.
  replace (length h - 10)%nat with 0%nat by lia. reflexivity.
Qed.

Lemma last10_length (h : list HistoryEntry) :
  length (last10 h) = Nat.min (length h) 10.
Proof. unfold last10. rewrite length_drop. lia. Qed.

Lemma last10_app (older recent : list HistoryEntry) :
  length recent = 10%nat -> last10 (older ++ recent) = recent.
Proof.
  intros H. unfold last10. rewrite length_app, H.
  replace (length older + 10 - 10)%nat with (length older) by lia.
  now rewrite drop_app_length.
Qed.

(** X17: [analyze_build_history] answers an empty history with the single
    message that there is none, and otherwise reads the last ten builds
    only: older builds before ten recent ones change nothing.  It gives at
    most three suggestions and never the one about slow builds, the average
    build time being the constant 180. *)
Theorem suggestions_read_the_last_ten_builds
    (h older recent : list HistoryEntry) :
  analyze_build_history [] =
    ["No build history available. Run some builds first."] /\
  (length recent = 10%nat ->
   analyze_build_history (older ++ recent) = analyze_build_history recent) /\
  (length (analyze_build_history h) <= 3)%nat /\
  ~ In slow_builds (analyze_build_history h).
Proof.
  split; [reflexivity|]. split; [|split].
  - intros Hlen. unfold analyze_build_history.
    rewrite (last10_app older recent Hlen).
    rewrite (last10_short recent) by lia.
    destruct recent as [|r rs]; [discriminate|].
    destruct (older ++ r :: rs) eqn:E; [|reflexivity].
    apply app_eq_nil in E. destruct E as [_ E]. discriminate.
  - unfold analyze_build_history. destruct h as [|b h]; [simpl; lia|].
    cbv zeta. rewrite !length_app.
    change (negb (Qle_bool (_calculate_avg_build_time (last10 (b :: h))) 300))
      with false.
    repeat match goal with
           | |- context [if ?c then _ else _] => destruct c
           end; simpl; lia.
  - unfold analyze_build_history. destruct h as [|b h].
    + simpl. intros [H | []]. discriminate.
    + cbv zeta.
      change (negb (Qle_bool (_calculate_avg_build_time (last10 (b :: h)))
                             300)) with false.
      rewrite !in_app_iff.
      repeat match goal with
             | |- context [if ?c then _ else _] => destruct c
             end; simpl; intuition discriminate.
Qed.

Definition failed_entry : HistoryEntry :=
  mkHistoryEntry "2024-01-01T00:00:00" "flutter build apk" false
                 "error: gradle" ["error: gradle"].

(** The theorem at two old builds before ten recent ones. *)
Lemma suggestions_read_the_last_ten_builds_witness :
  analyze_build_history (replicate 2 failed_entry ++ replicate 10 failed_entry)
  = analyze_build_history (replicate 10 failed_entry).
Proof.
  apply (suggestions_read_the_last_ten_builds
           [] (replicate 2 failed_entry) (replicate 10 failed_entry)).
  reflexivity.
Defined.


End IsuiteMasterMoreFacts.

(** ** The build runner of build_manager.py over a session *)

Module BuildMgrMoreFacts.
Import PyStr BuildMgr BuildMgrMore.

(** The calls of [run_command] among the events. *)
Definition calls (es : list Event) : nat :=
  length (List.filter (fun e => match e with Call _ _ => true | _ => false end)
                      es).

(** The shape of a history entry: the keys present go with the status. *)
Definition well_formed (h : HistoryEntry) : Prop :=
  (he_status h = "SUCCESS" /\ he_return_code h = None /\ he_error h = None) \/
  (he_status h = "FAILED" /\ he_error h = None /\
   exists rc, he_return_code h = Some rc /\ rc <> 0) \/
  (he_status h = "EXCEPTION" /\ he_return_code h = None /\
   exists message, he_error h = Some message).

(** The file is absent before the first worker ends and holds the whole
    history afterwards. *)
Definition saved (bm : BuildManager) : Prop :=
  (history_json bm = None /\ build_history bm = []) \/
  history_json bm = Some (build_history bm).

Lemma worker_entry_well_formed (w : Worker) (r : Run) (now : string) :
  Forall well_formed (option_list (worker_entry w r now)).
Proof.
  destruct r as [lines rc | message | message]; simpl;
    [|apply Forall_cons; split; [|apply List.Forall_nil]
     |apply List.Forall_nil].
  - destruct (Z.eqb_spec rc 0) as [E|E]; simpl;
      (apply Forall_cons; split; [|apply List.Forall_nil]).
    + left. repeat split.
    + right. left. split; [reflexivity|]. split; [reflexivity|].
      exists rc. split; [reflexivity | exact E].
  - right. right. split; [reflexivity|]. split; [reflexivity|].
    exists message. reflexivity.
Qed.

(** A worker adds no entry only when the logging of its handler raised. *)
Lemma worker_entry_none (w : Worker) (r : Run) (now : string) :
  worker_entry w r now = None <-> exists message, r = Unlogged message.
Proof.
  destruct r as [lines rc | message | message]; simpl.
  - destruct (rc =? 0); split; [discriminate | intros [? [=]]
                                |discriminate | intros [? [=]]].
  - split; [discriminate | intros [? [=]]].
  - split; [eauto | reflexivity].
Qed.

(** The worker ends that add no entry. *)
Definition unlogged (e : Event) : bool :=
  match e with
  | Finish _ (Unlogged _) _ => true
  | _ => false
  end.

Lemma calls_snoc (es : list Event) (e : Event) :
  calls (es ++ [e]) =
    (calls es + match e with Call _ _ => 1 | _ => 0 end)%nat.
Proof.
  unfold calls. rewrite List.filter_app, length_app.
  destruct e; reflexivity.
Qed.

Lemma command_cell_length (command : string) :
  (String.length (command_cell command) <= 53)%nat.
Proof.
  unfold command_cell.
  destruct (Nat.ltb_spec 50 (String.length command)) as [H|H]; [|lia].
  assert (forall a b, String.length (a +:+ b)
                      = (String.length a + String.length b)%nat) as Happ.
  { induction a as [|c a IH]; intros b; simpl; [reflexivity|].
    now rewrite IH. }
  assert (forall n s, (String.length (take_str n s) <= n)%nat) as Htake.
  { induction n as [|n IH]; intros [|c s]; simpl; try lia.
    specialize (IH s). lia. }
  rewrite Happ. specialize (Htake 50%nat command). simpl String.length at 2.
  lia.
Qed.

(** X19: a pending worker, however it ends (exit code 0 or not, an
    exception, an exception whose logging raises too), clears the busy
    flag, adds at most one history entry (none only when the logging of the
    handler raised) and saves the history; the call of [run_command] that
    follows is then accepted: it shows no warning and starts its worker. *)
Theorem runner_is_reusable_after_every_build
    (bm : BuildManager) (k : nat) (w : Worker) (r : Run)
    (now command description : string) :
  workers bm !! k = Some w ->
  is_building (run_in_thread k r now bm) = false /\
  build_history (run_in_thread k r now bm)
    = build_history bm ++ option_list (worker_entry w r now) /\
  (length (option_list (worker_entry w r now)) <= 1)%nat /\
  (worker_entry w r now = None <-> exists message, r = Unlogged message) /\
  history_json (run_in_thread k r now bm)
    = Some (build_history (run_in_thread k r now bm)) /\
  workers (snd (run_command command description (run_in_thread k r now bm)))
    = delete k (workers bm) ++ [mkWorker command description] /\
  dialogs (snd (run_command command description (run_in_thread k r now bm)))
    = dialogs bm.
Proof.
  intros Hk. unfold run_in_thread, run_command. rewrite Hk. simpl.
  split; [reflexivity|]. split; [reflexivity|].
  split; [destruct (worker_entry w r now); simpl; lia|].
  split; [apply worker_entry_none|]. repeat split.
Qed.

(** The theorem at a web build whose logging fails in the handler, followed
    by a call for an Android build. *)
Lemma runner_is_reusable_after_every_build_witness :
  is_building
    (run_in_thread 0 (Unlogged "No space left on device")
       "2024-01-01T00:00:00" (session [BuildMgrFacts.build_web])) = false /\
  build_history
    (run_in_thread 0 (Unlogged "No space left on device")
       "2024-01-01T00:00:00" (session [BuildMgrFacts.build_web])) = [] /\
  workers
    (snd (run_command "flutter build apk --split-per-abi" "Build Android APK"
            (run_in_thread 0 (Unlogged "No space left on device")
               "2024-01-01T00:00:00" (session [BuildMgrFacts.build_web]))))
    = [mkWorker "flutter build apk --split-per-abi" "Build Android APK"].
Proof.
  destruct (runner_is_reusable_after_every_build
              (session [BuildMgrFacts.build_web]) 0
              (mkWorker "flutter build web" "Build Web Application")
              (Unlogged "No space left on device") "2024-01-01T00:00:00"
              "flutter build apk --split-per-abi" "Build Android APK"
              eq_refl)
    as (Hflag & Hhistory & _ & _ & _ & Hworkers & _).
  split; [exact Hflag|]. split; [exact Hhistory | exact Hworkers].
Defined.

Lemma step_accounts (bm : BuildManager) (e : Event) :
  BuildMgrFacts.single_flight bm ->
  ((length (build_history (step bm e)) + length (workers (step bm e))
    + length (dialogs (step bm e)))%nat
   <= length (build_history bm) + length (workers bm) + length (dialogs bm)
      + match e with Call _ _ => 1 | _ => 0 end)%nat /\
  (unlogged e = false ->
   (length (build_history (step bm e)) + length (workers (step bm e))
    + length (dialogs (step bm e)))%nat
   = (length (build_history bm) + length (workers bm) + length (dialogs bm)
      + match e with Call _ _ => 1 | _ => 0 end)%nat).
Proof.
  intros (Hlen & _).
  destruct e as [command description | k r now]; simpl.
  - unfold run_command. destruct (is_building bm); simpl;
      rewrite length_app; simpl; split; intros; lia.
  - unfold run_in_thread. destruct (workers bm !! k) as [w|] eqn:Hk;
      [|split; intros; lia].
    simpl. apply lookup_lt_Some in Hk. rewrite length_app.
    destruct (workers bm) as [|w0 [|w1 ws]]; simpl in *; try lia.
    assert (k = 0%nat) as -> by lia. simpl.
    destruct r as [lines rc | message | message]; simpl;
      [destruct (rc =? 0); simpl| |]; split; intros; (lia || discriminate).
Qed.

Lemma step_history (bm : BuildManager) (e : Event) :
  Forall well_formed (build_history bm) -> saved bm ->
  Forall well_formed (build_history (step bm e)) /\ saved (step bm e).
Proof.
  intros Hwf Hsv. destruct e as [command description | k r now]; simpl.
  - unfold run_command. destruct (is_building bm); simpl; split; assumption.
  - unfold run_in_thread. destruct (workers bm !! k) as [w|];
      [|split; assumption].
    simpl. split; [|right; reflexivity].
    apply Forall_app. split; [exact Hwf|]. apply worker_entry_well_formed.
Qed.

(** X20: in every session, taking each worker to run its [try], [except]
    and [finally] as one step, no call of [run_command] is counted twice:
    the history entries, the pending workers and the warning dialogs
    together are at most the calls, and exactly the calls when no worker's
    handler failed to log.  Every history entry has status SUCCESS, FAILED
    (with a return code other than 0) or EXCEPTION (with the message), and
    once a worker has ended the saved file holds the whole history.  The
    history window shows one row per entry, its command cell cut to at most
    53 characters. *)
Theorem every_call_is_accounted_for (es : list Event) :
  (length (build_history (session es)) + length (workers (session es))
   + length (dialogs (session es)) <= calls es)%nat /\
  (Forall (fun e => unlogged e = false) es ->
   (length (build_history (session es)) + length (workers (session es))
    + length (dialogs (session es)))%nat = calls es) /\
  Forall well_formed (build_history (session es)) /\
  saved (session es) /\
  length (show_build_history (session es))
    = length (build_history (session es)) /\
  Forall (fun row => (String.length (snd (fst (fst row))) <= 53)%nat)
         (show_build_history (session es)).
Proof.
  assert ((length (build_history (session es))
           + length (workers (session es))
           + length (dialogs (session es)) <= calls es)%nat /\
          (Forall (fun e => unlogged e = false) es ->
           (length (build_history (session es))
            + length (workers (session es))
            + length (dialogs (session es)))%nat = calls es) /\
          Forall well_formed (build_history (session es)) /\
          saved (session es)) as (Hle & Hacc & Hwf & Hsv).
  { induction es as [|e es IH] using rev_ind.
    - split; [simpl; lia|]. split; [reflexivity|].
      split; [apply List.Forall_nil|]. left. split; reflexivity.
    - destruct IH as (Hle & Hacc & Hwf & Hsv).
      pose proof (BuildMgrFacts.session_single_flight es) as Hc.
      destruct (step_accounts (session es) e Hc) as [Hstep Hexact].
      unfold session in *. rewrite fold_left_app. simpl.
      rewrite calls_snoc.
      split; [lia|]. split; [|apply step_history; assumption].
      intros Hall. apply Forall_app in Hall as [Hes He].
      apply Forall_cons in He as [He _].
      rewrite (Hexact He), (Hacc Hes). reflexivity. }
  split; [exact Hle|]. split; [exact Hacc|].
  split; [exact Hwf|]. split; [exact Hsv|].
  unfold show_build_history. split; [apply length_map|].
  apply Forall_map, Forall_forall. intros h _. simpl.
  apply command_cell_length.
Qed.

End BuildMgrMoreFacts.
